(** * swgoh-stackrank: the visual editor's tier resolver, synergy matcher,
      slot accountant and draft session

    A shallow embedding of [Tools/VisualEditor/editor.js].  JavaScript
    numbers that hold tiers and bonuses are integers ([Z]); an optional
    property is an [option] ([None] is [undefined]); the [Map] and [Set]
    behind the omicron ability index are a [gmap] and a [gset]; the global
    variables of the script are the fields of one [State] record that every
    stateful function takes and returns. *)

From Stdlib Require Import ZArith Lia Bool Ascii String DecimalString.
From Stdlib Require OrderedTypeEx.
From stdpp Require Import base option list gmap strings sorting.

Local Open Scope string_scope.
Local Open Scope list_scope.
Local Open Scope Z_scope.

(** ** JavaScript operators used by the script *)

(** [x ?? d] on an optional number. *)
Definition nullish (x : option Z) (d : Z) : Z :=
  match x with Some v => v | None => d end.

(** [x || d] on an optional number: [undefined] and [0] are falsy. *)
Definition orElse (x : option Z) (d : Z) : Z :=
  match x with
  | Some v => if v =? 0 then d else v
  | None => d
  end.

(** [x || []] on an optional array (an array, even empty, is truthy). *)
Definition orEmpty {A} (x : option (list A)) : list A :=
  match x with Some l => l | None => [] end.

(** [flag || false] on an optional boolean. *)
Definition orFalse (x : option bool) : bool :=
  match x with Some b => b | None => false end.

(** [arr.includes(s)] on an array of strings. *)
Definition includes (arr : list string) (s : string) : bool :=
  existsb (String.eqb s) arr.

(** Truthiness of a value that is [undefined] or a boolean. *)
Definition truthy (v : option bool) : bool :=
  match v with Some b => b | None => false end.

(** [Math.max(1, Math.min(19, x))]. *)
Definition clampTier (x : Z) : Z := Z.max 1 (Z.min 19 x).

(** Decimal rendering of a number inside a template string. *)
Definition showZ (z : Z) : string := NilZero.string_of_int (Z.to_int z).

(** ** Record model *)

Record IgnoreRequirements := {
  gear : option bool;
  rarity : option bool
}.

Record CategoryDefinition := {
  include : option (list string);
  exclude : option (list string);
  numberMatchesRequired : option Z
}.

Record SynergySet := {
  synergyEnhancement : option Z;
  synergyEnhancementOmicron : option Z;
  characters : option (list string);
  skipIfPresentCharacters : option (list string);
  categoryDefinitions : option (list CategoryDefinition)
}.

Record Character := {
  id : string;
  baseTier : Z;
  omicronBoost : option Z;
  ignoreRequirements : option IgnoreRequirements;
  ignoreSynergyRequirements : option IgnoreRequirements;
  requiredZetas : option (list string);
  requiresAllZetas : option bool;
  requiredOmicrons : option (list string);
  requiresAllOmicrons : option bool;
  categories : option (list string);
  synergySets : option (list SynergySet)
}.

(** The draft snapshot built by [initializeDraft]: the fields of the
    character under [characterId] instead of [id].  Its field names carry
    the prefix [draft_] because a projection name is used once. *)
Record Draft := {
  characterId : string;
  draft_baseTier : Z;
  draft_omicronBoost : option Z;
  draft_ignoreRequirements : option IgnoreRequirements;
  draft_ignoreSynergyRequirements : option IgnoreRequirements;
  draft_requiredZetas : option (list string);
  draft_requiresAllZetas : option bool;
  draft_requiredOmicrons : option (list string);
  draft_requiresAllOmicrons : option bool;
  draft_categories : option (list string);
  draft_synergySets : option (list SynergySet)
}.

(** One request sent by [fetch] or one file handed to the browser. *)
Record Written := {
  target : string;
  body : list Character
}.

(** The script's global variables, plus the observable effects of
    [alert], [updateStatus] and the two writers as logs. *)
Record State := {
  characterData : list Character;
  selectedCharacter : option nat;   (* an alias: index into characterData *)
  includeSynergy : bool;
  includeOmicron : bool;
  selectedOmicronModeSet : gset Z;
  omicronAbilityIndex : gmap string (gset Z);
  hasUnsavedChanges : bool;
  currentDraft : option Draft;
  currentDraftBaseline : option Draft;
  draftIsDirty : bool;
  alerts : list string;
  statusLog : list string;
  written : list Written
}.

(** ** Slot accountant *)

(** [getSynergySlotUsage(synergySet)] for a set that is not null. *)
Definition getSynergySlotUsage (synergySet : SynergySet) : Z :=
  let totalSlots := 0 in
  let totalSlots :=
    match characters synergySet with
    | Some cs => totalSlots + Z.of_nat (length cs)
    | None => totalSlots
    end in
  let totalSlots :=
    match categoryDefinitions synergySet with
    | Some defs =>
        totalSlots +
        fold_left (fun sum catDef => sum + orElse (numberMatchesRequired catDef) 0)
                  defs 0
    | None => totalSlots
    end in
  totalSlots.

(** ** Synergy matcher *)

(** [synergySet.characters && synergySet.characters.includes(character.id)]:
    the value is [undefined] when the list is absent. *)
Definition doesSynergyOmicronApplyToCharacter
    (synergySet : SynergySet) (character : Character) : option bool :=
  match characters synergySet with
  | None => None
  | Some cs => Some (includes cs (id character))
  end.

(** One category definition against the candidate's tags (the body of the
    [for] loop of [doesSynergySetApplyToCharacter]). *)
Definition categoryDefinitionMatches
    (charCategories : list string) (catDef : CategoryDefinition) : bool :=
  let includeCategories := orEmpty (include catDef) in
  let excludeCategories := orEmpty (exclude catDef) in
  let hasAllIncludes := forallb (fun cat => includes charCategories cat) includeCategories in
  let hasAnyExcludes := existsb (fun cat => includes charCategories cat) excludeCategories in
  hasAllIncludes && negb hasAnyExcludes.

Definition doesSynergySetApplyToCharacter
    (synergySet : SynergySet) (character : Character) : bool :=
  if match characters synergySet with
     | Some cs => includes cs (id character)
     | None => false
     end
  then true
  else
    match categoryDefinitions synergySet with
    | Some defs =>
        if (0 <? Z.of_nat (length defs)) then
          let charCategories := orEmpty (categories character) in
          existsb (categoryDefinitionMatches charCategories) defs
        else false
    | None => false
    end.

(** ** Tier resolver *)

(** [hasMatchingOmicronAbilities(characterId)]. *)
Definition hasMatchingOmicronAbilities (st : State) (characterId : string) : bool :=
  if bool_decide (size (selectedOmicronModeSet st) = 0%nat) then false
  else
    match omicronAbilityIndex st !! characterId with
    | None => false
    | Some characterModes =>
        existsb (fun mode => bool_decide (mode ∈ selectedOmicronModeSet st))
                (elements characterModes)
    end.

(** The entries [calculateSynergyTiers] builds for a winning set. *)
Record TierCalculation := {
  tc_finalTier : Z;
  tc_baseTier : Z;
  tc_appliedOmicronBonus : Z;
  tc_omicronSource : option string;
  tc_synergyEnhancement : Z;
  tc_synergySet : SynergySet;
  tc_setIndex : nat
}.

Record SynergyTiers := {
  bestStandard : option TierCalculation;
  bestOmicron : option TierCalculation
}.

(** Whether a candidate tier replaces the best entry so far:
    [best === null || tier < best.finalTier]. *)
Definition improves (best : option TierCalculation) (tier : Z) : bool :=
  match best with
  | None => true
  | Some b => tier <? tc_finalTier b
  end.

(** The callback of [character.synergySets.forEach] in
    [calculateSynergyTiers], on the pair of running bests. *)
Definition synergyTiersStep (character : Character) (acc : SynergyTiers)
    (entry : nat * SynergySet) : SynergyTiers :=
  let '(setIndex, synergySet) := entry in
  let omicronBoost := nullish (omicronBoost character) 0 in
  let standardEnhancement := orElse (synergyEnhancement synergySet) 0 in
  let bestStandard' :=
    if 0 <? standardEnhancement then
      let standardTier := baseTier character - standardEnhancement in
      if improves (bestStandard acc) standardTier then
        Some {| tc_finalTier := standardTier;
                tc_baseTier := baseTier character;
                tc_appliedOmicronBonus := 0;
                tc_omicronSource := None;
                tc_synergyEnhancement := standardEnhancement;
                tc_synergySet := synergySet;
                tc_setIndex := setIndex |}
      else bestStandard acc
    else bestStandard acc in
  let bestOmicron' :=
    if (0 <? omicronBoost) && (0 <? standardEnhancement) then
      let omicronTier := baseTier character - omicronBoost - standardEnhancement in
      if improves (bestOmicron acc) omicronTier then
        Some {| tc_finalTier := omicronTier;
                tc_baseTier := baseTier character;
                tc_appliedOmicronBonus := omicronBoost;
                tc_omicronSource := Some "character";
                tc_synergyEnhancement := standardEnhancement;
                tc_synergySet := synergySet;
                tc_setIndex := setIndex |}
      else bestOmicron acc
    else bestOmicron acc in
  {| bestStandard := bestStandard'; bestOmicron := bestOmicron' |}.

(** Array entries paired with their indices, as [forEach] hands them over. *)
Definition indexed {A} (l : list A) : list (nat * A) := imap (fun i x => (i, x)) l.

Definition calculateSynergyTiers (character : Character) : SynergyTiers :=
  let none := {| bestStandard := None; bestOmicron := None |} in
  match synergySets character with
  | None => none
  | Some sets =>
      if (Z.of_nat (length sets) =? 0) then none
      else fold_left (synergyTiersStep character) (indexed sets) none
  end.

(** Personal omicron component (the block that sets [personalOmicron]). *)
Definition personalOmicron (st : State) (character : Character) : Z :=
  let hasOmicronAbilities := hasMatchingOmicronAbilities st (id character) in
  match omicronBoost character, hasOmicronAbilities with
  | Some boost, true => boost
  | _, true => 1
  | _, false => 0
  end.

(** The callback of [otherChar.synergySets.forEach]: the running pair is
    ([bestSynergyOmicronBonus], [bestSynergyOmicronSource]). *)
Definition omicronScanSet (character otherChar : Character)
    (acc : Z * option string) (synergySet : SynergySet) : Z * option string :=
  let synergyOmicronBonus := nullish (synergyEnhancementOmicron synergySet) 0 in
  if synergyOmicronBonus =? 0 then acc
  else if truthy (doesSynergyOmicronApplyToCharacter synergySet character) then
    if fst acc <? synergyOmicronBonus then (synergyOmicronBonus, Some (id otherChar))
    else acc
  else acc.

(** The callback of [characterData.forEach]. *)
Definition omicronScanChar (st : State) (character : Character)
    (acc : Z * option string) (otherChar : Character) : Z * option string :=
  match synergySets otherChar with
  | None => acc
  | Some sets =>
      if (Z.of_nat (length sets) =? 0) then acc
      else if negb (hasMatchingOmicronAbilities st (id otherChar)) then acc
      else fold_left (omicronScanSet character otherChar) sets acc
  end.

(** The scan of the whole dataset for a synergy omicron that names the
    character. *)
Definition bestSynergyOmicron (st : State) (character : Character) : Z * option string :=
  fold_left (omicronScanChar st character) (characterData st) (0, None).

Record TierResult := {
  finalTier : Z;
  appliedOmicronBonus : Z;
  omicronSource : option string
}.

Definition calculateFinalTier (st : State) (character : Character) : TierResult :=
  let finalTier0 := baseTier character in
  (* omicron block *)
  let '(finalTier1, appliedOmicronBonus, omicronSource) :=
    if includeOmicron st then
      let personalOmicron := personalOmicron st character in
      let '(bestSynergyOmicronBonus, bestSynergyOmicronSource) :=
        bestSynergyOmicron st character in
      let '(applied, source) :=
        if (0 <? personalOmicron) && (bestSynergyOmicronBonus <=? personalOmicron)
        then (personalOmicron, Some "character")
        else if 0 <? bestSynergyOmicronBonus
        then (bestSynergyOmicronBonus, bestSynergyOmicronSource)
        else (0, None) in
      (finalTier0 - applied, applied, source)
    else (finalTier0, 0, None) in
  (* synergy block *)
  let finalTier2 :=
    if includeSynergy st &&
       match synergySets character with
       | Some sets => 0 <? Z.of_nat (length sets)
       | None => false
       end
    then
      let synergyTiers := calculateSynergyTiers character in
      let bestSynergy :=
        if includeOmicron st && bool_decide (is_Some (bestOmicron synergyTiers))
        then bestOmicron synergyTiers
        else bestStandard synergyTiers in
      match bestSynergy with
      | Some b => baseTier character - appliedOmicronBonus - tc_synergyEnhancement b
      | None => finalTier1
      end
    else finalTier1 in
  {| finalTier := clampTier finalTier2;
     appliedOmicronBonus := appliedOmicronBonus;
     omicronSource := omicronSource |}.

(** ** Draft session *)

(** The ASCII part of what [String.prototype.trim] strips (tab, line feed,
    vertical tab, form feed, carriage return, space). *)
Definition isWhiteSpace (c : ascii) : bool :=
  let n := nat_of_ascii c in
  ((9 <=? n)%nat && (n <=? 13)%nat) || (n =? 32)%nat.

Fixpoint trimStart (s : string) : string :=
  match s with
  | EmptyString => EmptyString
  | String c rest => if isWhiteSpace c then trimStart rest else s
  end.

Fixpoint trimEnd (s : string) : string :=
  match s with
  | EmptyString => EmptyString
  | String c rest =>
      match trimEnd rest with
      | EmptyString => if isWhiteSpace c then EmptyString else String c EmptyString
      | kept => String c kept
      end
  end.

Definition trim (s : string) : string := trimEnd (trimStart s).

(** The callback [z => z.trim() !== ''] of the commit-time filters. *)
Definition notBlank (s : string) : bool := negb (String.eqb (trim s) "").

(** The [for] loop that compares two arrays of equal length entry by
    entry; [same] is the negation of the test that makes it return. *)
Fixpoint sameEntries {A} (same : A -> A -> bool) (l1 l2 : list A) : bool :=
  match l1, l2 with
  | x :: l1', y :: l2' => same x y && sameEntries same l1' l2'
  | _, _ => true
  end.

(** The comparison of two optional arrays in [deepEqualDrafts]:
    presence must agree, then lengths, then entries. *)
Definition sameArray {A} (same : A -> A -> bool) (a1 a2 : option (list A)) : bool :=
  match a1, a2 with
  | None, None => true
  | Some l1, Some l2 =>
      (length l1 =? length l2)%nat && sameEntries same l1 l2
  | _, _ => false
  end.

(** [x !== y] negated, on optional numbers and optional booleans. *)
Definition sameNumber (x y : option Z) : bool := bool_decide (x = y).
Definition sameFlag (x y : option bool) : bool := bool_decide (x = y).

(** [ir?.gear || false]. *)
Definition gearOf (ir : option IgnoreRequirements) : bool :=
  match ir with Some r => orFalse (gear r) | None => false end.

(** [ir?.rarity || false]. *)
Definition rarityOf (ir : option IgnoreRequirements) : bool :=
  match ir with Some r => orFalse (rarity r) | None => false end.

Definition sameCategoryDefinition (catDef1 catDef2 : CategoryDefinition) : bool :=
  sameNumber (numberMatchesRequired catDef1) (numberMatchesRequired catDef2)
  && sameArray String.eqb (include catDef1) (include catDef2)
  && sameArray String.eqb (exclude catDef1) (exclude catDef2).

Definition sameSynergySet (set1 set2 : SynergySet) : bool :=
  sameNumber (synergyEnhancement set1) (synergyEnhancement set2)
  && sameNumber (synergyEnhancementOmicron set1) (synergyEnhancementOmicron set2)
  && sameArray String.eqb (characters set1) (characters set2)
  && sameArray sameCategoryDefinition (categoryDefinitions set1) (categoryDefinitions set2)
  && sameArray String.eqb (skipIfPresentCharacters set1) (skipIfPresentCharacters set2).

(** [deepEqualDrafts(draft1, draft2)]; [None] is [null].  Two references
    to one object agree on every comparison below, so the first line of
    the source ([draft1 === draft2]) needs no case of its own for objects. *)
Definition deepEqualDrafts (draft1 draft2 : option Draft) : bool :=
  match draft1, draft2 with
  | None, None => true
  | None, Some _ | Some _, None => false
  | Some d1, Some d2 =>
      bool_decide (draft_baseTier d1 = draft_baseTier d2)
      && sameNumber (draft_omicronBoost d1) (draft_omicronBoost d2)
      && sameFlag (draft_requiresAllZetas d1) (draft_requiresAllZetas d2)
      && sameFlag (draft_requiresAllOmicrons d1) (draft_requiresAllOmicrons d2)
      && Bool.eqb (gearOf (draft_ignoreRequirements d1)) (gearOf (draft_ignoreRequirements d2))
      && Bool.eqb (rarityOf (draft_ignoreRequirements d1)) (rarityOf (draft_ignoreRequirements d2))
      && Bool.eqb (gearOf (draft_ignoreSynergyRequirements d1))
                  (gearOf (draft_ignoreSynergyRequirements d2))
      && Bool.eqb (rarityOf (draft_ignoreSynergyRequirements d1))
                  (rarityOf (draft_ignoreSynergyRequirements d2))
      && sameArray String.eqb (draft_requiredZetas d1) (draft_requiredZetas d2)
      && sameArray String.eqb (draft_requiredOmicrons d1) (draft_requiredOmicrons d2)
      && sameArray String.eqb (draft_categories d1) (draft_categories d2)
      && sameArray sameSynergySet (draft_synergySets d1) (draft_synergySets d2)
  end.

(** [refreshDraftDirtyState()] (the save button is display only). *)
Definition refreshDraftDirtyState (st : State) : State :=
  let dirty :=
    match currentDraft st, currentDraftBaseline st with
    | Some _, Some _ => negb (deepEqualDrafts (currentDraft st) (currentDraftBaseline st))
    | _, _ => false
    end in
  {| characterData := characterData st;
     selectedCharacter := selectedCharacter st;
     includeSynergy := includeSynergy st;
     includeOmicron := includeOmicron st;
     selectedOmicronModeSet := selectedOmicronModeSet st;
     omicronAbilityIndex := omicronAbilityIndex st;
     hasUnsavedChanges := hasUnsavedChanges st;
     currentDraft := currentDraft st;
     currentDraftBaseline := currentDraftBaseline st;
     draftIsDirty := dirty;
     alerts := alerts st;
     statusLog := statusLog st;
     written := written st |}.

(** [arr ? [...arr] : undefined]. *)
Definition cloneArray {A} (arr : option (list A)) : option (list A) :=
  match arr with Some l => Some (map (fun x => x) l) | None => None end.

Definition cloneCategoryDefinition (catDef : CategoryDefinition) : CategoryDefinition :=
  {| include := cloneArray (include catDef);
     exclude := cloneArray (exclude catDef);
     numberMatchesRequired := numberMatchesRequired catDef |}.

(** The local helper [deepCloneSynergySets] of [initializeDraft]. *)
Definition deepCloneSynergySets (sets : option (list SynergySet)) : option (list SynergySet) :=
  match sets with
  | None => None
  | Some l =>
      Some (map (fun set =>
        {| synergyEnhancement := synergyEnhancement set;
           synergyEnhancementOmicron := synergyEnhancementOmicron set;
           characters := cloneArray (characters set);
           skipIfPresentCharacters := cloneArray (skipIfPresentCharacters set);
           categoryDefinitions :=
             match categoryDefinitions set with
             | Some defs => Some (map cloneCategoryDefinition defs)
             | None => None
             end |}) l)
  end.

(** [{ ...obj }] on an optional requirements object. *)
Definition cloneRequirements (ir : option IgnoreRequirements) : option IgnoreRequirements :=
  match ir with
  | Some r => Some {| gear := gear r; rarity := rarity r |}
  | None => None
  end.

(** The object [draftSnapshot] of [initializeDraft]. *)
Definition draftSnapshot (character : Character) : Draft :=
  {| characterId := id character;
     draft_baseTier := baseTier character;
     draft_omicronBoost := omicronBoost character;
     draft_ignoreRequirements := cloneRequirements (ignoreRequirements character);
     draft_ignoreSynergyRequirements := cloneRequirements (ignoreSynergyRequirements character);
     draft_requiredZetas := cloneArray (requiredZetas character);
     draft_requiresAllZetas := requiresAllZetas character;
     draft_requiredOmicrons := cloneArray (requiredOmicrons character);
     draft_requiresAllOmicrons := requiresAllOmicrons character;
     draft_categories := cloneArray (categories character);
     draft_synergySets := deepCloneSynergySets (synergySets character) |}.

(** [initializeDraft(character)]: draft and baseline are two copies of
    the snapshot ([JSON.parse(JSON.stringify(..))] copies a value of this
    record type as it is: absent properties stay absent). *)
Definition initializeDraft (character : Character) (st : State) : State :=
  {| characterData := characterData st;
     selectedCharacter := selectedCharacter st;
     includeSynergy := includeSynergy st;
     includeOmicron := includeOmicron st;
     selectedOmicronModeSet := selectedOmicronModeSet st;
     omicronAbilityIndex := omicronAbilityIndex st;
     hasUnsavedChanges := hasUnsavedChanges st;
     currentDraft := Some (draftSnapshot character);
     currentDraftBaseline := Some (draftSnapshot character);
     draftIsDirty := false;
     alerts := alerts st;
     statusLog := statusLog st;
     written := written st |}.

(** ** Committing a draft *)

Definition newline : string := String (ascii_of_nat 10) EmptyString.

(** [value < lo || value > hi]. *)
Definition outOfRange (value lo hi : Z) : bool := (value <? lo) || (hi <? value).

(** [field !== undefined && (field < 0 || field > 10)]. *)
Definition presentOutOfRange (field : option Z) : bool :=
  match field with
  | Some v => outOfRange v 0 10
  | None => false
  end.

(** The body of the validation loop of [updateCharacter] for the set at
    index [i]: the text of the [alert] that ends the commit, if any. *)
Definition validateSynergySet (i : nat) (set : SynergySet) : option string :=
  let number := showZ (Z.of_nat i + 1) in
  if presentOutOfRange (synergyEnhancement set) then
    Some ("Synergy Set #" +:+ number +:+ ": Synergy enhancement must be between 0 and 10")
  else if presentOutOfRange (synergyEnhancementOmicron set) then
    Some ("Synergy Set #" +:+ number +:+ ": Omicron Boost must be between 0 and 10")
  else
    let slotsUsed := getSynergySlotUsage set in
    if outOfRange slotsUsed 1 4 then
      let charCount := Z.of_nat (length (orEmpty (characters set))) in
      let matchCount := slotsUsed - charCount in
      Some ("Synergy Set #" +:+ number +:+
            ": Must reference between 1 and 4 total teammates (found: " +:+
            showZ slotsUsed +:+ ")." +:+ newline +:+ newline +:+
            "Characters: " +:+ showZ charCount +:+ newline +:+
            "Category matches required: " +:+ showZ matchCount +:+ newline +:+ newline +:+
            "Please adjust the synergy set before updating.")
    else None.

(** The validation loop, from index [i] on; it stops at the first alert. *)
Fixpoint validateSynergySets (i : nat) (sets : list SynergySet) : option string :=
  match sets with
  | [] => None
  | set :: rest =>
      match validateSynergySet i set with
      | Some message => Some message
      | None => validateSynergySets (S i) rest
      end
  end.

(** The checks at the head of [updateCharacter], in source order. *)
Definition validateDraft (draft : Draft) : option string :=
  if outOfRange (draft_baseTier draft) 1 19 then
    Some "Base tier must be between 1 and 19"
  else if presentOutOfRange (draft_omicronBoost draft) then
    Some "Omicron Boost must be between 0 and 10"
  else
    match draft_synergySets draft with
    | Some sets => validateSynergySets 0 sets
    | None => None
    end.

(** [filtered.length > 0 ? filtered : undefined]. *)
Definition nonEmpty {A} (l : list A) : option (list A) :=
  match l with [] => None | _ => Some l end.

(** A required-ability list as committed: blanks dropped, an empty
    result deleted. *)
Definition commitList (draftList : option (list string)) : option (list string) :=
  match draftList with
  | Some l => nonEmpty (List.filter notBlank l)
  | None => None
  end.

(** The callback of [currentDraft.synergySets.map] in [updateCharacter]. *)
Definition commitSynergySet (set : SynergySet) : SynergySet :=
  {| synergyEnhancement := synergyEnhancement set;
     synergyEnhancementOmicron := synergyEnhancementOmicron set;
     characters := commitList (characters set);
     skipIfPresentCharacters := commitList (skipIfPresentCharacters set);
     categoryDefinitions :=
       match categoryDefinitions set with
       | Some defs => Some (map cloneCategoryDefinition defs)
       | None => None
       end |}.

(** The assignments and deletions that copy the draft into the selected
    character; only [id] is kept. *)
Definition applyDraft (draft : Draft) (character : Character) : Character :=
  {| id := id character;
     baseTier := draft_baseTier draft;
     omicronBoost := draft_omicronBoost draft;
     ignoreRequirements := cloneRequirements (draft_ignoreRequirements draft);
     ignoreSynergyRequirements := cloneRequirements (draft_ignoreSynergyRequirements draft);
     requiredZetas := commitList (draft_requiredZetas draft);
     requiresAllZetas := draft_requiresAllZetas draft;
     requiredOmicrons := commitList (draft_requiredOmicrons draft);
     requiresAllOmicrons := draft_requiresAllOmicrons draft;
     categories := commitList (draft_categories draft);
     synergySets :=
       match draft_synergySets draft with
       | Some sets => Some (map commitSynergySet sets)
       | None => None
       end |}.

(** [alert(message)]. *)
Definition alert (message : string) (st : State) : State :=
  {| characterData := characterData st;
     selectedCharacter := selectedCharacter st;
     includeSynergy := includeSynergy st;
     includeOmicron := includeOmicron st;
     selectedOmicronModeSet := selectedOmicronModeSet st;
     omicronAbilityIndex := omicronAbilityIndex st;
     hasUnsavedChanges := hasUnsavedChanges st;
     currentDraft := currentDraft st;
     currentDraftBaseline := currentDraftBaseline st;
     draftIsDirty := draftIsDirty st;
     alerts := alerts st ++ [message];
     statusLog := statusLog st;
     written := written st |}.

(** [updateStatus(message, ..)]. *)
Definition updateStatus (message : string) (st : State) : State :=
  {| characterData := characterData st;
     selectedCharacter := selectedCharacter st;
     includeSynergy := includeSynergy st;
     includeOmicron := includeOmicron st;
     selectedOmicronModeSet := selectedOmicronModeSet st;
     omicronAbilityIndex := omicronAbilityIndex st;
     hasUnsavedChanges := hasUnsavedChanges st;
     currentDraft := currentDraft st;
     currentDraftBaseline := currentDraftBaseline st;
     draftIsDirty := draftIsDirty st;
     alerts := alerts st;
     statusLog := statusLog st ++ [message];
     written := written st |}.

(** The dataset and the unsaved flag after a commit. *)
Definition storeCharacterData (data : list Character) (unsaved : bool) (st : State) : State :=
  {| characterData := data;
     selectedCharacter := selectedCharacter st;
     includeSynergy := includeSynergy st;
     includeOmicron := includeOmicron st;
     selectedOmicronModeSet := selectedOmicronModeSet st;
     omicronAbilityIndex := omicronAbilityIndex st;
     hasUnsavedChanges := unsaved;
     currentDraft := currentDraft st;
     currentDraftBaseline := currentDraftBaseline st;
     draftIsDirty := draftIsDirty st;
     alerts := alerts st;
     statusLog := statusLog st;
     written := written st |}.

(** [updateCharacter()].  The selected character is an alias of an entry
    of [characterData], so writing its fields rewrites that entry. *)
Definition updateCharacter (st : State) : State :=
  match selectedCharacter st, currentDraft st with
  | Some selected, Some draft =>
      match validateDraft draft with
      | Some message => alert message st
      | None =>
          let data := alter (applyDraft draft) selected (characterData st) in
          let st := storeCharacterData data true st in
          let st := updateStatus "Character updated - unsaved changes" st in
          match data !! selected with
          | Some character => initializeDraft character st
          | None => st
          end
      end
  | _, _ => st
  end.

(** ** Saving and exporting *)

(** [Array.prototype.sort(compareFn)]: the sort is stable, so for a
    consistent comparator its result is the one of this insertion sort
    (an entry is placed before the first entry it does not come after). *)
Fixpoint sortInsert {A} (compareFn : A -> A -> Z) (x : A) (sorted : list A) : list A :=
  match sorted with
  | [] => [x]
  | y :: rest =>
      if 0 <? compareFn x y then y :: sortInsert compareFn x rest
      else x :: sorted
  end.

Definition arraySort {A} (compareFn : A -> A -> Z) (arr : list A) : list A :=
  fold_right (sortInsert compareFn) [] arr.



Section Persistence.

(** [String.prototype.localeCompare] with default options is the
    collation of the host (negative, zero or positive); the script does
    not define it. *)
Variable localeCompare : string -> string -> Z.

(** The comparator [(a, b) => a.id.localeCompare(b.id)]. *)
Definition byId (a b : Character) : Z := localeCompare (id a) (id b).

(** [characterData.sort(..)] sorts the array in place; the selected
    character keeps pointing at the same object, whose index is looked
    up among the entries sorted together with their old indices. *)
Definition sortCharacterData (st : State) : State :=
  let moved :=
    arraySort (fun p q : nat * Character => byId (snd p) (snd q))
              (indexed (characterData st)) in
  {| characterData := arraySort byId (characterData st);
     selectedCharacter :=
       match selectedCharacter st with
       | Some selected =>
           fst <$> list_find (fun p : nat * Character => fst p = selected) moved
       | None => None
       end;
     includeSynergy := includeSynergy st;
     includeOmicron := includeOmicron st;
     selectedOmicronModeSet := selectedOmicronModeSet st;
     omicronAbilityIndex := omicronAbilityIndex st;
     hasUnsavedChanges := hasUnsavedChanges st;
     currentDraft := currentDraft st;
     currentDraftBaseline := currentDraftBaseline st;
     draftIsDirty := draftIsDirty st;
     alerts := alerts st;
     statusLog := statusLog st;
     written := written st |}.





End Persistence.

(** ** The properties' vocabulary *)

(** The largest entry of a list of bonuses, [0] for none. *)
Definition maxOr0 (values : list Z) : Z := foldr Z.max 0 values.

(** The sum of a list of numbers. *)
Definition sumZ (values : list Z) : Z := foldr Z.add 0 values.

(** The [synergyEnhancement] values above [0] of a list of sets. *)
Definition positiveEnhancements (sets : list SynergySet) : list Z :=
  List.filter (fun e => 0 <? e)
    (map (fun set => nullish (synergyEnhancement set) 0) sets).

(** Best standard synergy of a character: the largest [synergyEnhancement]
    above [0] among its own sets, [0] when no set has one. *)
Definition bestSynergyOf (character : Character) : Z :=
  maxOr0 (positiveEnhancements (orEmpty (synergySets character))).

(** Loop invariant of [calculateSynergyTiers] after the entries [seen]:
    both running bests carry the largest positive enhancement seen. *)
Definition synergyTiersInvariant (character : Character)
    (seen : list (nat * SynergySet)) (acc : SynergyTiers) : Prop :=
  let best := maxOr0 (positiveEnhancements (map snd seen)) in
  let boost := nullish (omicronBoost character) 0 in
  match bestStandard acc with
  | None => best = 0
  | Some b => tc_synergyEnhancement b = best /\
              tc_finalTier b = baseTier character - best /\ 0 < best
  end /\
  match bestOmicron acc with
  | None => 0 < boost -> best = 0
  | Some b => tc_synergyEnhancement b = best /\
              tc_finalTier b = baseTier character - boost - best /\ 0 < boost
  end.

(** The positive omicron values of the sets among [sets] that name the
    target. *)
Definition namedOmicrons (target : Character) (sets : list SynergySet) : list Z :=
  List.filter (fun e => 0 <? e)
    (map (fun set => nullish (synergyEnhancementOmicron set) 0)
         (List.filter (fun set => truthy (doesSynergyOmicronApplyToCharacter set target))
                      sets)).

(** The synergy omicron values a character [x] hands to [target]: those of
    its sets that are above [0] and list the target by id, none unless [x]
    has matching omicron abilities. *)
Definition grantedOmicrons (st : State) (target x : Character) : list Z :=
  if hasMatchingOmicronAbilities st (id x)
  then namedOmicrons target (orEmpty (synergySets x))
  else [].

(** [x] has matching omicron abilities and owns a set whose
    [synergyEnhancementOmicron] is [bonus] and whose [characters] list
    names the target. *)
Definition grants (st : State) (target x : Character) (bonus : Z) : Prop :=
  hasMatchingOmicronAbilities st (id x) = true /\
  exists set, set ∈ orEmpty (synergySets x) /\
              synergyEnhancementOmicron set = Some bonus /\
              id target ∈ orEmpty (characters set).

(** Loop invariant of the inner [forEach] of the omicron scan, entered
    with the running pair [start], after the sets [seen] of [x]. *)
Definition omicronSetsInvariant (target x : Character) (start : Z * option string)
    (seen : list SynergySet) (acc : Z * option string) : Prop :=
  fst acc = Z.max (fst start) (maxOr0 (namedOmicrons target seen)) /\
  (acc = start \/
   (fst start < fst acc /\ snd acc = Some (id x) /\
    exists set, set ∈ seen /\ synergyEnhancementOmicron set = Some (fst acc) /\
                id target ∈ orEmpty (characters set))).

(** Loop invariant of the outer [forEach] of the omicron scan after the
    characters [seen]. *)
Definition omicronScanInvariant (st : State) (target : Character)
    (seen : list Character) (acc : Z * option string) : Prop :=
  fst acc = maxOr0 (flat_map (grantedOmicrons st target) seen) /\
  (fst acc = 0 -> snd acc = None) /\
  (0 < fst acc ->
   exists x, x ∈ seen /\ snd acc = Some (id x) /\ grants st target x (fst acc)).

(** The externally granted component in the words of the specification:
    only characters other than the target are scanned. *)
Definition externalOmicron (st : State) (target : Character) : Z :=
  maxOr0 (flat_map (grantedOmicrons st target)
            (List.filter (fun x => negb (String.eqb (id x) (id target)))
                         (characterData st))).

(** A category definition matches a list of tags: every include tag is
    carried and no exclude tag is. *)
Definition definitionMatches (tags : list string) (catDef : CategoryDefinition) : Prop :=
  (forall tag, tag ∈ orEmpty (include catDef) -> tag ∈ tags) /\
  (forall tag, tag ∈ orEmpty (exclude catDef) -> tag ∉ tags).

(** A value, when present, lies outside [0..10]. *)
Definition presentOutside (field : option Z) : Prop :=
  exists v, field = Some v /\ (v < 0 \/ 10 < v).

(** Some check of the validation loop fails on the set: an enhancement
    present and outside [0..10], or a slot usage outside [1..4]. *)
Definition setFailsCheck (set : SynergySet) : Prop :=
  presentOutside (synergyEnhancement set) \/
  presentOutside (synergyEnhancementOmicron set) \/
  getSynergySlotUsage set < 1 \/ 4 < getSynergySlotUsage set.

(** Some commit-time check of [updateCharacter] fails on the draft. *)
Definition failsCheck (draft : Draft) : Prop :=
  draft_baseTier draft < 1 \/ 19 < draft_baseTier draft \/
  presentOutside (draft_omicronBoost draft) \/
  exists set, set ∈ orEmpty (draft_synergySets draft) /\ setFailsCheck set.

(** What [deepEqualDrafts] compares: every field but [characterId]; the
    two requirement objects only through their effective flags. *)
Definition sameDraftFields (d1 d2 : Draft) : Prop :=
  draft_baseTier d1 = draft_baseTier d2 /\
  draft_omicronBoost d1 = draft_omicronBoost d2 /\
  draft_requiresAllZetas d1 = draft_requiresAllZetas d2 /\
  draft_requiresAllOmicrons d1 = draft_requiresAllOmicrons d2 /\
  gearOf (draft_ignoreRequirements d1) = gearOf (draft_ignoreRequirements d2) /\
  rarityOf (draft_ignoreRequirements d1) = rarityOf (draft_ignoreRequirements d2) /\
  gearOf (draft_ignoreSynergyRequirements d1) = gearOf (draft_ignoreSynergyRequirements d2) /\
  rarityOf (draft_ignoreSynergyRequirements d1) = rarityOf (draft_ignoreSynergyRequirements d2) /\
  draft_requiredZetas d1 = draft_requiredZetas d2 /\
  draft_requiredOmicrons d1 = draft_requiredOmicrons d2 /\
  draft_categories d1 = draft_categories d2 /\
  draft_synergySets d1 = draft_synergySets d2.


(** ** Sample data *)

(** A character with the two required fields only. *)
Definition newCharacter (name : string) (tier : Z) : Character :=
  {| id := name; baseTier := tier; omicronBoost := None;
     ignoreRequirements := None; ignoreSynergyRequirements := None;
     requiredZetas := None; requiresAllZetas := None;
     requiredOmicrons := None; requiresAllOmicrons := None;
     categories := None; synergySets := None |}.

Definition withSynergySets (sets : list SynergySet) (c : Character) : Character :=
  {| id := id c; baseTier := baseTier c; omicronBoost := omicronBoost c;
     ignoreRequirements := ignoreRequirements c;
     ignoreSynergyRequirements := ignoreSynergyRequirements c;
     requiredZetas := requiredZetas c; requiresAllZetas := requiresAllZetas c;
     requiredOmicrons := requiredOmicrons c; requiresAllOmicrons := requiresAllOmicrons c;
     categories := categories c; synergySets := Some sets |}.

Definition withCategories (tags : list string) (c : Character) : Character :=
  {| id := id c; baseTier := baseTier c; omicronBoost := omicronBoost c;
     ignoreRequirements := ignoreRequirements c;
     ignoreSynergyRequirements := ignoreSynergyRequirements c;
     requiredZetas := requiredZetas c; requiresAllZetas := requiresAllZetas c;
     requiredOmicrons := requiredOmicrons c; requiresAllOmicrons := requiresAllOmicrons c;
     categories := Some tags; synergySets := synergySets c |}.

(** The script's initial globals around a loaded dataset, with the two
    check boxes and the ability index as given. *)
Definition loaded (data : list Character) (synergy omicron : bool)
    (index : gmap string (gset Z)) : State :=
  {| characterData := data; selectedCharacter := None;
     includeSynergy := synergy; includeOmicron := omicron;
     selectedOmicronModeSet := {[9; 14; 15; 7; 8]};
     omicronAbilityIndex := index;
     hasUnsavedChanges := false;
     currentDraft := None; currentDraftBaseline := None; draftIsDirty := false;
     alerts := []; statusLog := []; written := [] |}.

(** [selectCharacter] on the entry at [i] of a state with nothing
    selected: the entry becomes the selection and a draft is opened. *)
Definition selectAt (i : nat) (st : State) : State :=
  match characterData st !! i with
  | Some character =>
      initializeDraft character
        {| characterData := characterData st; selectedCharacter := Some i;
           includeSynergy := includeSynergy st; includeOmicron := includeOmicron st;
           selectedOmicronModeSet := selectedOmicronModeSet st;
           omicronAbilityIndex := omicronAbilityIndex st;
           hasUnsavedChanges := hasUnsavedChanges st;
           currentDraft := None; currentDraftBaseline := None; draftIsDirty := false;
           alerts := alerts st; statusLog := statusLog st; written := written st |}
  | None => st
  end.

(** The draft replaced by an edited one, as the form handlers do. *)
Definition stage (draft : Draft) (st : State) : State :=
  refreshDraftDirtyState
    {| characterData := characterData st; selectedCharacter := selectedCharacter st;
       includeSynergy := includeSynergy st; includeOmicron := includeOmicron st;
       selectedOmicronModeSet := selectedOmicronModeSet st;
       omicronAbilityIndex := omicronAbilityIndex st;
       hasUnsavedChanges := hasUnsavedChanges st;
       currentDraft := Some draft; currentDraftBaseline := currentDraftBaseline st;
       draftIsDirty := draftIsDirty st;
       alerts := alerts st; statusLog := statusLog st; written := written st |}.

(** The open draft edited by [edit] (a no-op when no draft is open). *)
Definition editDraft (edit : Draft -> Draft) (st : State) : State :=
  match currentDraft st with
  | Some draft => stage (edit draft) st
  | None => st
  end.

Definition setDraftSynergySets (sets : list SynergySet) (d : Draft) : Draft :=
  {| characterId := characterId d; draft_baseTier := draft_baseTier d;
     draft_omicronBoost := draft_omicronBoost d;
     draft_ignoreRequirements := draft_ignoreRequirements d;
     draft_ignoreSynergyRequirements := draft_ignoreSynergyRequirements d;
     draft_requiredZetas := draft_requiredZetas d;
     draft_requiresAllZetas := draft_requiresAllZetas d;
     draft_requiredOmicrons := draft_requiredOmicrons d;
     draft_requiresAllOmicrons := draft_requiresAllOmicrons d;
     draft_categories := draft_categories d;
     draft_synergySets := Some sets |}.

Definition setDraftBaseTier (tier : Z) (d : Draft) : Draft :=
  {| characterId := characterId d; draft_baseTier := tier;
     draft_omicronBoost := draft_omicronBoost d;
     draft_ignoreRequirements := draft_ignoreRequirements d;
     draft_ignoreSynergyRequirements := draft_ignoreSynergyRequirements d;
     draft_requiredZetas := draft_requiredZetas d;
     draft_requiresAllZetas := draft_requiresAllZetas d;
     draft_requiredOmicrons := draft_requiredOmicrons d;
     draft_requiresAllOmicrons := draft_requiresAllOmicrons d;
     draft_categories := draft_categories d;
     draft_synergySets := draft_synergySets d |}.

Definition setDraftIgnoreRequirements (ir : option IgnoreRequirements) (d : Draft) : Draft :=
  {| characterId := characterId d; draft_baseTier := draft_baseTier d;
     draft_omicronBoost := draft_omicronBoost d;
     draft_ignoreRequirements := ir;
     draft_ignoreSynergyRequirements := draft_ignoreSynergyRequirements d;
     draft_requiredZetas := draft_requiredZetas d;
     draft_requiresAllZetas := draft_requiresAllZetas d;
     draft_requiredOmicrons := draft_requiredOmicrons d;
     draft_requiresAllOmicrons := draft_requiresAllOmicrons d;
     draft_categories := draft_categories d;
     draft_synergySets := draft_synergySets d |}.

(** A one-character dataset with that character selected for editing. *)
Definition editingSidious : State :=
  selectAt 0 (loaded [newCharacter "EMPERORPALPATINE" 3] false false ∅).

(** The scenarios of the tier resolver. *)
Definition bobaFett : Character := newCharacter "BOBAFETT" 10.

Definition jabba : Character :=
  withSynergySets
    [ {| synergyEnhancement := None; synergyEnhancementOmicron := Some 4;
         characters := Some ["BOBAFETT"]; skipIfPresentCharacters := None;
         categoryDefinitions := None |} ]
    (newCharacter "JABBATHEHUTT" 2).

(** Jabba has an omicron ability of a selected mode and names Boba Fett. *)
Definition grantState : State :=
  loaded [bobaFett; jabba] true true {[ "JABBATHEHUTT" := {[ 9 ]} ]}.

(** A character whose own omicron set lists its own id. *)
Definition krrsantan : Character :=
  withSynergySets
    [ {| synergyEnhancement := None; synergyEnhancementOmicron := Some 5;
         characters := Some ["KRRSANTAN"]; skipIfPresentCharacters := None;
         categoryDefinitions := None |} ]
    (newCharacter "KRRSANTAN" 10).

Definition selfListedState : State :=
  loaded [krrsantan] true true {[ "KRRSANTAN" := {[ 9 ]} ]}.


(** Base tier 8 and one standard synergy of 3. *)
Definition hanSolo : Character :=
  withSynergySets
    [ {| synergyEnhancement := Some 3; synergyEnhancementOmicron := None;
         characters := Some ["CHEWBACCA"; "LANDO"]; skipIfPresentCharacters := None;
         categoryDefinitions := None |} ]
    (newCharacter "HANSOLO" 8).


(** A dataset loaded out of order. *)
Definition unsortedState : State := loaded [jabba; hanSolo; bobaFett] false false ∅.

(** Comparison of strings by character code, as a comparator: one honest
    instance of a collation. *)
Definition codeUnitCompare (a b : string) : Z :=
  match String.compare a b with
  | Lt => -1
  | Eq => 0
  | Gt => 1
  end.

(** A set of two named characters and one category definition that asks
    for [required] matches of the tag Sith. *)
Definition mixedSet (required : Z) : SynergySet :=
  {| synergyEnhancement := Some 2; synergyEnhancementOmicron := None;
     characters := Some ["VADER"; "EMPEROR"]; skipIfPresentCharacters := None;
     categoryDefinitions :=
       Some [ {| include := Some ["Sith"]; exclude := Some ["Jedi"];
                 numberMatchesRequired := Some required |} ] |}.

(** * The rest of the editor *)

(** ** More JavaScript operators *)

(** Truthiness of an optional string: [undefined] and [''] are falsy. *)
Definition truthyString (s : option string) : bool :=
  match s with
  | Some v => negb (String.eqb v "")
  | None => false
  end.

(** [a || b] on two optional strings. *)
Definition orString (a b : option string) : option string :=
  if truthyString a then a else b.

(** The double quote inside a template string. *)
Definition quote : string := String (ascii_of_nat 34) EmptyString.

(** [/^[A-Z0-9_]+$/.test(s)]. *)
Definition isIdCharacter (c : ascii) : bool :=
  let n := nat_of_ascii c in
  ((65 <=? n)%nat && (n <=? 90)%nat) || ((48 <=? n)%nat && (n <=? 57)%nat) || (n =? 95)%nat.

Definition validPattern (s : string) : bool :=
  match list_ascii_of_string s with
  | [] => false
  | cs => forallb isIdCharacter cs
  end.

(** [arr.splice(index, 1)] for an index that is not negative: nothing is
    removed past the end. *)
Definition splice1 {A} (index : nat) (arr : list A) : list A := delete index arr.

(** ** Reference data *)

(** A character of the reference service, as the script reads it. *)
Record ReferenceCharacter := {
  ref_id : option string;          (* refChar.id *)
  baseId : option string;
  ref_categories : option (list string);   (* refChar.categories *)
  role : option string;
  alignment : option string
}.

(** An ability of the reference service. *)
Record Ability := {
  base_id : string;
  character_base_id : string;
  is_zeta : option bool;
  is_omicron : option bool;
  omicron_mode : option Z
}.

(** The reference globals of the script. *)
Record Reference := {
  referenceCharacters : list ReferenceCharacter;
  referenceAbilities : list Ability
}.

(** The filter globals of the script. *)
Record Filters := {
  activeFilterCategories : list string;
  activeFilterRoles : list string;
  activeFilterAlignments : list string;
  activeFilterCustomCategories : list string;
  filterOperatorCategories : string;
  filterOperatorRoles : string;
  filterOperatorAlignments : string;
  filterOperatorCustomCategories : string
}.

(** ** Omicron modes and the ability index *)

(** The constant [OMICRON_MODE_MAP]. *)
Definition OMICRON_MODE_MAP : gmap string (list Z) :=
  list_to_map
    [ ("GAC", [9; 14; 15]); ("TB", [7]); ("TW", [8]);
      ("Raid", [4]); ("Conquest", [11]); ("GC", [12]) ].

(** The loop shared by [updateOmicronModeSet] and the chart: every mode of
    every selected type that the map knows is added to the set.  The
    types are the values of the type selector, all own keys of the map;
    a name that [Object.prototype] would answer is not among them. *)
Definition addModesOfTypes (types : list string) (start : gset Z) : gset Z :=
  fold_left
    (fun acc type =>
       match OMICRON_MODE_MAP !! type with
       | Some modes => fold_left (fun acc' mode => acc' ∪ {[ mode ]}) modes acc
       | None => acc
       end)
    types start.

(** The state with the two check boxes and the two omicron caches
    replaced. *)
Definition withView (synergy omicron : bool) (modes : gset Z)
    (index : gmap string (gset Z)) (st : State) : State :=
  {| characterData := characterData st;
     selectedCharacter := selectedCharacter st;
     includeSynergy := synergy;
     includeOmicron := omicron;
     selectedOmicronModeSet := modes;
     omicronAbilityIndex := index;
     hasUnsavedChanges := hasUnsavedChanges st;
     currentDraft := currentDraft st;
     currentDraftBaseline := currentDraftBaseline st;
     draftIsDirty := draftIsDirty st;
     alerts := alerts st;
     statusLog := statusLog st;
     written := written st |}.

(** [updateOmicronModeSet()], given the global [selectedOmicronTypes]. *)
Definition updateOmicronModeSet (selectedOmicronTypes : list string) (st : State) : State :=
  withView (includeSynergy st) (includeOmicron st)
    (addModesOfTypes selectedOmicronTypes ∅) (omicronAbilityIndex st) st.

(** The callback of [referenceAbilities.forEach] in
    [buildOmicronAbilityIndex]. *)
Definition indexAbility (index : gmap string (gset Z)) (ability : Ability)
    : gmap string (gset Z) :=
  match is_omicron ability, omicron_mode ability with
  | Some true, Some mode =>
      let charId := character_base_id ability in
      let index :=
        match index !! charId with
        | Some _ => index
        | None => <[ charId := ∅ ]> index
        end in
      match index !! charId with
      | Some modes => <[ charId := modes ∪ {[ mode ]} ]> index
      | None => index
      end
  | _, _ => index
  end.

(** [buildOmicronAbilityIndex()]. *)
Definition buildOmicronAbilityIndex (ref : Reference) (st : State) : State :=
  withView (includeSynergy st) (includeOmicron st) (selectedOmicronModeSet st)
    (fold_left indexAbility (referenceAbilities ref) ∅) st.

(** ** Filters *)

(** [refChar.categories && refChar.categories.includes(filterCat)]. *)
Definition refHasCategory (refChar : ReferenceCharacter) (filterCat : string) : bool :=
  match ref_categories refChar with
  | Some cs => includes cs filterCat
  | None => false
  end.

(** The categories block of both filter functions: [true] when the
    character passes it. *)
Definition categoriesPass (operator : string) (selected : list string)
    (refChar : ReferenceCharacter) : bool :=
  if (0 <? length selected)%nat then
    if String.eqb operator "AND"
    then forallb (refHasCategory refChar) selected
    else existsb (refHasCategory refChar) selected
  else true.

(** The roles block and the alignments block of both filter functions, on
    the character's single role or alignment. *)
Definition singlePass (operator : string) (selected : list string)
    (value : option string) : bool :=
  if (0 <? length selected)%nat then
    if String.eqb operator "AND" then
      if (1 <? length selected)%nat then false
      else truthyString value && includes selected (default "" value)
    else truthyString value && includes selected (default "" value)
  else true.

(** [characterData.find(c => c.id === characterId)]. *)
Definition findCharacter (data : list Character) (characterId : string) : option Character :=
  List.find (fun c => String.eqb (id c) characterId) data.

(** The custom categories block of both filter functions. *)
Definition customPass (operator : string) (selected : list string)
    (data : list Character) (characterId : string) : bool :=
  if (0 <? length selected)%nat then
    match findCharacter data characterId with
    | None => false
    | Some charData =>
        match categories charData with
        | None => false
        | Some cats =>
            if String.eqb operator "AND"
            then forallb (fun filterCat => includes cats filterCat) selected
            else existsb (fun filterCat => includes cats filterCat) selected
        end
    end
  else true.

(** Whether any filter list is filled ([isFilterActive]). *)
Definition isFilterActive (flt : Filters) : bool :=
  (0 <? length (activeFilterCategories flt))%nat
  || (0 <? length (activeFilterRoles flt))%nat
  || (0 <? length (activeFilterAlignments flt))%nat
  || (0 <? length (activeFilterCustomCategories flt))%nat.

(** The [Map] from [baseId] to reference character that
    [getFilteredCharacterIds] builds; a later entry replaces an earlier one
    with the same key. *)
Definition refCharMap (ref : Reference) : gmap string ReferenceCharacter :=
  fold_left
    (fun m refChar =>
       if truthyString (baseId refChar)
       then <[ default "" (baseId refChar) := refChar ]> m
       else m)
    (referenceCharacters ref) ∅.

(** The callback of [characterData.forEach] in [getFilteredCharacterIds]. *)
Definition filterStep (flt : Filters) (ref : Reference) (data : list Character)
    (matchingIds : gset string) (character : Character) : gset string :=
  match refCharMap ref !! id character with
  | None => matchingIds
  | Some refChar =>
      if negb (categoriesPass (filterOperatorCategories flt)
                 (activeFilterCategories flt) refChar) then matchingIds
      else if negb (singlePass (filterOperatorRoles flt)
                      (activeFilterRoles flt) (role refChar)) then matchingIds
      else if negb (singlePass (filterOperatorAlignments flt)
                      (activeFilterAlignments flt) (alignment refChar)) then matchingIds
      else if negb (customPass (filterOperatorCustomCategories flt)
                      (activeFilterCustomCategories flt) data (id character))
      then matchingIds
      else matchingIds ∪ {[ id character ]}
  end.

(** [getFilteredCharacterIds()]. *)
Definition getFilteredCharacterIds (flt : Filters) (ref : Reference) (st : State)
    : gset string :=
  if (length (referenceCharacters ref) =? 0)%nat then ∅
  else fold_left (filterStep flt ref (characterData st)) (characterData st) ∅.

(** [willCharacterBeFilteredOut(characterId, filterCategories, filterRoles,
    filterAlignments, filterCustomCategories)]; the four operators are the
    globals. *)
Definition willCharacterBeFilteredOut (flt : Filters) (ref : Reference) (st : State)
    (characterId : string)
    (filterCategories filterRoles filterAlignments filterCustomCategories : list string)
    : bool :=
  if (length filterCategories =? 0)%nat && (length filterRoles =? 0)%nat
     && (length filterAlignments =? 0)%nat && (length filterCustomCategories =? 0)%nat
  then false
  else
    match List.find (fun rc => bool_decide (baseId rc = Some characterId))
                    (referenceCharacters ref) with
    | None => true
    | Some refChar =>
        if negb (categoriesPass (filterOperatorCategories flt) filterCategories refChar)
        then true
        else if negb (singlePass (filterOperatorRoles flt) filterRoles (role refChar))
        then true
        else if negb (singlePass (filterOperatorAlignments flt) filterAlignments
                        (alignment refChar))
        then true
        else if negb (customPass (filterOperatorCustomCategories flt)
                        filterCustomCategories (characterData st) characterId)
        then true
        else false
    end.

(** ** The tier grid and the distribution chart *)

(** The ids the grid shows: [filteredIds] is [null] without an active
    filter, and then nobody is skipped. *)
Definition isShown (flt : Filters) (ref : Reference) (st : State) (character : Character)
    : bool :=
  if isFilterActive flt
  then bool_decide (id character ∈ getFilteredCharacterIds flt ref st)
  else true.

(** The placement loop of [renderTierGrid]: the nineteen columns as lists
    of card ids, each card appended to the column [tier-N] of its final
    tier when that column exists. *)
Definition placeCard (flt : Filters) (ref : Reference) (st : State)
    (columns : list (list string)) (character : Character) : list (list string) :=
  if negb (isShown flt ref st character) then columns
  else
    let tierData := calculateFinalTier st character in
    let column := Z.to_nat (finalTier tierData - 1) in
    if (1 <=? finalTier tierData) && (finalTier tierData <=? 19)
    then alter (fun cards => cards ++ [id character]) column columns
    else columns.

Definition renderTierGrid (flt : Filters) (ref : Reference) (st : State)
    : list (list string) :=
  fold_left (placeCard flt ref st) (characterData st) (replicate 19 []).

(** The local [hasMatchingOmicronAbilities] of [computeTierDistribution],
    over the chart's own mode set. *)
Definition vizHasMatchingOmicronAbilities (vizModeSet : gset Z)
    (index : gmap string (gset Z)) (characterId : string) : bool :=
  if bool_decide (size vizModeSet = 0%nat) then false
  else
    match index !! characterId with
    | None => false
    | Some characterModes =>
        existsb (fun mode => bool_decide (mode ∈ vizModeSet)) (elements characterModes)
    end.

(** The inner and outer callbacks of the chart's scan; it keeps the best
    bonus only. *)
Definition vizScanSet (character : Character) (best : Z) (synergySet : SynergySet) : Z :=
  let synergyOmicronBonus := nullish (synergyEnhancementOmicron synergySet) 0 in
  if synergyOmicronBonus =? 0 then best
  else if truthy (doesSynergyOmicronApplyToCharacter synergySet character) then
    if best <? synergyOmicronBonus then synergyOmicronBonus else best
  else best.

Definition vizScanChar (vizModeSet : gset Z) (index : gmap string (gset Z))
    (character : Character) (best : Z) (otherChar : Character) : Z :=
  match synergySets otherChar with
  | None => best
  | Some sets =>
      if (Z.of_nat (length sets) =? 0) then best
      else if negb (vizHasMatchingOmicronAbilities vizModeSet index (id otherChar)) then best
      else fold_left (vizScanSet character) sets best
  end.

(** The tier the chart computes for one character. *)
Definition vizFinalTier (vizIncludeSynergy vizIncludeOmicron : bool) (vizModeSet : gset Z)
    (st : State) (character : Character) : Z :=
  let finalTier0 := baseTier character in
  let '(finalTier1, appliedOmicronBonus) :=
    if vizIncludeOmicron then
      let hasOmicronAbilities :=
        vizHasMatchingOmicronAbilities vizModeSet (omicronAbilityIndex st) (id character) in
      let personalOmicron :=
        match omicronBoost character, hasOmicronAbilities with
        | Some boost, true => boost
        | _, true => 1
        | _, false => 0
        end in
      let bestSynergyOmicronBonus :=
        fold_left (vizScanChar vizModeSet (omicronAbilityIndex st) character)
                  (characterData st) 0 in
      let applied := Z.max personalOmicron bestSynergyOmicronBonus in
      (finalTier0 - applied, applied)
    else (finalTier0, 0) in
  let finalTier2 :=
    if vizIncludeSynergy &&
       match synergySets character with
       | Some sets => 0 <? Z.of_nat (length sets)
       | None => false
       end
    then
      let synergyTiers := calculateSynergyTiers character in
      let bestSynergy :=
        if vizIncludeOmicron && bool_decide (is_Some (bestOmicron synergyTiers))
        then bestOmicron synergyTiers
        else bestStandard synergyTiers in
      match bestSynergy with
      | Some b => baseTier character - appliedOmicronBonus - tc_synergyEnhancement b
      | None => finalTier1
      end
    else finalTier1 in
  clampTier finalTier2.

(** The callback of [characterData.forEach] in [computeTierDistribution]:
    [tierCounts[finalTier - 1]++]. *)
Definition countCharacter (vizIncludeSynergy vizIncludeOmicron : bool) (vizModeSet : gset Z)
    (flt : Filters) (ref : Reference) (st : State)
    (tierCounts : list Z) (character : Character) : list Z :=
  if negb (isShown flt ref st character) then tierCounts
  else
    let finalTier :=
      vizFinalTier vizIncludeSynergy vizIncludeOmicron vizModeSet st character in
    alter (fun count => count + 1) (Z.to_nat (finalTier - 1)) tierCounts.

(** [computeTierDistribution()], given the two check boxes and the
    selected omicron types of the chart's dialog. *)
Definition computeTierDistribution (vizIncludeSynergy vizIncludeOmicron : bool)
    (vizSelectedOmicronTypes : list string)
    (flt : Filters) (ref : Reference) (st : State) : list Z :=
  let vizModeSet := addModesOfTypes vizSelectedOmicronTypes ∅ in
  fold_left (countCharacter vizIncludeSynergy vizIncludeOmicron vizModeSet flt ref st)
            (characterData st) (replicate 19 0).

(** ** Sample reference data and filters *)

Definition referenceOf (name : string) (tags : list string) (r a : string)
    : ReferenceCharacter :=
  {| ref_id := None; baseId := Some name; ref_categories := Some tags;
     role := Some r; alignment := Some a |}.

Definition sampleReference : Reference :=
  {| referenceCharacters :=
       [ referenceOf "BOBAFETT" ["Bounty Hunter"; "Scoundrel"] "Attacker" "Dark Side";
         referenceOf "HANSOLO" ["Rebel"; "Scoundrel"] "Attacker" "Light Side";
         referenceOf "JABBATHEHUTT" ["Hutt Cartel"; "Scoundrel"] "Support" "Dark Side" ];
     referenceAbilities :=
       [ {| base_id := "leaderskill_JABBATHEHUTT"; character_base_id := "JABBATHEHUTT";
            is_zeta := Some true; is_omicron := Some true; omicron_mode := Some 9 |};
         {| base_id := "uniqueskill_BOBAFETT01"; character_base_id := "BOBAFETT";
            is_zeta := Some true; is_omicron := Some false; omicron_mode := None |};
         {| base_id := "specialskill_HANSOLO01"; character_base_id := "HANSOLO";
            is_zeta := None; is_omicron := Some true; omicron_mode := Some 4 |} ] |}.

(** The filter globals as the script starts them, around the chosen
    lists. *)
Definition filtersOf (cats roles aligns customs : list string) : Filters :=
  {| activeFilterCategories := cats; activeFilterRoles := roles;
     activeFilterAlignments := aligns; activeFilterCustomCategories := customs;
     filterOperatorCategories := "AND"; filterOperatorRoles := "OR";
     filterOperatorAlignments := "OR"; filterOperatorCustomCategories := "AND" |}.

(** The roles operator switched to AND. *)
Definition withRolesAnd (flt : Filters) : Filters :=
  {| activeFilterCategories := activeFilterCategories flt;
     activeFilterRoles := activeFilterRoles flt;
     activeFilterAlignments := activeFilterAlignments flt;
     activeFilterCustomCategories := activeFilterCustomCategories flt;
     filterOperatorCategories := filterOperatorCategories flt;
     filterOperatorRoles := "AND";
     filterOperatorAlignments := filterOperatorAlignments flt;
     filterOperatorCustomCategories := filterOperatorCustomCategories flt |}.

(** ** Selection and the draft session *)

(** The state with the draft session and the selection replaced. *)
Definition withSession (selected : option nat) (draft baseline : option Draft)
    (dirty : bool) (st : State) : State :=
  {| characterData := characterData st;
     selectedCharacter := selected;
     includeSynergy := includeSynergy st;
     includeOmicron := includeOmicron st;
     selectedOmicronModeSet := selectedOmicronModeSet st;
     omicronAbilityIndex := omicronAbilityIndex st;
     hasUnsavedChanges := hasUnsavedChanges st;
     currentDraft := draft;
     currentDraftBaseline := baseline;
     draftIsDirty := dirty;
     alerts := alerts st;
     statusLog := statusLog st;
     written := written st |}.

(** The object [selectedCharacter] points at. *)
Definition selectedObject (st : State) : option Character :=
  match selectedCharacter st with
  | Some i => characterData st !! i
  | None => None
  end.

(** [hasDraftChanges()]. *)
Definition hasDraftChanges (st : State) : bool := draftIsDirty st.

(** [resetDraft()]. *)
Definition resetDraft (st : State) : State :=
  withSession (selectedCharacter st) None None false st.

(** [confirmDiscardDrafts()]; [answer] is what the user clicks if the
    dialog opens. *)
Definition confirmDiscardDrafts (answer : bool) (st : State) : bool :=
  if negb (hasDraftChanges st) then true else answer.

(** [clearCharacterSelection()]. *)
Definition clearCharacterSelection (answer : bool) (st : State) : State :=
  if negb (confirmDiscardDrafts answer st) then st
  else
    let st := resetDraft st in
    withSession None (currentDraft st) (currentDraftBaseline st) (draftIsDirty st) st.

(** [selectCharacter(character)] for the entry at [index] of the
    dataset. *)
Definition selectCharacter (answer : bool) (index : nat) (st : State) : State :=
  match characterData st !! index with
  | None => st
  | Some character =>
      let select (st : State) : State :=
        let st := withSession (Some index) (currentDraft st) (currentDraftBaseline st)
                    (draftIsDirty st) st in
        let st := resetDraft st in
        initializeDraft character st in
      match selectedObject st with
      | Some selected =>
          if String.eqb (id selected) (id character)
          then clearCharacterSelection answer st
          else if negb (confirmDiscardDrafts answer st) then st
          else select st
      | None => select st
      end
  end.

(** ** Moving a card and adding a character *)

Definition withBaseTier (tier : Z) (c : Character) : Character :=
  {| id := id c; baseTier := tier; omicronBoost := omicronBoost c;
     ignoreRequirements := ignoreRequirements c;
     ignoreSynergyRequirements := ignoreSynergyRequirements c;
     requiredZetas := requiredZetas c; requiresAllZetas := requiresAllZetas c;
     requiredOmicrons := requiredOmicrons c; requiresAllOmicrons := requiresAllOmicrons c;
     categories := categories c; synergySets := synergySets c |}.

(** [handleDrop(e)]: [draggedCharacterId] is the global set when the drag
    started, [newFinalTier] the tier of the column the card is dropped
    on. *)
Definition handleDrop (answer : bool) (draggedCharacterId : string) (newFinalTier : Z)
    (st : State) : State :=
  match list_find (fun c => id c = draggedCharacterId) (characterData st) with
  | None => st
  | Some (index, character) =>
      let tierData := calculateFinalTier st character in
      let currentFinalTier := finalTier tierData in
      if currentFinalTier =? newFinalTier then st
      else
        let tierOffset := newFinalTier - currentFinalTier in
        let moved := withBaseTier (clampTier (baseTier character + tierOffset)) character in
        let st := storeCharacterData (<[ index := moved ]> (characterData st)) true st in
        let st := updateStatus "Character moved - unsaved changes" st in
        match selectedObject st with
        | Some selected =>
            if String.eqb (id selected) (id moved) then selectCharacter answer index st
            else st
        | None => st
        end
  end.

(** [submitNewCharacter()]: [selectedMissingCharacterId] is the global,
    [customValue] the text of the input field. *)
Definition submitNewCharacter (selectedMissingCharacterId : option string)
    (customValue : string) (st : State) : State :=
  let characterId :=
    if truthyString selectedMissingCharacterId
    then default "" selectedMissingCharacterId
    else trim customValue in
  if String.eqb characterId "" then
    alert "Please select a character from the list or enter a custom character ID." st
  else if negb (validPattern characterId) then
    alert "Invalid character ID format. Must contain only uppercase letters, numbers, and underscores." st
  else if existsb (fun char => String.eqb (id char) characterId) (characterData st) then
    alert ("Character " +:+ quote +:+ characterId +:+ quote +:+ " already exists.") st
  else
    let newCharacter := newCharacter characterId 17 in
    let index := length (characterData st) in
    let st := storeCharacterData (characterData st ++ [newCharacter]) true st in
    let st := updateStatus ("Character " +:+ quote +:+ characterId +:+ quote +:+
                            " added - unsaved changes") st in
    let st := resetDraft st in
    selectCharacter false index st.

(** [refChar.id || refChar.baseId]. *)
Definition referenceIdOf (refChar : ReferenceCharacter) : option string :=
  orString (ref_id refChar) (baseId refChar).

(** [getMissingCharacterIds()]; the default [sort] orders strings by
    character code. *)
Definition getMissingCharacterIds (ref : Reference) (st : State) : list string :=
  if (length (referenceCharacters ref) =? 0)%nat then []
  else
    let existingIds : gset string := list_to_set (map id (characterData st)) in
    let missingCharacters :=
      List.filter
        (fun refChar =>
           truthyString (referenceIdOf refChar) &&
           negb (bool_decide (default "" (referenceIdOf refChar) ∈ existingIds)))
        (referenceCharacters ref) in
    arraySort codeUnitCompare
      (List.filter (fun name => negb (String.eqb name ""))
         (map (fun refChar => default "" (referenceIdOf refChar)) missingCharacters)).

(** ** Vocabulary of the further properties *)

(** Two states show the resolver the same check boxes and omicron
    caches. *)
Definition sameView (st st' : State) : Prop :=
  includeSynergy st = includeSynergy st' /\
  includeOmicron st = includeOmicron st' /\
  selectedOmicronModeSet st = selectedOmicronModeSet st' /\
  omicronAbilityIndex st = omicronAbilityIndex st'.

(** Two records agree on everything the bonuses are computed from. *)
Definition sameBonusFields (c c' : Character) : Prop :=
  id c = id c' /\ omicronBoost c = omicronBoost c' /\ synergySets c = synergySets c'.

(** The base tier lies in the valid range. *)
Definition tierInRange (c : Character) : Prop := 1 <= baseTier c <= 19.

(** The selection, if any, points at an entry of the dataset. *)
Definition selectionValid (st : State) : Prop :=
  forall i, selectedCharacter st = Some i -> is_Some (characterData st !! i).

(** The id [submitNewCharacter] works with. *)
Definition submittedId (selectedMissingCharacterId : option string) (customValue : string)
    : string :=
  if truthyString selectedMissingCharacterId
  then default "" selectedMissingCharacterId
  else trim customValue.

(** Every id of the dataset matches the id pattern. *)
Definition idsWellFormed (data : list Character) : Prop :=
  Forall (fun c => validPattern (id c) = true) data.

(** ** Editing the synergy sets of the draft *)

Definition withCharacters (cs : option (list string)) (set : SynergySet) : SynergySet :=
  {| synergyEnhancement := synergyEnhancement set;
     synergyEnhancementOmicron := synergyEnhancementOmicron set;
     characters := cs;
     skipIfPresentCharacters := skipIfPresentCharacters set;
     categoryDefinitions := categoryDefinitions set |}.

Definition withCategoryDefinitions (defs : option (list CategoryDefinition))
    (set : SynergySet) : SynergySet :=
  {| synergyEnhancement := synergyEnhancement set;
     synergyEnhancementOmicron := synergyEnhancementOmicron set;
     characters := characters set;
     skipIfPresentCharacters := skipIfPresentCharacters set;
     categoryDefinitions := defs |}.

Definition withSynergyEnhancement (value : option Z) (set : SynergySet) : SynergySet :=
  {| synergyEnhancement := value;
     synergyEnhancementOmicron := synergyEnhancementOmicron set;
     characters := characters set;
     skipIfPresentCharacters := skipIfPresentCharacters set;
     categoryDefinitions := categoryDefinitions set |}.

Definition withSynergyEnhancementOmicron (value : option Z) (set : SynergySet) : SynergySet :=
  {| synergyEnhancement := synergyEnhancement set;
     synergyEnhancementOmicron := value;
     characters := characters set;
     skipIfPresentCharacters := skipIfPresentCharacters set;
     categoryDefinitions := categoryDefinitions set |}.

Definition withNumberMatchesRequired (value : option Z) (catDef : CategoryDefinition)
    : CategoryDefinition :=
  {| include := include catDef; exclude := exclude catDef;
     numberMatchesRequired := value |}.

(** The draft with its [synergySets] property set or deleted. *)
Definition withDraftSynergySets (sets : option (list SynergySet)) (d : Draft) : Draft :=
  {| characterId := characterId d; draft_baseTier := draft_baseTier d;
     draft_omicronBoost := draft_omicronBoost d;
     draft_ignoreRequirements := draft_ignoreRequirements d;
     draft_ignoreSynergyRequirements := draft_ignoreSynergyRequirements d;
     draft_requiredZetas := draft_requiredZetas d;
     draft_requiresAllZetas := draft_requiresAllZetas d;
     draft_requiredOmicrons := draft_requiredOmicrons d;
     draft_requiresAllOmicrons := draft_requiresAllOmicrons d;
     draft_categories := draft_categories d;
     draft_synergySets := sets |}.

(** The tail shared by the handlers: the draft is mutated in place, the
    dirty flag refreshed and the status line set. *)
Definition staged (status : string) (draft : Draft) (st : State) : State :=
  updateStatus status (stage draft st).

(** The guard that opens the handlers of one synergy set: a character is
    selected, a draft is open, and the draft has a set at that index. *)
Definition draftSynergySet (st : State) (synergyIndex : nat)
    : option (Draft * list SynergySet * SynergySet) :=
  match selectedCharacter st, currentDraft st with
  | Some _, Some draft =>
      match draft_synergySets draft with
      | Some sets =>
          match sets !! synergyIndex with
          | Some synergySet => Some (draft, sets, synergySet)
          | None => None
          end
      | None => None
      end
  | _, _ => None
  end.

(** The draft with the set at [synergyIndex] replaced by its mutated
    self. *)
Definition withSetAt (synergyIndex : nat) (synergySet : SynergySet)
    (sets : list SynergySet) (draft : Draft) : Draft :=
  withDraftSynergySets (Some (<[ synergyIndex := synergySet ]> sets)) draft.

(** [addSynergySet()]. *)
Definition addSynergySet (st : State) : State :=
  match selectedCharacter st, currentDraft st with
  | Some _, Some draft =>
      let template :=
        {| synergyEnhancement := Some 0; synergyEnhancementOmicron := None;
           characters := Some []; skipIfPresentCharacters := None;
           categoryDefinitions := None |} in
      staged "Synergy set added - click Update Character to apply"
        (withDraftSynergySets (Some (orEmpty (draft_synergySets draft) ++ [template])) draft)
        st
  | _, _ => st
  end.

(** [removeSynergySet(index)]; [confirmed] is the answer to the dialog. *)
Definition removeSynergySet (confirmed : bool) (index : nat) (st : State) : State :=
  match selectedCharacter st, currentDraft st with
  | Some _, Some draft =>
      match draft_synergySets draft with
      | Some sets =>
          if confirmed then
            staged "Synergy set removed - click Update Character to apply"
              (withDraftSynergySets (nonEmpty (splice1 index sets)) draft) st
          else st
      | None => st
      end
  | _, _ => st
  end.

(** [addSynergyCharacter(synergyIndex)]. *)
Definition addSynergyCharacter (synergyIndex : nat) (st : State) : State :=
  match draftSynergySet st synergyIndex with
  | None => st
  | Some (draft, sets, synergySet) =>
      let currentTotal := getSynergySlotUsage synergySet in
      if 4 <=? currentTotal then
        alert "Cannot add more characters. This synergy set already references 4 teammates (max limit)." st
      else
        staged "Character field added - click Update Character to apply"
          (withSetAt synergyIndex
             (withCharacters (Some (orEmpty (characters synergySet) ++ [""])) synergySet)
             sets draft)
          st
  end.

(** [removeSynergyCharacter(synergyIndex, charIndex)]. *)
Definition removeSynergyCharacter (synergyIndex charIndex : nat) (st : State) : State :=
  match draftSynergySet st synergyIndex with
  | None => st
  | Some (draft, sets, synergySet) =>
      match characters synergySet with
      | None => st
      | Some cs =>
          if (length cs <=? charIndex)%nat then st
          else
            staged "Character removed - staged in draft"
              (withSetAt synergyIndex
                 (withCharacters (nonEmpty (splice1 charIndex cs)) synergySet) sets draft)
              st
      end
  end.

(** [updateSynergyCharacter(synergyIndex, charIndex, value)]. *)
Definition updateSynergyCharacter (synergyIndex charIndex : nat) (value : string)
    (st : State) : State :=
  match draftSynergySet st synergyIndex with
  | None => st
  | Some (draft, sets, synergySet) =>
      match characters synergySet with
      | None => st
      | Some cs =>
          if (length cs <=? charIndex)%nat then st
          else
            let trimmedValue := trim value in
            let given := negb (String.eqb trimmedValue "") in
            if given && negb (validPattern trimmedValue) then
              alert "Invalid character ID format. Must contain only uppercase letters, numbers, and underscores." st
            else
              let otherCharacters := splice1 charIndex cs in
              if given && includes otherCharacters trimmedValue then
                alert "Duplicate character ID. Each ID must be unique." st
              else
                staged "Character updated - staged in draft"
                  (withSetAt synergyIndex
                     (withCharacters (Some (<[ charIndex := trimmedValue ]> cs)) synergySet)
                     sets draft)
                  st
      end
  end.

(** [getAvailableCharacterIds(synergyIndex, charIndex)]. *)
Definition getAvailableCharacterIds (synergyIndex charIndex : nat) (st : State)
    : list string :=
  match selectedObject st, currentDraft st with
  | Some selected, Some draft =>
      let currentCharId := id selected in
      let existingCharIds :=
        match draft_synergySets draft with
        | Some sets =>
            match sets !! synergyIndex with
            | Some synergySet => orEmpty (characters synergySet)
            | None => []
            end
        | None => []
        end in
      let editingCharId := default "" (existingCharIds !! charIndex) in
      arraySort codeUnitCompare
        (List.filter
           (fun name =>
              if String.eqb name currentCharId then false
              else String.eqb name editingCharId || negb (includes existingCharIds name))
           (map id (characterData st)))
  | _, _ => []
  end.

(** [selectCharacterFromDropdown(synergyIndex, charIndex, characterId)]. *)
Definition selectCharacterFromDropdown (synergyIndex charIndex : nat) (characterId : string)
    (st : State) : State :=
  match draftSynergySet st synergyIndex with
  | None => st
  | Some (draft, sets, synergySet) =>
      match characters synergySet with
      | None => st
      | Some cs =>
          if (length cs <=? charIndex)%nat then st
          else
            staged "Character selected - staged in draft"
              (withSetAt synergyIndex
                 (withCharacters (Some (<[ charIndex := characterId ]> cs)) synergySet)
                 sets draft)
              st
      end
  end.

(** [addCategoryDefinition(synergyIndex)]. *)
Definition addCategoryDefinition (synergyIndex : nat) (st : State) : State :=
  match draftSynergySet st synergyIndex with
  | None => st
  | Some (draft, sets, synergySet) =>
      let currentTotal := getSynergySlotUsage synergySet in
      if 4 <=? currentTotal then
        alert "Cannot add more category definitions. This synergy set already references 4 teammates (max limit)." st
      else
        let template :=
          {| include := Some []; exclude := None; numberMatchesRequired := Some 1 |} in
        staged "Category definition added - staged in draft"
          (withSetAt synergyIndex
             (withCategoryDefinitions
                (Some (orEmpty (categoryDefinitions synergySet) ++ [template])) synergySet)
             sets draft)
          st
  end.

(** [removeCategoryDefinition(synergyIndex, catIndex)]. *)
Definition removeCategoryDefinition (synergyIndex catIndex : nat) (st : State) : State :=
  match draftSynergySet st synergyIndex with
  | None => st
  | Some (draft, sets, synergySet) =>
      match categoryDefinitions synergySet with
      | None => st
      | Some defs =>
          if (length defs <=? catIndex)%nat then st
          else
            staged "Category definition removed - staged in draft"
              (withSetAt synergyIndex
                 (withCategoryDefinitions (nonEmpty (splice1 catIndex defs)) synergySet)
                 sets draft)
              st
      end
  end.

(** [updateCategoryDefNumberMatches(synergyIndex, catIndex, value)];
    [numValue] is [parseInt(value, 10)], [None] for [NaN]. *)
Definition updateCategoryDefNumberMatches (synergyIndex catIndex : nat)
    (numValue : option Z) (st : State) : State :=
  match draftSynergySet st synergyIndex with
  | None => st
  | Some (draft, sets, synergySet) =>
      match categoryDefinitions synergySet with
      | None => st
      | Some defs =>
          match defs !! catIndex with
          | None => st
          | Some catDef =>
              match numValue with
              | None => alert "Number matches required must be between 1 and 4." st
              | Some n =>
                  if outOfRange n 1 4 then
                    alert "Number matches required must be between 1 and 4." st
                  else
                    let oldValue := orElse (numberMatchesRequired catDef) 1 in
                    let currentSlots := getSynergySlotUsage synergySet in
                    let newSlots := currentSlots - oldValue + n in
                    if 4 <? newSlots then
                      let charCount := Z.of_nat (length (orEmpty (characters synergySet))) in
                      alert ("Cannot set number matches to " +:+ showZ n +:+
                             ". This synergy set would reference " +:+ showZ newSlots +:+
                             " total teammates (max: 4)." +:+ newline +:+ newline +:+
                             "Current slots used: " +:+ showZ currentSlots +:+ newline +:+
                             "Characters: " +:+ showZ charCount +:+ newline +:+
                             "Category matches: " +:+ showZ (currentSlots - charCount)) st
                    else
                      staged "Number matches updated - staged in draft"
                        (withSetAt synergyIndex
                           (withCategoryDefinitions
                              (Some (<[ catIndex :=
                                          withNumberMatchesRequired (Some n) catDef ]> defs))
                              synergySet)
                           sets draft)
                        st
              end
          end
      end
  end.

(** [updateSynergyEnhancement(index, value)]; [checked] is the state of
    the set's check box, [numValue] is [parseInt(value, 10)]. *)
Definition updateSynergyEnhancement (index : nat) (checked : bool) (numValue : option Z)
    (st : State) : State :=
  match draftSynergySet st index with
  | None => st
  | Some (draft, sets, synergySet) =>
      if checked &&
         match numValue with
         | None => true
         | Some n => outOfRange n 0 10
         end
      then alert "Synergy Enhancement must be between 0 and 10" st
      else
        staged "Synergy enhancement updated - click Update Character to apply"
          (withSetAt index
             (withSynergyEnhancement (if checked then numValue else None) synergySet)
             sets draft)
          st
  end.

(** [updateSynergyomicronBoost(index, value)]. *)
Definition updateSynergyomicronBoost (index : nat) (checked : bool) (numValue : option Z)
    (st : State) : State :=
  match draftSynergySet st index with
  | None => st
  | Some (draft, sets, synergySet) =>
      if checked &&
         match numValue with
         | None => true
         | Some n => outOfRange n 0 10
         end
      then alert "Omicron Boost must be between 0 and 10" st
      else
        staged "Omicron boost updated - click Update Character to apply"
          (withSetAt index
             (withSynergyEnhancementOmicron (if checked then numValue else None) synergySet)
             sets draft)
          st
  end.

(** [toggleSynergyEnhancement(index)]: [checked] is the state of the
    check box, [currentValue] is [parseInt(input.value, 10)], [None] for
    [NaN].  The value is stored as it is found. *)
Definition toggleSynergyEnhancement (index : nat) (checked : bool)
    (currentValue : option Z) (st : State) : State :=
  match draftSynergySet st index with
  | None => st
  | Some (draft, sets, synergySet) =>
      staged "Synergy enhancement toggled - click Update Character to apply"
        (withSetAt index
           (withSynergyEnhancement
              (if checked then Some (default 0 currentValue) else None) synergySet)
           sets draft)
        st
  end.

(** [toggleSynergyomicronBoost(index)]. *)
Definition toggleSynergyomicronBoost (index : nat) (checked : bool)
    (currentValue : option Z) (st : State) : State :=
  match draftSynergySet st index with
  | None => st
  | Some (draft, sets, synergySet) =>
      staged "Omicron boost toggled - click Update Character to apply"
        (withSetAt index
           (withSynergyEnhancementOmicron
              (if checked then Some (default 0 currentValue) else None) synergySet)
           sets draft)
        st
  end.

Definition withSkipIfPresentCharacters (cs : option (list string)) (set : SynergySet)
    : SynergySet :=
  {| synergyEnhancement := synergyEnhancement set;
     synergyEnhancementOmicron := synergyEnhancementOmicron set;
     characters := characters set;
     skipIfPresentCharacters := cs;
     categoryDefinitions := categoryDefinitions set |}.

(** [addExclusionCharacter(synergyIndex)]. *)
Definition addExclusionCharacter (synergyIndex : nat) (st : State) : State :=
  match draftSynergySet st synergyIndex with
  | None => st
  | Some (draft, sets, synergySet) =>
      staged "Exclusion field added - click Update Character to apply"
        (withSetAt synergyIndex
           (withSkipIfPresentCharacters
              (Some (orEmpty (skipIfPresentCharacters synergySet) ++ [""])) synergySet)
           sets draft)
        st
  end.

(** [removeExclusionCharacter(synergyIndex, exclIndex)]. *)
Definition removeExclusionCharacter (synergyIndex exclIndex : nat) (st : State) : State :=
  match draftSynergySet st synergyIndex with
  | None => st
  | Some (draft, sets, synergySet) =>
      match skipIfPresentCharacters synergySet with
      | None => st
      | Some cs =>
          if (length cs <=? exclIndex)%nat then st
          else
            staged "Exclusion removed - staged in draft"
              (withSetAt synergyIndex
                 (withSkipIfPresentCharacters (nonEmpty (splice1 exclIndex cs)) synergySet)
                 sets draft)
              st
      end
  end.

(** The events of the synergy editor. *)
Inductive SynergyEdit :=
  | AddSynergySet
  | RemoveSynergySet (confirmed : bool) (index : nat)
  | AddSynergyCharacter (synergyIndex : nat)
  | RemoveSynergyCharacter (synergyIndex charIndex : nat)
  | UpdateSynergyCharacter (synergyIndex charIndex : nat) (value : string)
  | SelectCharacterFromDropdown (synergyIndex charIndex : nat) (characterId : string)
  | AddCategoryDefinition (synergyIndex : nat)
  | RemoveCategoryDefinition (synergyIndex catIndex : nat)
  | UpdateCategoryDefNumberMatches (synergyIndex catIndex : nat) (numValue : option Z)
  | UpdateSynergyEnhancement (index : nat) (checked : bool) (numValue : option Z)
  | UpdateSynergyomicronBoost (index : nat) (checked : bool) (numValue : option Z)
  | ToggleSynergyEnhancement (index : nat) (checked : bool) (currentValue : option Z)
  | ToggleSynergyomicronBoost (index : nat) (checked : bool) (currentValue : option Z)
  | AddExclusionCharacter (synergyIndex : nat)
  | RemoveExclusionCharacter (synergyIndex exclIndex : nat).

(** The handler an event runs. *)
Definition handleEdit (st : State) (edit : SynergyEdit) : State :=
  match edit with
  | AddSynergySet => addSynergySet st
  | RemoveSynergySet confirmed index => removeSynergySet confirmed index st
  | AddSynergyCharacter i => addSynergyCharacter i st
  | RemoveSynergyCharacter i j => removeSynergyCharacter i j st
  | UpdateSynergyCharacter i j value => updateSynergyCharacter i j value st
  | SelectCharacterFromDropdown i j name => selectCharacterFromDropdown i j name st
  | AddCategoryDefinition i => addCategoryDefinition i st
  | RemoveCategoryDefinition i j => removeCategoryDefinition i j st
  | UpdateCategoryDefNumberMatches i j n => updateCategoryDefNumberMatches i j n st
  | UpdateSynergyEnhancement i checked n => updateSynergyEnhancement i checked n st
  | UpdateSynergyomicronBoost i checked n => updateSynergyomicronBoost i checked n st
  | ToggleSynergyEnhancement i checked n => toggleSynergyEnhancement i checked n st
  | ToggleSynergyomicronBoost i checked n => toggleSynergyomicronBoost i checked n st
  | AddExclusionCharacter i => addExclusionCharacter i st
  | RemoveExclusionCharacter i j => removeExclusionCharacter i j st
  end.

(** A set uses at most four slots and each of its category definitions
    asks for one to four matches. *)
Definition setWithinCapacity (set : SynergySet) : Prop :=
  getSynergySlotUsage set <= 4 /\
  Forall (fun catDef => exists n, numberMatchesRequired catDef = Some n /\ 1 <= n <= 4)
         (orEmpty (categoryDefinitions set)).

(** Every set of the open draft is within capacity. *)
Definition draftWithinCapacity (st : State) : Prop :=
  forall draft, currentDraft st = Some draft ->
    Forall setWithinCapacity (orEmpty (draft_synergySets draft)).

(** Both bonuses of a set, where present, lie in [0..10]. *)
Definition setBonusesInRange (set : SynergySet) : Prop :=
  ~ presentOutside (synergyEnhancement set) /\
  ~ presentOutside (synergyEnhancementOmicron set).

(** Every set of the open draft has its bonuses in range. *)
Definition draftBonusesInRange (st : State) : Prop :=
  forall draft, currentDraft st = Some draft ->
    Forall setBonusesInRange (orEmpty (draft_synergySets draft)).

(** No filled slot of a character list repeats another one. *)
Definition entriesDistinct (cs : list string) : Prop :=
  forall (i j : nat) (name : string),
    cs !! i = Some name -> cs !! j = Some name -> name <> "" -> i = j.

(** Every character list of the open draft has distinct filled slots. *)
Definition draftEntriesDistinct (st : State) : Prop :=
  forall draft, currentDraft st = Some draft ->
    Forall (fun set => entriesDistinct (orEmpty (characters set)))
           (orEmpty (draft_synergySets draft)).

(** A dropdown selection picks one of the ids the dropdown shows. *)
Definition offered (st : State) (edit : SynergyEdit) : Prop :=
  match edit with
  | SelectCharacterFromDropdown synergyIndex charIndex characterId =>
      characterId ∈ getAvailableCharacterIds synergyIndex charIndex st
  | _ => True
  end.

(** A toggle that switches a bonus on finds a value of [0..10] in the
    input field. *)
Definition toggleInRange (edit : SynergyEdit) : Prop :=
  match edit with
  | ToggleSynergyEnhancement _ true (Some v) => 0 <= v <= 10
  | ToggleSynergyomicronBoost _ true (Some v) => 0 <= v <= 10
  | _ => True
  end.

(** A draft of Sidious after a few edits: one set with two teammates and
    a category definition. *)
Definition sidiousWithSet : State :=
  fold_left handleEdit
    [ AddSynergySet;
      AddSynergyCharacter 0; UpdateSynergyCharacter 0 0 "DARTHVADER";
      AddSynergyCharacter 0; UpdateSynergyCharacter 0 1 "GRANDMOFFTARKIN";
      AddCategoryDefinition 0 ]
    editingSidious.

(** A stored list holds no blank entry and is never present but empty. *)
Definition cleanList (l : option (list string)) : Prop :=
  l <> Some [] /\ Forall (fun s => notBlank s = true) (orEmpty l).

Definition cleanSet (set : SynergySet) : Prop :=
  cleanList (characters set) /\ cleanList (skipIfPresentCharacters set).

(** Every list of the record is clean. *)
Definition cleanCharacter (character : Character) : Prop :=
  cleanList (requiredZetas character) /\
  cleanList (requiredOmicrons character) /\
  cleanList (categories character) /\
  Forall cleanSet (orEmpty (synergySets character)).


(** ** Validity of the draft and applying a filter *)

(** [list && list.some(s => s.trim() === '')]. *)
Definition someBlank (l : option (list string)) : bool :=
  match l with
  | Some entries => existsb (fun s => String.eqb (trim s) "") entries
  | None => false
  end.

Section DraftValidity.

(** [isReservedCategoryName(categoryName)], which compares the lowered
    name with the reference categories, roles and alignments. *)
Variable isReservedCategoryName : string -> bool.

(** [isDraftValid()]; the Update Character buttons are enabled when the
    draft is dirty and valid. *)
Definition isDraftValid (draft : option Draft) : bool :=
  match draft with
  | None => true
  | Some currentDraft =>
      if someBlank (draft_requiredZetas currentDraft) then false
      else if someBlank (draft_requiredOmicrons currentDraft) then false
      else if match draft_categories currentDraft with
              | Some cats =>
                  existsb (fun cat => String.eqb (trim cat) "") cats
                  || existsb isReservedCategoryName cats
              | None => false
              end then false
      else
        forallb
          (fun set => negb (someBlank (characters set))
                      && negb (someBlank (skipIfPresentCharacters set)))
          (orEmpty (draft_synergySets currentDraft))
  end.

End DraftValidity.

(** A list as a commit stores it when no entry is dropped: deleted when
    empty. *)
Definition deleteIfEmpty (l : option (list string)) : option (list string) :=
  match l with
  | Some entries => nonEmpty entries
  | None => None
  end.



(** * Properties *)

(** ** Synergy matcher *)

Lemma includes_elem_of (arr : list string) (s : string) :
  includes arr s = true <-> s ∈ arr.
Proof.
  unfold includes. rewrite existsb_exists. split.
  - intros (x & Hin & Heq). apply String.eqb_eq in Heq. subst x.
    by apply list_elem_of_In.
  - intros Hin. exists s. split; [by apply list_elem_of_In | apply String.eqb_refl].
Qed.

Lemma includes_false (arr : list string) (s : string) :
  includes arr s = false <-> s ∉ arr.
Proof.
  rewrite <- includes_elem_of. destruct (includes arr s); split; congruence.
Qed.

Lemma omicron_applies_listed (synergySet : SynergySet) (character : Character) :
  truthy (doesSynergyOmicronApplyToCharacter synergySet character) = true <->
  id character ∈ orEmpty (characters synergySet).
Proof.
  unfold doesSynergyOmicronApplyToCharacter.
  destruct (characters synergySet) as [cs|]; simpl.
  - apply includes_elem_of.
  - split; [discriminate | intros H; inversion H].
Qed.

Lemma categoryDefinitionMatches_spec (tags : list string) (catDef : CategoryDefinition) :
  categoryDefinitionMatches tags catDef = true <-> definitionMatches tags catDef.
Proof.
  unfold categoryDefinitionMatches, definitionMatches.
  rewrite andb_true_iff, negb_true_iff, forallb_forall.
  split.
  - intros [Hinc Hexc]. split.
    + intros tag Htag. apply includes_elem_of, Hinc. by apply list_elem_of_In.
    + intros tag Htag Hcarried.
      assert (existsb (fun cat => includes tags cat) (orEmpty (exclude catDef)) = true) as Hex.
      { apply existsb_exists. exists tag. split.
        - by apply list_elem_of_In.
        - by apply includes_elem_of. }
      congruence.
  - intros [Hinc Hexc]. split.
    + intros tag Htag. apply includes_elem_of, Hinc. by apply list_elem_of_In.
    + apply not_true_is_false. intros Hex.
      apply existsb_exists in Hex as (tag & Htag & Hcarried).
      apply (Hexc tag); [by apply list_elem_of_In | by apply includes_elem_of].
Qed.

(** C5: the omicron applicability predicate holds exactly when the
    candidate's id is an entry of the set's explicit [characters] list; a
    candidate that the set reaches through [categoryDefinitions] only is
    refused. *)
Theorem omicron_applies_iff_explicitly_listed :
  forall (synergySet : SynergySet) (candidate : Character),
    (truthy (doesSynergyOmicronApplyToCharacter synergySet candidate) = true <->
     id candidate ∈ orEmpty (characters synergySet)) /\
    (doesSynergySetApplyToCharacter synergySet candidate = true ->
     id candidate ∉ orEmpty (characters synergySet) ->
     truthy (doesSynergyOmicronApplyToCharacter synergySet candidate) = false).
Proof.
  intros synergySet candidate. split.
  - apply omicron_applies_listed.
  - intros _ Hnot. apply not_true_is_false. intros Happlies.
    by apply Hnot, omicron_applies_listed.
Qed.

(** A Sith that the set names nowhere: the standard rule accepts it through
    the category definition, the omicron rule refuses it. *)
Lemma omicron_applies_iff_explicitly_listed_witness :
  doesSynergySetApplyToCharacter (mixedSet 2)
    (withCategories ["Sith"; "Empire"] (newCharacter "MAUL" 7)) = true /\
  truthy (doesSynergyOmicronApplyToCharacter (mixedSet 2)
    (withCategories ["Sith"; "Empire"] (newCharacter "MAUL" 7))) = false.
Proof.
  split; [reflexivity |].
  apply (proj2 (omicron_applies_iff_explicitly_listed (mixedSet 2)
                  (withCategories ["Sith"; "Empire"] (newCharacter "MAUL" 7)))).
  - reflexivity.
  - simpl. intros Hin. apply includes_elem_of in Hin. discriminate Hin.
Defined.

(** C6: the standard applicability predicate holds exactly when the
    candidate's id is in the set's [characters] list or some category
    definition of the set matches the candidate's tags (every include tag
    carried, no exclude tag carried). *)
Theorem standard_applies_iff_listed_or_category :
  forall (synergySet : SynergySet) (candidate : Character),
    doesSynergySetApplyToCharacter synergySet candidate = true <->
    id candidate ∈ orEmpty (characters synergySet) \/
    exists catDef, catDef ∈ orEmpty (categoryDefinitions synergySet) /\
                   definitionMatches (orEmpty (categories candidate)) catDef.
Proof.
  intros synergySet candidate. unfold doesSynergySetApplyToCharacter.
  destruct (characters synergySet) as [cs|] eqn:Hcs; simpl.
  - destruct (includes cs (id candidate)) eqn:Hinc.
    + split; [intros _; left; by apply includes_elem_of | done].
    + apply includes_false in Hinc.
      destruct (categoryDefinitions synergySet) as [defs|]; simpl.
      * destruct defs as [|d defs]; [simpl|].
        { split; [discriminate|]. intros [H|(d & Hd & _)]; [done | inversion Hd]. }
        replace (0 <? Z.of_nat (length (d :: defs))) with true
          by (symmetry; apply Z.ltb_lt; simpl; lia).
        rewrite existsb_exists. split.
        -- intros (x & Hx & Hm). right. exists x.
           split; [by apply list_elem_of_In | by apply categoryDefinitionMatches_spec].
        -- intros [H|(x & Hx & Hm)]; [done|]. exists x.
           split; [by apply list_elem_of_In | by apply categoryDefinitionMatches_spec].
      * split; [discriminate|]. intros [H|(d & Hd & _)]; [done | inversion Hd].
  - destruct (categoryDefinitions synergySet) as [defs|]; simpl.
    + destruct defs as [|d defs]; [simpl|].
      { split; [discriminate|]. intros [H|(d & Hd & _)]; [inversion H | inversion Hd]. }
      replace (0 <? Z.of_nat (length (d :: defs))) with true
        by (symmetry; apply Z.ltb_lt; simpl; lia).
      rewrite existsb_exists. split.
      * intros (x & Hx & Hm). right. exists x.
        split; [by apply list_elem_of_In | by apply categoryDefinitionMatches_spec].
      * intros [H|(x & Hx & Hm)]; [inversion H|]. exists x.
        split; [by apply list_elem_of_In | by apply categoryDefinitionMatches_spec].
    + split; [discriminate|]. intros [H|(d & Hd & _)]; [inversion H | inversion Hd].
Qed.

(** ** Slot accountant and commit-time validation *)

Lemma fold_left_sum {A} (f : A -> Z) (l : list A) (start : Z) :
  fold_left (fun sum x => sum + f x) l start = start + sumZ (map f l).
Proof.
  revert start. induction l as [|x l IH]; intros start; simpl.
  - lia.
  - rewrite IH. unfold sumZ. simpl. lia.
Qed.

Lemma orElse_zero (x : option Z) : orElse x 0 = nullish x 0.
Proof.
  destruct x as [v|]; simpl; [|reflexivity].
  destruct (v =? 0) eqn:Hv; [apply Z.eqb_eq in Hv; lia | reflexivity].
Qed.

Lemma getSynergySlotUsage_sum (set : SynergySet) :
  getSynergySlotUsage set =
  Z.of_nat (length (orEmpty (characters set))) +
  sumZ (map (fun catDef => nullish (numberMatchesRequired catDef) 0)
            (orEmpty (categoryDefinitions set))).
Proof.
  unfold getSynergySlotUsage.
  destruct (characters set) as [cs|], (categoryDefinitions set) as [defs|]; simpl;
    rewrite ?fold_left_sum; unfold sumZ; simpl; try lia.
  all: rewrite (map_ext _ _ (fun d => orElse_zero (numberMatchesRequired d))); lia.
Qed.

Lemma outOfRange_true (value lo hi : Z) :
  outOfRange value lo hi = true <-> value < lo \/ hi < value.
Proof. unfold outOfRange. rewrite orb_true_iff, !Z.ltb_lt. done. Qed.

Lemma presentOutOfRange_true (field : option Z) :
  presentOutOfRange field = true <-> presentOutside field.
Proof.
  unfold presentOutOfRange, presentOutside. destruct field as [v|].
  - rewrite outOfRange_true. split; [intros H; by exists v|].
    intros (w & Hw & H). by inversion Hw; subst.
  - split; [discriminate | intros (w & Hw & _); discriminate].
Qed.

Lemma validateSynergySet_alerts (i : nat) (set : SynergySet) :
  is_Some (validateSynergySet i set) <-> setFailsCheck set.
Proof.
  unfold validateSynergySet, setFailsCheck.
  destruct (presentOutOfRange (synergyEnhancement set)) eqn:H1.
  { apply presentOutOfRange_true in H1. split; [by left | by eexists]. }
  destruct (presentOutOfRange (synergyEnhancementOmicron set)) eqn:H2.
  { apply presentOutOfRange_true in H2. split; [by right; left | by eexists]. }
  destruct (outOfRange (getSynergySlotUsage set) 1 4) eqn:H3.
  { apply outOfRange_true in H3. split; [by right; right | by eexists]. }
  split.
  - intros [m Hm]. discriminate.
  - intros [H|[H|H]].
    + apply presentOutOfRange_true in H. congruence.
    + apply presentOutOfRange_true in H. congruence.
    + apply outOfRange_true in H. congruence.
Qed.

Lemma validateSynergySets_alerts (sets : list SynergySet) (i : nat) :
  is_Some (validateSynergySets i sets) <-> exists set, set ∈ sets /\ setFailsCheck set.
Proof.
  revert i. induction sets as [|set rest IH]; intros i; simpl.
  - split; [intros [m Hm]; discriminate | intros (s & Hs & _); inversion Hs].
  - destruct (validateSynergySet i set) as [message|] eqn:Hset.
    + split; [|by eexists]. intros _. exists set. split; [left|].
      apply (validateSynergySet_alerts i). rewrite Hset. by eexists.
    + rewrite IH. split.
      * intros (s & Hs & Hbad). exists s. split; [by right | done].
      * intros (s & Hs & Hbad). apply elem_of_cons in Hs as [->|Hs].
        -- apply (validateSynergySet_alerts i) in Hbad. rewrite Hset in Hbad.
           destruct Hbad as [m Hm]. discriminate.
        -- by exists s.
Qed.

Lemma validateDraft_alerts (draft : Draft) :
  is_Some (validateDraft draft) <-> failsCheck draft.
Proof.
  unfold validateDraft, failsCheck.
  destruct (outOfRange (draft_baseTier draft) 1 19) eqn:H1.
  { apply outOfRange_true in H1. split; [intros _; tauto | by eexists]. }
  destruct (presentOutOfRange (draft_omicronBoost draft)) eqn:H2.
  { apply presentOutOfRange_true in H2. split; [intros _; tauto | by eexists]. }
  assert (~ (draft_baseTier draft < 1 \/ 19 < draft_baseTier draft)) as N1.
  { intros H. apply outOfRange_true in H. congruence. }
  assert (~ presentOutside (draft_omicronBoost draft)) as N2.
  { intros H. apply presentOutOfRange_true in H. congruence. }
  destruct (draft_synergySets draft) as [sets|]; simpl.
  - rewrite validateSynergySets_alerts. split.
    + intros H. right; right; right. exact H.
    + intros [H|[H|[H|H]]]; [tauto | tauto | tauto | exact H].
  - split; [intros [m Hm]; discriminate|].
    intros [H|[H|[H|(s & Hs & _)]]]; [tauto | tauto | tauto | inversion Hs].
Qed.

Lemma updateCharacter_rejected (st : State) (selected : nat) (draft : Draft) (message : string) :
  selectedCharacter st = Some selected ->
  currentDraft st = Some draft ->
  validateDraft draft = Some message ->
  updateCharacter st = alert message st.
Proof. intros Hsel Hdraft Hmsg. unfold updateCharacter. by rewrite Hsel, Hdraft, Hmsg. Qed.

Lemma updateCharacter_committed (st : State) (selected : nat) (draft : Draft) :
  selectedCharacter st = Some selected ->
  currentDraft st = Some draft ->
  validateDraft draft = None ->
  characterData (updateCharacter st) = alter (applyDraft draft) selected (characterData st) /\
  alerts (updateCharacter st) = alerts st /\
  hasUnsavedChanges (updateCharacter st) = true.
Proof.
  intros Hsel Hdraft Hok. unfold updateCharacter. rewrite Hsel, Hdraft, Hok.
  destruct (alter (applyDraft draft) selected (characterData st) !! selected); done.
Qed.

(** C7: the slot usage of a set is the length of its [characters] list
    plus the sum of [numberMatchesRequired] over its category definitions,
    an absent array counting as empty.  Two characters and one definition
    asking for two matches use four slots and an otherwise valid draft that
    holds the set is committed by [updateCharacter]; with three matches the
    usage is five and every draft that holds the set is refused with a
    message. *)
Theorem slot_usage_and_commit_gate :
  (forall set : SynergySet,
     getSynergySlotUsage set =
     Z.of_nat (length (orEmpty (characters set))) +
     sumZ (map (fun catDef => nullish (numberMatchesRequired catDef) 0)
               (orEmpty (categoryDefinitions set)))) /\
  (forall (set : SynergySet) (a b : string) (catDef : CategoryDefinition),
     characters set = Some [a; b] ->
     categoryDefinitions set = Some [catDef] ->
     numberMatchesRequired catDef = Some 2 ->
     getSynergySlotUsage set = 4 /\
     forall (st : State) (selected : nat) (draft : Draft),
       selectedCharacter st = Some selected ->
       currentDraft st = Some draft ->
       draft_synergySets draft = Some [set] ->
       1 <= draft_baseTier draft <= 19 ->
       ~ presentOutside (draft_omicronBoost draft) ->
       ~ presentOutside (synergyEnhancement set) ->
       ~ presentOutside (synergyEnhancementOmicron set) ->
       characterData (updateCharacter st) =
         alter (applyDraft draft) selected (characterData st) /\
       alerts (updateCharacter st) = alerts st) /\
  (forall (set : SynergySet) (a b : string) (catDef : CategoryDefinition),
     characters set = Some [a; b] ->
     categoryDefinitions set = Some [catDef] ->
     numberMatchesRequired catDef = Some 3 ->
     getSynergySlotUsage set = 5 /\
     forall (st : State) (selected : nat) (draft : Draft),
       selectedCharacter st = Some selected ->
       currentDraft st = Some draft ->
       set ∈ orEmpty (draft_synergySets draft) ->
       exists message, updateCharacter st = alert message st /\
                       characterData (updateCharacter st) = characterData st).
Proof.
  split; [exact getSynergySlotUsage_sum|]. split.
  - intros set a b catDef Hcs Hdefs Hn.
    assert (getSynergySlotUsage set = 4) as Husage.
    { rewrite getSynergySlotUsage_sum, Hcs, Hdefs. unfold sumZ. simpl. rewrite Hn. reflexivity. }
    split; [exact Husage|].
    intros st selected draft Hsel Hdraft Hsets Htier Hboost Hse Hseo.
    assert (validateDraft draft = None) as Hok.
    { destruct (validateDraft draft) as [m|] eqn:Hm; [|reflexivity].
      assert (failsCheck draft) as Hbad by (apply validateDraft_alerts; by eexists).
      destruct Hbad as [H|[H|[H|(s & Hs & Hbad)]]]; [lia | lia | tauto |].
      rewrite Hsets in Hs. simpl in Hs. apply list_elem_of_singleton in Hs. subst s.
      destruct Hbad as [H|[H|[H|H]]]; [tauto | tauto | lia | lia]. }
    destruct (updateCharacter_committed st selected draft Hsel Hdraft Hok) as (Hdata & Halerts & _).
    by split.
  - intros set a b catDef Hcs Hdefs Hn.
    assert (getSynergySlotUsage set = 5) as Husage.
    { rewrite getSynergySlotUsage_sum, Hcs, Hdefs. unfold sumZ. simpl. rewrite Hn. reflexivity. }
    split; [exact Husage|].
    intros st selected draft Hsel Hdraft Hin.
    assert (is_Some (validateDraft draft)) as [message Hmsg].
    { apply validateDraft_alerts. right; right; right. exists set.
      split; [exact Hin|]. unfold setFailsCheck. lia. }
    exists message. rewrite (updateCharacter_rejected st selected draft message); done.
Qed.

Lemma slot_usage_and_commit_gate_witness :
  getSynergySlotUsage (mixedSet 2) = 4 /\
  alerts (updateCharacter (editDraft (setDraftSynergySets [mixedSet 2]) editingSidious)) = [] /\
  getSynergySlotUsage (mixedSet 3) = 5 /\
  exists message,
    updateCharacter (editDraft (setDraftSynergySets [mixedSet 3]) editingSidious) =
    alert message (editDraft (setDraftSynergySets [mixedSet 3]) editingSidious).
Proof.
  destruct slot_usage_and_commit_gate as (_ & Haccept & Hreject).
  destruct (Haccept (mixedSet 2) "VADER" "EMPEROR"
              {| include := Some ["Sith"]; exclude := Some ["Jedi"];
                 numberMatchesRequired := Some 2 |}
              eq_refl eq_refl eq_refl) as [Hfour Hcommit].
  destruct (Hreject (mixedSet 3) "VADER" "EMPEROR"
              {| include := Some ["Sith"]; exclude := Some ["Jedi"];
                 numberMatchesRequired := Some 3 |}
              eq_refl eq_refl eq_refl) as [Hfive Hrefuse].
  split; [exact Hfour|]. split.
  - refine (proj2 (Hcommit (editDraft (setDraftSynergySets [mixedSet 2]) editingSidious)
                     0%nat _ eq_refl eq_refl eq_refl _ _ _ _)).
    + simpl. lia.
    + intros (v & Hv & _). discriminate Hv.
    + intros (v & Hv & Hout). injection Hv as <-. lia.
    + intros (v & Hv & _). discriminate Hv.
  - split; [exact Hfive|].
    destruct (Hrefuse (editDraft (setDraftSynergySets [mixedSet 3]) editingSidious)
                0%nat _ eq_refl eq_refl) as (message & Hmsg & _).
    + simpl. left.
    + by exists message.
Defined.

(** C8: a commit whose draft fails a check (base tier outside [1..19],
    omicron boost outside [0..10], an enhancement of a set present and
    outside [0..10], or a slot usage outside [1..4]) raises exactly one
    alert and changes nothing else: the dataset, and so the committed
    record, is as before. *)
Theorem updateCharacter_rejects_atomically :
  forall (st : State) (selected : nat) (draft : Draft),
    selectedCharacter st = Some selected ->
    currentDraft st = Some draft ->
    failsCheck draft ->
    exists message,
      updateCharacter st = alert message st /\
      alerts (updateCharacter st) = alerts st ++ [message] /\
      characterData (updateCharacter st) = characterData st /\
      characterData (updateCharacter st) !! selected = characterData st !! selected.
Proof.
  intros st selected draft Hsel Hdraft Hbad.
  apply validateDraft_alerts in Hbad as [message Hmsg].
  exists message. rewrite (updateCharacter_rejected st selected draft message); done.
Qed.

Lemma updateCharacter_rejects_atomically_witness :
  exists message,
    updateCharacter (editDraft (setDraftBaseTier 20) editingSidious) =
      alert message (editDraft (setDraftBaseTier 20) editingSidious) /\
    characterData (updateCharacter (editDraft (setDraftBaseTier 20) editingSidious)) =
      [newCharacter "EMPERORPALPATINE" 3].
Proof.
  destruct (updateCharacter_rejects_atomically
              (editDraft (setDraftBaseTier 20) editingSidious) 0%nat
              (setDraftBaseTier 20 (draftSnapshot (newCharacter "EMPERORPALPATINE" 3)))
              eq_refl eq_refl) as (message & Hmsg & _ & Hdata & _).
  - right; left. simpl. lia.
  - exists message. split; [exact Hmsg | exact Hdata].
Defined.

(** ** Personal omicron component *)

(** C4: the personal omicron component is the character's [omicronBoost]
    when the character has matching omicron abilities and the field is
    present, [1] when it has them and the field is absent, and [0] when it
    has none. *)
Theorem personalOmicron_cases :
  forall (st : State) (c : Character),
    (forall boost, hasMatchingOmicronAbilities st (id c) = true ->
                   omicronBoost c = Some boost -> personalOmicron st c = boost) /\
    (hasMatchingOmicronAbilities st (id c) = true ->
     omicronBoost c = None -> personalOmicron st c = 1) /\
    (hasMatchingOmicronAbilities st (id c) = false -> personalOmicron st c = 0).
Proof.
  intros st c. unfold personalOmicron. repeat split.
  - intros boost Hhas Hboost. by rewrite Hboost, Hhas.
  - intros Hhas Hboost. by rewrite Hboost, Hhas.
  - intros Hhas. rewrite Hhas. by destruct (omicronBoost c).
Qed.

Lemma personalOmicron_cases_witness :
  personalOmicron
    (loaded [newCharacter "JABBATHEHUTT" 2] true true {[ "JABBATHEHUTT" := {[ 9 ]} ]})
    (newCharacter "JABBATHEHUTT" 2) = 1.
Proof.
  apply (proj1 (proj2 (personalOmicron_cases
           (loaded [newCharacter "JABBATHEHUTT" 2] true true {[ "JABBATHEHUTT" := {[ 9 ]} ]})
           (newCharacter "JABBATHEHUTT" 2)))).
  - vm_compute. reflexivity.
  - reflexivity.
Defined.

(** ** Draft equality *)

Lemma sameEntries_eq {A} (same : A -> A -> bool) :
  (forall x y, same x y = true <-> x = y) ->
  forall l1 l2 : list A,
    length l1 = length l2 -> (sameEntries same l1 l2 = true <-> l1 = l2).
Proof.
  intros Hsame. induction l1 as [|x l1 IH]; intros [|y l2] Hlen; simpl in *; try discriminate.
  - done.
  - rewrite andb_true_iff, Hsame, IH by lia. split.
    + intros [-> ->]. reflexivity.
    + intros H. by inversion H.
Qed.

Lemma sameArray_eq {A} (same : A -> A -> bool) :
  (forall x y, same x y = true <-> x = y) ->
  forall a1 a2 : option (list A), sameArray same a1 a2 = true <-> a1 = a2.
Proof.
  intros Hsame [l1|] [l2|]; simpl; try (split; [discriminate | congruence]); [|done].
  rewrite andb_true_iff, Nat.eqb_eq. split.
  - intros [Hlen Hent]. f_equal. by apply (sameEntries_eq same Hsame).
  - intros H. inversion H; subst. split; [done|]. by apply (sameEntries_eq same Hsame).
Qed.

Lemma sameNumber_eq (x y : option Z) : sameNumber x y = true <-> x = y.
Proof. apply bool_decide_eq_true. Qed.

Lemma sameFlag_eq (x y : option bool) : sameFlag x y = true <-> x = y.
Proof. apply bool_decide_eq_true. Qed.

Lemma sameCategoryDefinition_eq (d1 d2 : CategoryDefinition) :
  sameCategoryDefinition d1 d2 = true <-> d1 = d2.
Proof.
  unfold sameCategoryDefinition.
  rewrite !andb_true_iff, sameNumber_eq, !(sameArray_eq String.eqb String.eqb_eq).
  destruct d1, d2; simpl. split.
  - intros [[-> ->] ->]. reflexivity.
  - intros H. by inversion H.
Qed.

Lemma sameSynergySet_eq (s1 s2 : SynergySet) :
  sameSynergySet s1 s2 = true <-> s1 = s2.
Proof.
  unfold sameSynergySet.
  rewrite !andb_true_iff, !sameNumber_eq, !(sameArray_eq String.eqb String.eqb_eq),
    (sameArray_eq sameCategoryDefinition sameCategoryDefinition_eq).
  destruct s1, s2; simpl. split.
  - intros [[[[-> ->] ->] ->] ->]. reflexivity.
  - intros H. by inversion H.
Qed.

Lemma deepEqualDrafts_fields (d1 d2 : Draft) :
  deepEqualDrafts (Some d1) (Some d2) = true <-> sameDraftFields d1 d2.
Proof.
  unfold deepEqualDrafts, sameDraftFields.
  rewrite !andb_true_iff, bool_decide_eq_true, sameNumber_eq, !sameFlag_eq,
    !Bool.eqb_true_iff, !(sameArray_eq String.eqb String.eqb_eq),
    (sameArray_eq sameSynergySet sameSynergySet_eq).
  tauto.
Qed.

Lemma cloneArray_id {A} (arr : option (list A)) : cloneArray arr = arr.
Proof. destruct arr as [l|]; simpl; [by rewrite map_id | done]. Qed.

Lemma cloneCategoryDefinition_id (catDef : CategoryDefinition) :
  cloneCategoryDefinition catDef = catDef.
Proof. destruct catDef. unfold cloneCategoryDefinition. simpl. by rewrite !cloneArray_id. Qed.

Lemma deepCloneSynergySets_id (sets : option (list SynergySet)) :
  deepCloneSynergySets sets = sets.
Proof.
  destruct sets as [l|]; simpl; [|done]. f_equal.
  induction l as [|set l IH]; simpl; [done|]. rewrite IH. f_equal.
  destruct set as [se seo cs skip defs]. simpl. rewrite !cloneArray_id. f_equal.
  destruct defs as [defs|]; [|done]. f_equal.
  induction defs as [|d defs IHd]; simpl; [done|].
  by rewrite cloneCategoryDefinition_id, IHd.
Qed.

(** The snapshot is a copy of the character, field by field. *)
Lemma draftSnapshot_copies (character : Character) :
  characterId (draftSnapshot character) = id character /\
  draft_baseTier (draftSnapshot character) = baseTier character /\
  draft_omicronBoost (draftSnapshot character) = omicronBoost character /\
  draft_requiredZetas (draftSnapshot character) = requiredZetas character /\
  draft_requiredOmicrons (draftSnapshot character) = requiredOmicrons character /\
  draft_categories (draftSnapshot character) = categories character /\
  draft_synergySets (draftSnapshot character) = synergySets character.
Proof.
  unfold draftSnapshot. simpl.
  rewrite !cloneArray_id, deepCloneSynergySets_id. repeat split.
Qed.

(** C10 (as amended): [deepEqualDrafts] returns true exactly when the two
    records agree on [baseTier], [omicronBoost], [requiresAllZetas],
    [requiresAllOmicrons], on the arrays [requiredZetas],
    [requiredOmicrons], [categories] and [synergySets] in full (an absent
    array differs from an empty one, at every depth), and on the effective
    gear and rarity flags of the two requirement objects, for which an
    absent object, an absent flag and [false] are the same; [characterId]
    is not looked at.  [refreshDraftDirtyState] marks the session dirty
    exactly when draft and baseline exist and differ in that sense, and a
    draft just opened by [initializeDraft] is clean. *)
Theorem deepEqualDrafts_compares_fields :
  (forall d1 d2 : Draft,
     deepEqualDrafts (Some d1) (Some d2) = true <-> sameDraftFields d1 d2) /\
  (forall st : State,
     draftIsDirty (refreshDraftDirtyState st) = true <->
     exists draft baseline,
       currentDraft st = Some draft /\ currentDraftBaseline st = Some baseline /\
       ~ sameDraftFields draft baseline) /\
  (forall (character : Character) (st : State),
     draftIsDirty (initializeDraft character st) = false /\
     currentDraft (initializeDraft character st) =
       currentDraftBaseline (initializeDraft character st) /\
     draftIsDirty (refreshDraftDirtyState (initializeDraft character st)) = false).
Proof.
  split; [exact deepEqualDrafts_fields|]. split.
  - intros st. unfold refreshDraftDirtyState. simpl.
    destruct (currentDraft st) as [d|], (currentDraftBaseline st) as [b|].
    + rewrite negb_true_iff. split.
      * intros Hne. exists d, b. repeat split. intros Hsame.
        apply deepEqualDrafts_fields in Hsame. congruence.
      * intros (d' & b' & Hd & Hb & Hne). inversion Hd; inversion Hb; subst.
        apply not_true_is_false. intros Heq. by apply Hne, deepEqualDrafts_fields.
    + split; [discriminate | intros (d' & b' & _ & Hb & _); discriminate].
    + split; [discriminate | intros (d' & b' & Hd & _); discriminate].
    + split; [discriminate | intros (d' & b' & Hd & _); discriminate].
  - intros character st. repeat split.
    unfold refreshDraftDirtyState, initializeDraft; cbn [currentDraft currentDraftBaseline draftIsDirty].
    apply negb_false_iff. apply deepEqualDrafts_fields. unfold sameDraftFields. tauto.
Qed.

(** The claim as stated fails: a draft without [ignoreRequirements] and
    one whose [ignoreRequirements] is the empty object differ, yet
    [deepEqualDrafts] returns true on them and the session stays clean. *)
Lemma deepEqualDrafts_absent_equals_empty_object :
  deepEqualDrafts
    (Some (draftSnapshot (newCharacter "EMPERORPALPATINE" 3)))
    (Some (setDraftIgnoreRequirements (Some {| gear := None; rarity := None |})
             (draftSnapshot (newCharacter "EMPERORPALPATINE" 3)))) = true /\
  draftSnapshot (newCharacter "EMPERORPALPATINE" 3) <>
    setDraftIgnoreRequirements (Some {| gear := None; rarity := None |})
      (draftSnapshot (newCharacter "EMPERORPALPATINE" 3)) /\
  draftIsDirty
    (editDraft (setDraftIgnoreRequirements (Some {| gear := None; rarity := None |}))
       editingSidious) = false.
Proof.
  split; [reflexivity|]. split; [|reflexivity].
  intros Heq. apply (f_equal draft_ignoreRequirements) in Heq. discriminate Heq.
Qed.

(** ** Tier resolver: the standard synergy component *)

Lemma fold_left_invariant {A B} (f : A -> B -> A) (P : list B -> A -> Prop)
    (l : list B) (a : A) :
  P [] a ->
  (forall seen x acc, P seen acc -> P (seen ++ [x]) (f acc x)) ->
  P l (fold_left f l a).
Proof.
  intros Hstart Hstep.
  assert (forall rest seen acc, P seen acc -> P (seen ++ rest) (fold_left f rest acc)) as Hgen.
  { induction rest as [|x rest IH]; intros seen acc Hacc; simpl.
    - by rewrite app_nil_r.
    - replace (seen ++ x :: rest) with ((seen ++ [x]) ++ rest) by (by rewrite <- app_assoc).
      apply IH, Hstep, Hacc. }
  apply (Hgen l [] a Hstart).
Qed.

Lemma maxOr0_nonneg (values : list Z) : 0 <= maxOr0 values.
Proof. induction values as [|v values IH]; unfold maxOr0 in *; simpl; lia. Qed.

Lemma maxOr0_app (l1 l2 : list Z) :
  maxOr0 (l1 ++ l2) = Z.max (maxOr0 l1) (maxOr0 l2).
Proof.
  induction l1 as [|v l1 IH]; unfold maxOr0 in *; simpl.
  - pose proof (maxOr0_nonneg l2) as H. unfold maxOr0 in H. lia.
  - rewrite IH. lia.
Qed.

Lemma positiveEnhancements_snoc (sets : list SynergySet) (set : SynergySet) :
  maxOr0 (positiveEnhancements (sets ++ [set])) =
  Z.max (maxOr0 (positiveEnhancements sets)) (nullish (synergyEnhancement set) 0).
Proof.
  unfold positiveEnhancements. rewrite map_app, List.filter_app, maxOr0_app. simpl.
  pose proof (maxOr0_nonneg (List.filter (fun e => 0 <? e)
    (map (fun set => nullish (synergyEnhancement set) 0) sets))) as Hnn.
  destruct (0 <? nullish (synergyEnhancement set) 0) eqn:Hpos; unfold maxOr0 at 2; simpl.
  - apply Z.ltb_lt in Hpos. lia.
  - apply Z.ltb_ge in Hpos. lia.
Qed.

Lemma indexed_snd {A} (l : list A) : map snd (indexed l) = l.
Proof.
  unfold indexed. change (map snd (imap (fun i x => (i, x)) l)) with (snd <$> imap (fun i x => (i, x)) l).
  rewrite fmap_imap.
  rewrite (imap_ext _ (const (fun x : A => x))) by done.
  rewrite imap_const. apply list_fmap_id.
Qed.

Lemma synergyTiersStep_invariant (character : Character)
    (seen : list (nat * SynergySet)) (entry : nat * SynergySet) (acc : SynergyTiers) :
  synergyTiersInvariant character seen acc ->
  synergyTiersInvariant character (seen ++ [entry]) (synergyTiersStep character acc entry).
Proof.
  destruct entry as [setIndex set]. unfold synergyTiersInvariant, synergyTiersStep.
  rewrite map_app. simpl. rewrite positiveEnhancements_snoc, orElse_zero.
  pose proof (maxOr0_nonneg (positiveEnhancements (map snd seen))) as Hnn.
  set (best := maxOr0 (positiveEnhancements (map snd seen))) in *.
  set (e := nullish (synergyEnhancement set) 0).
  set (boost := nullish (omicronBoost character) 0).
  intros [Hstd Homi]. cbn [bestStandard bestOmicron].
  destruct (0 <? e) eqn:He; [apply Z.ltb_lt in He | apply Z.ltb_ge in He].
  - split.
    + destruct (bestStandard acc) as [b|]; simpl.
      * destruct Hstd as (Hb & Hf & Hpos).
        destruct (baseTier character - e <? tc_finalTier b) eqn:Hlt;
          [apply Z.ltb_lt in Hlt | apply Z.ltb_ge in Hlt]; simpl; lia.
      * lia.
    + destruct (0 <? boost) eqn:Hboost; [apply Z.ltb_lt in Hboost | apply Z.ltb_ge in Hboost];
        simpl.
      * destruct (bestOmicron acc) as [b|]; simpl.
        -- destruct Homi as (Hb & Hf & _).
           destruct (baseTier character - boost - e <? tc_finalTier b) eqn:Hlt;
             [apply Z.ltb_lt in Hlt | apply Z.ltb_ge in Hlt]; simpl; lia.
        -- lia.
      * destruct (bestOmicron acc) as [b|]; [|lia].
        destruct Homi as (Hb & Hf & Hpos). lia.
  - rewrite andb_false_r. replace (Z.max best e) with best by lia. by split.
Qed.

Lemma calculateSynergyTiers_best (character : Character) :
  synergyTiersInvariant character (indexed (orEmpty (synergySets character)))
    (calculateSynergyTiers character).
Proof.
  unfold calculateSynergyTiers.
  destruct (synergySets character) as [sets|]; simpl.
  - destruct sets as [|set sets].
    + simpl. unfold synergyTiersInvariant, maxOr0. simpl. done.
    + replace (Z.of_nat (length (set :: sets)) =? 0) with false
        by (symmetry; apply Z.eqb_neq; simpl; lia).
      apply fold_left_invariant.
      * unfold synergyTiersInvariant, maxOr0. simpl. done.
      * intros seen x acc. apply synergyTiersStep_invariant.
  - unfold synergyTiersInvariant, maxOr0. simpl. done.
Qed.

Lemma clampTier_range (x : Z) : 1 <= clampTier x <= 19.
Proof. unfold clampTier. lia. Qed.


(** ** Tier resolver: the omicron component *)

Lemma namedOmicrons_snoc (target : Character) (sets : list SynergySet) (set : SynergySet) :
  maxOr0 (namedOmicrons target (sets ++ [set])) =
  Z.max (maxOr0 (namedOmicrons target sets))
        (if truthy (doesSynergyOmicronApplyToCharacter set target)
         then nullish (synergyEnhancementOmicron set) 0 else 0).
Proof.
  pose proof (maxOr0_nonneg (namedOmicrons target sets)) as Hnn.
  unfold namedOmicrons in *.
  rewrite List.filter_app, map_app, List.filter_app, maxOr0_app.
  set (best := maxOr0 _) in *. simpl.
  destruct (truthy (doesSynergyOmicronApplyToCharacter set target)); simpl;
    [|unfold maxOr0; simpl; lia].
  destruct (0 <? nullish (synergyEnhancementOmicron set) 0) eqn:Hpos; unfold maxOr0; simpl.
  - apply Z.ltb_lt in Hpos. lia.
  - apply Z.ltb_ge in Hpos. lia.
Qed.

Lemma namedOmicrons_nonneg (target : Character) (sets : list SynergySet) :
  0 <= maxOr0 (namedOmicrons target sets).
Proof. apply maxOr0_nonneg. Qed.

Lemma omicronScanSet_invariant (target x : Character) (start : Z * option string)
    (seen : list SynergySet) (set : SynergySet) (acc : Z * option string) :
  0 <= fst start ->
  omicronSetsInvariant target x start seen acc ->
  omicronSetsInvariant target x start (seen ++ [set]) (omicronScanSet target x acc set).
Proof.
  intros Hstart [Hmax Hsrc]. unfold omicronSetsInvariant, omicronScanSet.
  rewrite namedOmicrons_snoc.
  pose proof (namedOmicrons_nonneg target seen) as Hnn.
  set (best := maxOr0 (namedOmicrons target seen)) in *.
  set (bonus := nullish (synergyEnhancementOmicron set) 0).
  assert (acc = start \/
          fst start < fst acc /\ snd acc = Some (id x) /\
          exists set0, set0 ∈ seen ++ [set] /\
                       synergyEnhancementOmicron set0 = Some (fst acc) /\
                       id target ∈ orEmpty (characters set0)) as Hkeep.
  { destruct Hsrc as [->|(Hlt & Hid & s & Hs & Hbonus & Hnamed)]; [by left|].
    right. repeat split; try done. exists s. split; [|done].
    apply elem_of_app. by left. }
  destruct (bonus =? 0) eqn:Hzero; [apply Z.eqb_eq in Hzero | apply Z.eqb_neq in Hzero].
  - split; [|exact Hkeep].
    destruct (truthy (doesSynergyOmicronApplyToCharacter set target)); lia.
  - destruct (truthy (doesSynergyOmicronApplyToCharacter set target)) eqn:Happlies.
    + destruct (fst acc <? bonus) eqn:Hlt; [apply Z.ltb_lt in Hlt | apply Z.ltb_ge in Hlt].
      * simpl. split; [lia|]. right. split; [lia|]. split; [reflexivity|].
        exists set. split; [apply elem_of_app; right; by left|]. split.
        -- subst bonus. destruct (synergyEnhancementOmicron set); simpl in *; [done | lia].
        -- by apply omicron_applies_listed.
      * split; [lia | exact Hkeep].
    + split; [lia | exact Hkeep].
Qed.

Lemma omicronScanChar_invariant (st : State) (target : Character)
    (seen : list Character) (x : Character) (acc : Z * option string) :
  omicronScanInvariant st target seen acc ->
  omicronScanInvariant st target (seen ++ [x]) (omicronScanChar st target acc x).
Proof.
  intros (Hmax & Hnone & Hsome).
  assert (0 <= fst acc) as Hnn by (rewrite Hmax; apply maxOr0_nonneg).
  assert (forall acc', fst acc' = fst acc -> snd acc' = snd acc ->
            grantedOmicrons st target x = [] ->
            omicronScanInvariant st target (seen ++ [x]) acc') as Hsame.
  { intros acc' Hf Hs Hgranted. unfold omicronScanInvariant.
    rewrite flat_map_app, maxOr0_app. simpl. rewrite Hgranted, Hf, Hs.
    unfold maxOr0 at 2. simpl. split; [lia|]. split; [exact Hnone|].
    intros Hpos. destruct (Hsome Hpos) as (y & Hy & Hid & Hg).
    exists y. split; [apply elem_of_app; by left | by split]. }
  unfold omicronScanChar.
  destruct (synergySets x) as [sets|] eqn:Hsets.
  - destruct (Z.of_nat (length sets) =? 0) eqn:Hlen.
    + apply Hsame; try done. unfold grantedOmicrons. rewrite Hsets.
      destruct sets; [|simpl in Hlen; discriminate Hlen].
      by destruct (hasMatchingOmicronAbilities st (id x)).
    + destruct (hasMatchingOmicronAbilities st (id x)) eqn:Hhas; simpl.
      * pose proof (fold_left_invariant (omicronScanSet target x)
                      (omicronSetsInvariant target x acc) sets acc) as Hinner.
        destruct Hinner as [Hinner_max Hinner_src].
        { unfold omicronSetsInvariant, namedOmicrons, maxOr0. simpl. split; [lia | by left]. }
        { intros seen' set acc'. by apply omicronScanSet_invariant. }
        set (acc' := fold_left (omicronScanSet target x) sets acc) in *.
        unfold omicronScanInvariant. rewrite flat_map_app, maxOr0_app. simpl.
        rewrite app_nil_r. unfold grantedOmicrons at 2. rewrite Hhas, Hsets. simpl.
        rewrite <- Hmax. split; [exact Hinner_max|].
        destruct Hinner_src as [Heq|(Hlt & Hid & s & Hs & Hbonus & Hnamed)].
        -- rewrite Heq. split; [exact Hnone|]. intros Hpos.
           destruct (Hsome Hpos) as (y & Hy & Hyid & Hg).
           exists y. split; [apply elem_of_app; by left | by split].
        -- split; [lia|]. intros _. exists x. split; [apply elem_of_app; right; by left|].
           split; [exact Hid|]. split; [exact Hhas|]. exists s. rewrite Hsets. by simpl.
      * apply Hsame; try done. unfold grantedOmicrons. by rewrite Hhas.
  - apply Hsame; try done. unfold grantedOmicrons. rewrite Hsets.
    by destruct (hasMatchingOmicronAbilities st (id x)).
Qed.

Lemma bestSynergyOmicron_invariant (st : State) (target : Character) :
  omicronScanInvariant st target (characterData st) (bestSynergyOmicron st target).
Proof.
  unfold bestSynergyOmicron. apply fold_left_invariant.
  - unfold omicronScanInvariant, maxOr0. simpl. split; [done|]. split; [done | lia].
  - intros seen x acc. apply omicronScanChar_invariant.
Qed.

(** What the scan computes: the largest value granted by any character of
    the dataset, the target's own sets included. *)
Lemma bestSynergyOmicron_max (st : State) (target : Character) :
  fst (bestSynergyOmicron st target) =
  maxOr0 (flat_map (grantedOmicrons st target) (characterData st)).
Proof. apply bestSynergyOmicron_invariant. Qed.





(** ** The scan does not skip the target *)

(** C3 (the code departs from it): the scan runs over every character of
    the dataset, the target included, so a character with matching omicron
    abilities whose own set lists its own id is granted that set's omicron
    value and recorded as its own source; over the other characters alone
    the external component is [0]. *)
Theorem selfListed_omicron_reaches_owner :
  bestSynergyOmicron selfListedState krrsantan = (5, Some "KRRSANTAN") /\
  externalOmicron selfListedState krrsantan = 0 /\
  calculateFinalTier selfListedState krrsantan =
    {| finalTier := 5; appliedOmicronBonus := 5; omicronSource := Some "KRRSANTAN" |}.
Proof. repeat split; vm_compute; reflexivity. Qed.

(** Apart from that case the scan is the external component of the
    specification: they agree as soon as no character with the target's id
    grants the target anything. *)
Lemma bestSynergyOmicron_external (st : State) (target : Character) :
  (forall x, x ∈ characterData st -> id x = id target ->
             grantedOmicrons st target x = []) ->
  fst (bestSynergyOmicron st target) = externalOmicron st target.
Proof.
  rewrite bestSynergyOmicron_max. unfold externalOmicron.
  induction (characterData st) as [|x data IH]; intros Hself; [reflexivity|].
  simpl. rewrite maxOr0_app, IH by (intros y Hy; apply Hself; by right).
  destruct (String.eqb (id x) (id target)) eqn:Hid; simpl.
  - apply String.eqb_eq in Hid. rewrite (Hself x) by (done || by left).
    pose proof (maxOr0_nonneg (flat_map (grantedOmicrons st target)
      (List.filter (fun x0 => negb (String.eqb (id x0) (id target))) data))) as Hnn.
    unfold maxOr0 at 1. simpl. lia.
  - by rewrite maxOr0_app.
Qed.

(** ** Saving and exporting write the sorted dataset *)

Lemma sortInsert_permutation {A} (compareFn : A -> A -> Z) (x : A) (sorted : list A) :
  sortInsert compareFn x sorted ≡ₚ x :: sorted.
Proof.
  induction sorted as [|y rest IH]; simpl; [done|].
  destruct (0 <? compareFn x y); [|done].
  rewrite IH. apply Permutation_swap.
Qed.

Lemma arraySort_permutation {A} (compareFn : A -> A -> Z) (arr : list A) :
  arraySort compareFn arr ≡ₚ arr.
Proof.
  induction arr as [|x arr IH]; simpl; [done|].
  rewrite sortInsert_permutation. by rewrite IH.
Qed.

Lemma codeUnitCompare_le (a b : string) :
  codeUnitCompare a b <= 0 <-> a = b \/ OrderedTypeEx.String_as_OT.lt a b.
Proof.
  unfold codeUnitCompare.
  pose proof (OrderedTypeEx.String_as_OT.cmp_eq a b) as Heq.
  pose proof (OrderedTypeEx.String_as_OT.cmp_lt a b) as Hlt.
  unfold OrderedTypeEx.String_as_OT.cmp in *.
  destruct (String.compare a b); split; try lia; try tauto.
  intros [H|H]; [apply Heq in H | apply Hlt in H]; discriminate.
Qed.

Lemma codeUnitCompare_antisym (a b : string) :
  0 < codeUnitCompare a b -> codeUnitCompare b a <= 0.
Proof.
  unfold codeUnitCompare. rewrite (String.compare_antisym b a).
  destruct (String.compare a b); simpl; lia.
Qed.

Lemma codeUnitCompare_trans (a b c : string) :
  codeUnitCompare a b <= 0 -> codeUnitCompare b c <= 0 -> codeUnitCompare a c <= 0.
Proof.
  rewrite !codeUnitCompare_le. intros [->|Hab] [->|Hbc]; auto.
  right. eapply OrderedTypeEx.String_as_OT.lt_trans; eauto.
Qed.

Section SortedWrites.

Variable localeCompare : string -> string -> Z.

(** A collation is a consistent comparator: what comes after does not
    come before, and coming before-or-level is transitive. *)
Hypothesis localeCompare_antisym :
  forall a b, 0 < localeCompare a b -> localeCompare b a <= 0.
Hypothesis localeCompare_trans :
  forall a b c, localeCompare a b <= 0 -> localeCompare b c <= 0 -> localeCompare a c <= 0.




End SortedWrites.


(** ** The selection follows the sort *)

Lemma sortInsert_snd {A B} (compareFn : B -> B -> Z) (x : A * B) (sorted : list (A * B)) :
  map snd (sortInsert (fun p q => compareFn (snd p) (snd q)) x sorted) =
  sortInsert compareFn (snd x) (map snd sorted).
Proof.
  induction sorted as [|y rest IH]; simpl; [done|].
  destruct (0 <? compareFn (snd x) (snd y)); simpl; [by rewrite IH | done].
Qed.

Lemma arraySort_snd {A B} (compareFn : B -> B -> Z) (arr : list (A * B)) :
  map snd (arraySort (fun p q => compareFn (snd p) (snd q)) arr) =
  arraySort compareFn (map snd arr).
Proof.
  induction arr as [|x arr IH]; simpl; [done|].
  by rewrite sortInsert_snd, IH.
Qed.

(** After the in-place sort the selected character is the same record, at
    its new index. *)
Lemma sortCharacterData_keeps_selection (localeCompare : string -> string -> Z)
    (st : State) (selected : nat) (character : Character) :
  selectedCharacter st = Some selected ->
  characterData st !! selected = Some character ->
  exists moved : nat,
    selectedCharacter (sortCharacterData localeCompare st) = Some moved /\
    characterData (sortCharacterData localeCompare st) !! moved = Some character.
Proof.
  intros Hsel Hlookup. unfold sortCharacterData. simpl. rewrite Hsel.
  set (sorted := arraySort (fun p q : nat * Character => byId localeCompare (snd p) (snd q))
                           (indexed (characterData st))).
  assert ((selected, character) ∈ sorted) as Hin.
  { unfold sorted. rewrite arraySort_permutation. unfold indexed.
    by apply (elem_of_lookup_imap_2 (fun i x => (i, x))). }
  destruct (list_find_elem_of (fun p : nat * Character => fst p = selected) sorted
              (selected, character) Hin eq_refl) as [[moved [i c]] Hfind].
  rewrite Hfind. exists moved. split; [reflexivity|].
  apply list_find_Some in Hfind as (Hmoved & Hfst & _). simpl in Hfst. subst i.
  assert ((selected, c) ∈ indexed (characterData st)) as Hc.
  { rewrite <- (arraySort_permutation
                  (fun p q : nat * Character => byId localeCompare (snd p) (snd q))).
    apply list_elem_of_lookup. by exists moved. }
  unfold indexed in Hc. apply elem_of_lookup_imap in Hc as (j & y & Heq & Hy).
  inversion Heq; subst j y.
  assert (c = character) as -> by congruence.
  rewrite <- (indexed_snd (characterData st)), <- arraySort_snd.
  fold sorted.
  change (map snd sorted) with (snd <$> sorted). rewrite list_lookup_fmap, Hmoved. reflexivity.
Qed.

(** * Properties of the rest of the editor *)

#[local] Set Warnings "-clear-no-such-hyp".

(** ** The tier resolver under every combination of the check boxes *)

Lemma synergy_block_value (character : Character) (omicron : bool) (applied fallback : Z) :
  fallback = baseTier character - applied ->
  (if match synergySets character with
      | Some sets => 0 <? Z.of_nat (length sets)
      | None => false
      end
   then
     match (if omicron && bool_decide (is_Some (bestOmicron (calculateSynergyTiers character)))
            then bestOmicron (calculateSynergyTiers character)
            else bestStandard (calculateSynergyTiers character)) with
     | Some b => baseTier character - applied - tc_synergyEnhancement b
     | None => fallback
     end
   else fallback) = baseTier character - applied - bestSynergyOf character.
Proof.
  intros ->.
  pose proof (calculateSynergyTiers_best character) as [Hstd Hbonus].
  rewrite indexed_snd in Hstd, Hbonus. fold (bestSynergyOf character) in Hstd, Hbonus.
  destruct (synergySets character) as [sets|] eqn:Hsets.
  - destruct (0 <? Z.of_nat (length sets)) eqn:Hlen.
    + destruct (bestOmicron (calculateSynergyTiers character)) as [b|] eqn:Hb.
      * destruct omicron; simpl.
        -- destruct Hbonus as [-> _]. reflexivity.
        -- destruct (bestStandard (calculateSynergyTiers character)) as [b'|];
             [destruct Hstd as [-> _]; reflexivity | lia].
      * rewrite andb_false_r.
        destruct (bestStandard (calculateSynergyTiers character)) as [b'|];
          [destruct Hstd as [-> _]; reflexivity | lia].
    + destruct sets; [|simpl in Hlen; discriminate Hlen].
      unfold bestSynergyOf. rewrite Hsets. unfold maxOr0. simpl. lia.
  - unfold bestSynergyOf. rewrite Hsets. unfold maxOr0. simpl. lia.
Qed.

Lemma bestSynergyOmicron_nonneg (st : State) (c : Character) :
  0 <= fst (bestSynergyOmicron st c).
Proof. rewrite bestSynergyOmicron_max. apply maxOr0_nonneg. Qed.

(** The result of the resolver under each setting of the two check
    boxes. *)
Lemma calculateFinalTier_views :
  forall (st : State) (c : Character),
    appliedOmicronBonus (calculateFinalTier st c) =
      (if includeOmicron st
       then Z.max (personalOmicron st c) (fst (bestSynergyOmicron st c))
       else 0) /\
    finalTier (calculateFinalTier st c) =
      clampTier (baseTier c
                 - appliedOmicronBonus (calculateFinalTier st c)
                 - (if includeSynergy st then bestSynergyOf c else 0)) /\
    (includeOmicron st = false -> omicronSource (calculateFinalTier st c) = None).
Proof.
  intros st c.
  pose proof (bestSynergyOmicron_nonneg st c) as Hnn.
  unfold calculateFinalTier.
  destruct (bestSynergyOmicron st c) as [e src]. simpl in Hnn.
  set (p := personalOmicron st c).
  destruct (includeOmicron st) eqn:Homi.
  - destruct ((0 <? p) && (e <=? p)) eqn:Hfirst.
    + apply andb_true_iff in Hfirst as [Hp Hep].
      apply Z.ltb_lt in Hp. apply Z.leb_le in Hep.
      cbn [appliedOmicronBonus finalTier omicronSource fst].
      split; [lia|]. split; [|discriminate]. f_equal.
      destruct (includeSynergy st); cbn [andb]; [|lia].
      by apply (synergy_block_value c true).
    + apply andb_false_iff in Hfirst.
      destruct (0 <? e) eqn:He; [apply Z.ltb_lt in He | apply Z.ltb_ge in He];
        cbn [appliedOmicronBonus finalTier omicronSource fst].
      * split; [destruct Hfirst as [H|H];
                [apply Z.ltb_ge in H | apply Z.leb_gt in H]; lia|].
        split; [|discriminate]. f_equal.
        destruct (includeSynergy st); cbn [andb]; [|lia].
        by apply (synergy_block_value c true).
      * split; [destruct Hfirst as [H|H];
                [apply Z.ltb_ge in H | apply Z.leb_gt in H]; lia|].
        split; [|discriminate]. f_equal.
        destruct (includeSynergy st); cbn [andb]; [|lia].
        by apply (synergy_block_value c true).
  - cbn [appliedOmicronBonus finalTier omicronSource].
    split; [reflexivity|]. split; [|reflexivity]. f_equal.
    destruct (includeSynergy st); cbn [andb]; [|lia].
    apply (synergy_block_value c false 0). lia.
Qed.

(** X1: With omicron inclusion off no bonus is applied and no source is
    recorded; with synergy inclusion off no synergy is subtracted; in every
    combination of the two check boxes the final tier is the clamped
    difference of the base tier and the components that are switched on. *)
Theorem calculateFinalTier_every_view :
  forall (st : State) (c : Character),
    appliedOmicronBonus (calculateFinalTier st c) =
      (if includeOmicron st
       then Z.max (personalOmicron st c) (fst (bestSynergyOmicron st c))
       else 0) /\
    finalTier (calculateFinalTier st c) =
      clampTier (baseTier c
                 - appliedOmicronBonus (calculateFinalTier st c)
                 - (if includeSynergy st then bestSynergyOf c else 0)) /\
    (includeOmicron st = false -> omicronSource (calculateFinalTier st c) = None).
Proof. exact calculateFinalTier_views. Qed.

(** ** The chart and the grid *)

Lemma vizScanSet_fst (c x : Character) (acc : Z * option string) (set : SynergySet) :
  vizScanSet c (fst acc) set = fst (omicronScanSet c x acc set).
Proof.
  unfold vizScanSet, omicronScanSet.
  destruct (nullish (synergyEnhancementOmicron set) 0 =? 0); [done|].
  destruct (truthy (doesSynergyOmicronApplyToCharacter set c)); [|done].
  by destruct (fst acc <? nullish (synergyEnhancementOmicron set) 0).
Qed.

Lemma vizScanSets_fst (c x : Character) (sets : list SynergySet) (acc : Z * option string) :
  fold_left (vizScanSet c) sets (fst acc) = fst (fold_left (omicronScanSet c x) sets acc).
Proof.
  revert acc. induction sets as [|set sets IH]; intros acc; simpl; [done|].
  rewrite (vizScanSet_fst c x). apply IH.
Qed.

Lemma vizScanChar_fst (st : State) (c : Character) (acc : Z * option string) (x : Character) :
  vizScanChar (selectedOmicronModeSet st) (omicronAbilityIndex st) c (fst acc) x =
  fst (omicronScanChar st c acc x).
Proof.
  unfold vizScanChar, omicronScanChar.
  destruct (synergySets x) as [sets|]; [|done].
  destruct (Z.of_nat (length sets) =? 0); [done|].
  change (vizHasMatchingOmicronAbilities (selectedOmicronModeSet st)
            (omicronAbilityIndex st) (id x))
    with (hasMatchingOmicronAbilities st (id x)).
  destruct (hasMatchingOmicronAbilities st (id x)); simpl; [|done].
  apply vizScanSets_fst.
Qed.

Lemma vizScan_fst (st : State) (c : Character) (data : list Character)
    (acc : Z * option string) :
  fold_left (vizScanChar (selectedOmicronModeSet st) (omicronAbilityIndex st) c) data (fst acc) =
  fst (fold_left (omicronScanChar st c) data acc).
Proof.
  revert acc. induction data as [|x data IH]; intros acc; simpl; [done|].
  rewrite vizScanChar_fst. apply IH.
Qed.

(** The chart computes, for every character, the final tier the grid
    computes under the same two check boxes and omicron types. *)
Lemma vizFinalTier_agrees (synergy omicron : bool) (modes : gset Z)
    (st : State) (c : Character) :
  vizFinalTier synergy omicron modes st c =
  finalTier (calculateFinalTier (withView synergy omicron modes (omicronAbilityIndex st) st) c).
Proof.
  set (st' := withView synergy omicron modes (omicronAbilityIndex st) st).
  destruct (calculateFinalTier_views st' c) as (Happlied & -> & _).
  rewrite Happlied. unfold vizFinalTier.
  change (includeOmicron st') with omicron. change (includeSynergy st') with synergy.
  destruct omicron.
  - change (fold_left (vizScanChar modes (omicronAbilityIndex st) c) (characterData st) 0)
      with (fold_left (vizScanChar (selectedOmicronModeSet st') (omicronAbilityIndex st') c)
              (characterData st') (fst (0, @None string))).
    rewrite vizScan_fst. fold (bestSynergyOmicron st' c).
    change (match omicronBoost c,
                  vizHasMatchingOmicronAbilities modes (omicronAbilityIndex st) (id c) with
            | Some boost, true => boost
            | _, true => 1
            | _, false => 0
            end) with (personalOmicron st' c).
    cbn beta iota. f_equal.
    destruct synergy; cbn [andb]; [|lia].
    by apply (synergy_block_value c true).
  - cbn beta iota. f_equal.
    destruct synergy; cbn [andb]; [|lia].
    apply (synergy_block_value c false 0). lia.
Qed.

Lemma clampTier_index (x : Z) : (Z.to_nat (clampTier x - 1) < 19)%nat.
Proof. pose proof (clampTier_range x). lia. Qed.

Lemma calculateFinalTier_in_range (st : State) (c : Character) :
  1 <= finalTier (calculateFinalTier st c) <= 19.
Proof.
  destruct (calculateFinalTier_views st c) as (_ & -> & _). apply clampTier_range.
Qed.

Lemma chart_grid_step (counts : list Z) (columns : list (list string)) (i : nat) (card : string) :
  counts = map (fun cards => Z.of_nat (length cards)) columns ->
  alter (fun count => count + 1) i counts =
  map (fun cards => Z.of_nat (length cards)) (alter (fun cards => cards ++ [card]) i columns).
Proof.
  intros ->. symmetry.
  apply (list_fmap_alter (fun cards : list string => Z.of_nat (length cards))
           (fun cards => cards ++ [card]) (fun count => count + 1)).
  apply Forall_forall. intros cards _. rewrite length_app. simpl. lia.
Qed.

(** X2: The bar of the chart for a tier is as long as the column of the grid
    for that tier, when the grid is drawn with the chart's check boxes and
    omicron types. *)
Theorem chart_counts_grid_columns :
  forall (synergy omicron : bool) (types : list string)
         (flt : Filters) (ref : Reference) (st : State),
    computeTierDistribution synergy omicron types flt ref st =
    map (fun cards => Z.of_nat (length cards))
        (renderTierGrid flt ref
           (withView synergy omicron (addModesOfTypes types ∅) (omicronAbilityIndex st) st)).
Proof.
  intros synergy omicron types flt ref st.
  unfold computeTierDistribution, renderTierGrid.
  set (modes := addModesOfTypes types ∅).
  set (st' := withView synergy omicron modes (omicronAbilityIndex st) st).
  change (characterData st') with (characterData st).
  assert (forall data counts columns,
            counts = map (fun cards => Z.of_nat (length cards)) columns ->
            fold_left (countCharacter synergy omicron modes flt ref st) data counts =
            map (fun cards => Z.of_nat (length cards))
                (fold_left (placeCard flt ref st') data columns)) as Hgen.
  { induction data as [|c data IH]; intros counts columns Hrel; simpl; [exact Hrel|].
    apply IH. unfold countCharacter, placeCard.
    change (isShown flt ref st' c) with (isShown flt ref st c).
    destruct (isShown flt ref st c); simpl; [|exact Hrel].
    rewrite vizFinalTier_agrees. fold st'.
    pose proof (calculateFinalTier_in_range st' c) as [Hlo Hhi].
    replace (1 <=? finalTier (calculateFinalTier st' c)) with true
      by (symmetry; by apply Z.leb_le).
    replace (finalTier (calculateFinalTier st' c) <=? 19) with true
      by (symmetry; by apply Z.leb_le).
    simpl. by apply chart_grid_step. }
  apply Hgen. reflexivity.
Qed.

Lemma sumZ_alter_incr (counts : list Z) (i : nat) :
  (i < length counts)%nat ->
  sumZ (alter (fun count => count + 1) i counts) = sumZ counts + 1.
Proof.
  revert i. induction counts as [|n counts IH]; intros i Hi; simpl in Hi; [lia|].
  destruct i as [|i].
  - unfold sumZ. simpl. lia.
  - change (sumZ (n :: alter (fun count => count + 1) i counts) = sumZ (n :: counts) + 1).
    change (n + sumZ (alter (fun count => count + 1) i counts) = n + sumZ counts + 1).
    rewrite IH by lia. lia.
Qed.

(** X3: Every character the grid shows is counted once, in one of the nineteen
    bars: the bars add up to the number of shown characters. *)
Theorem chart_counts_every_shown_character :
  forall (synergy omicron : bool) (types : list string)
         (flt : Filters) (ref : Reference) (st : State),
    length (computeTierDistribution synergy omicron types flt ref st) = 19%nat /\
    sumZ (computeTierDistribution synergy omicron types flt ref st) =
      Z.of_nat (length (List.filter (isShown flt ref st) (characterData st))).
Proof.
  intros synergy omicron types flt ref st. unfold computeTierDistribution.
  set (modes := addModesOfTypes types ∅).
  assert (forall data counts,
            length counts = 19%nat ->
            length (fold_left (countCharacter synergy omicron modes flt ref st) data counts)
              = 19%nat /\
            sumZ (fold_left (countCharacter synergy omicron modes flt ref st) data counts) =
              sumZ counts + Z.of_nat (length (List.filter (isShown flt ref st) data))) as Hgen.
  { induction data as [|c data IH]; intros counts Hlen; simpl; [split; [done | lia]|].
    unfold countCharacter at 2 4.
    destruct (isShown flt ref st c); simpl.
    - destruct (IH (alter (fun count => count + 1)
                      (Z.to_nat (vizFinalTier synergy omicron modes st c - 1)) counts))
        as [Hl Hs]; [by rewrite length_alter|].
      split; [exact Hl|]. rewrite Hs, sumZ_alter_incr; [lia|].
      rewrite Hlen. unfold vizFinalTier.
      destruct (if omicron then _ else _) as [t a]. apply clampTier_index.
    - by apply IH. }
  destruct (Hgen (characterData st) (replicate 19 0)) as [Hl Hs]; [reflexivity|].
  split; [exact Hl|]. rewrite Hs. reflexivity.
Qed.

(** X4: A card sits in a column of the grid exactly when it is the card of a
    shown character whose final tier is that column's tier; no shown
    character is left without a column. *)
Theorem grid_places_by_final_tier :
  forall (flt : Filters) (ref : Reference) (st : State) (column : nat) (card : string),
    card ∈ default [] (renderTierGrid flt ref st !! column) <->
    exists c, c ∈ characterData st /\ isShown flt ref st c = true /\
              id c = card /\
              finalTier (calculateFinalTier st c) = Z.of_nat column + 1.
Proof.
  intros flt ref st column card. unfold renderTierGrid.
  pose proof (fold_left_invariant (placeCard flt ref st)
    (fun seen columns =>
       length columns = 19%nat /\
       (card ∈ default [] (columns !! column) <->
        exists c, c ∈ seen /\ isShown flt ref st c = true /\ id c = card /\
                  finalTier (calculateFinalTier st c) = Z.of_nat column + 1))
    (characterData st) (replicate 19 [])) as Hinv.
  apply Hinv; clear Hinv.
  - split; [reflexivity|]. split.
    + intros Hin. destruct (replicate 19 [] !! column) as [cards|] eqn:Hc; simpl in Hin.
      * apply lookup_replicate in Hc as [-> _]. inversion Hin.
      * inversion Hin.
    + intros (c & Hc & _). inversion Hc.
  - intros seen c columns [Hlen Hiff]. unfold placeCard.
    destruct (isShown flt ref st c) eqn:Hshown; simpl.
    + pose proof (calculateFinalTier_in_range st c) as [Hlo Hhi].
      replace (1 <=? finalTier (calculateFinalTier st c)) with true
        by (symmetry; by apply Z.leb_le).
      replace (finalTier (calculateFinalTier st c) <=? 19) with true
        by (symmetry; by apply Z.leb_le).
      simpl. split; [by rewrite length_alter|].
      set (k := Z.to_nat (finalTier (calculateFinalTier st c) - 1)).
      destruct (decide (k = column)) as [Hk|Hk].
      * subst column. rewrite list_lookup_alter_eq.
        destruct (columns !! k) as [cards|] eqn:Hcards; simpl in *.
        -- rewrite elem_of_app, list_elem_of_singleton, Hiff. split.
           ++ intros [(c' & Hc' & Hrest)| ->].
              ** exists c'. split; [apply elem_of_app; by left | exact Hrest].
              ** exists c. split; [apply elem_of_app; right; by left|].
                 repeat split; try done. unfold k. lia.
           ++ intros (c' & Hc' & Hs & Hid & Ht).
              apply elem_of_app in Hc' as [Hc'|Hc'].
              ** left. by exists c'.
              ** apply list_elem_of_singleton in Hc'. subst c'. by right.
        -- apply lookup_ge_None in Hcards. unfold k in Hcards. lia.
      * rewrite list_lookup_alter_ne by done. rewrite Hiff. split.
        -- intros (c' & Hc' & Hrest). exists c'.
           split; [apply elem_of_app; by left | exact Hrest].
        -- intros (c' & Hc' & Hs & Hid & Ht).
           apply elem_of_app in Hc' as [Hc'|Hc'].
           ++ by exists c'.
           ++ apply list_elem_of_singleton in Hc'. subst c'. unfold k in Hk. lia.
    + split; [exact Hlen|]. rewrite Hiff. split.
      * intros (c' & Hc' & Hrest). exists c'.
        split; [apply elem_of_app; by left | exact Hrest].
      * intros (c' & Hc' & Hs & Hid & Ht).
        apply elem_of_app in Hc' as [Hc'|Hc'].
        -- by exists c'.
        -- apply list_elem_of_singleton in Hc'. subst c'. congruence.
Qed.

(** ** Filters *)

Lemma find_snoc {A} (P : A -> bool) (l : list A) (x : A) :
  List.find P (l ++ [x]) =
  match List.find P l with
  | Some y => Some y
  | None => if P x then Some x else None
  end.
Proof.
  induction l as [|y l IH]; simpl; [done|].
  destruct (P y); [done | exact IH].
Qed.

Lemma find_none_iff {A} (P : A -> bool) (l : list A) :
  List.find P l = None <-> forall x, x ∈ l -> P x = false.
Proof.
  split.
  - intros Hnone x Hx. apply list_elem_of_In in Hx. by apply (find_none P l Hnone).
  - intros Hall. induction l as [|y l IH]; simpl; [done|].
    rewrite (Hall y) by left. apply IH. intros x Hx. apply Hall. by right.
Qed.

(** With distinct [baseId]s the map of [getFilteredCharacterIds] and the
    [find] of [willCharacterBeFilteredOut] pick the same reference
    character. *)
Lemma refCharMap_lookup (ref : Reference) (key : string) :
  key <> "" ->
  NoDup (map baseId (referenceCharacters ref)) ->
  refCharMap ref !! key =
  List.find (fun rc => bool_decide (baseId rc = Some key)) (referenceCharacters ref).
Proof.
  intros Hkey. unfold refCharMap.
  induction (referenceCharacters ref) as [|rc refs IH] using rev_ind; intros Hnodup.
  - simpl. apply lookup_empty.
  - rewrite map_app in Hnodup. simpl in Hnodup.
    apply NoDup_app in Hnodup as (Hrefs & Hfresh & _).
    rewrite fold_left_app, find_snoc. simpl.
    destruct (decide (baseId rc = Some key)) as [Heq|Hne].
    + rewrite Heq. simpl.
      replace (negb (String.eqb key "")) with true
        by (symmetry; apply negb_true_iff; by apply String.eqb_neq).
      rewrite lookup_insert_eq.
      replace (List.find (fun rc0 => bool_decide (baseId rc0 = Some key)) refs) with
        (@None ReferenceCharacter).
      * by rewrite bool_decide_eq_true_2.
      * symmetry. apply find_none_iff. intros x Hx. apply bool_decide_eq_false_2.
        intros Hx'. apply (Hfresh (baseId x)).
        -- apply list_elem_of_fmap. by exists x.
        -- rewrite Hx', <- Heq. by left.
    + rewrite bool_decide_eq_false_2 by done.
      rewrite <- (IH Hrefs).
      destruct (truthyString (baseId rc)) eqn:Htruthy.
      * destruct (baseId rc) as [k|] eqn:Hk; simpl in *; [|discriminate].
        rewrite lookup_insert_ne by congruence.
        by destruct (fold_left _ refs ∅ !! key).
      * by destruct (fold_left _ refs ∅ !! key).
Qed.

Lemma filterStep_union (flt : Filters) (ref : Reference) (data : list Character)
    (acc : gset string) (c : Character) :
  filterStep flt ref data acc c = acc ∪ filterStep flt ref data ∅ c.
Proof.
  unfold filterStep. destruct (refCharMap ref !! id c); [|set_solver].
  repeat (match goal with |- context [if negb ?b then _ else _] => destruct b; simpl end);
    set_solver.
Qed.

Lemma filterStep_same_id (flt : Filters) (ref : Reference) (data : list Character)
    (c c' : Character) :
  id c = id c' -> filterStep flt ref data ∅ c = filterStep flt ref data ∅ c'.
Proof. intros Hid. unfold filterStep. by rewrite Hid. Qed.

Lemma filterStep_own_id (flt : Filters) (ref : Reference) (data : list Character)
    (c : Character) (x : string) :
  x ∈ filterStep flt ref data ∅ c -> x = id c.
Proof.
  unfold filterStep. destruct (refCharMap ref !! id c); [|set_solver].
  repeat (match goal with |- context [if negb ?b then _ else _] => destruct b; simpl end);
    set_solver.
Qed.

Lemma filter_fold_elem (flt : Filters) (ref : Reference) (data : list Character)
    (rest : list Character) (acc : gset string) (x : string) :
  x ∈ fold_left (filterStep flt ref data) rest acc <->
  x ∈ acc \/ exists c, c ∈ rest /\ x ∈ filterStep flt ref data ∅ c.
Proof.
  revert acc. induction rest as [|c rest IH]; intros acc; simpl.
  - split; [by left | intros [H|(c & Hc & _)]; [done | inversion Hc]].
  - rewrite IH, filterStep_union, elem_of_union. split.
    + intros [[H|H]|(c' & Hc' & H)].
      * by left.
      * right. exists c. split; [left | done].
      * right. exists c'. split; [by right | done].
    + intros [H|(c' & Hc' & H)]; [by left; left|].
      apply elem_of_cons in Hc' as [->|Hc']; [by left; right|].
      right. by exists c'.
Qed.

Lemma isFilterActive_false (flt : Filters) :
  isFilterActive flt = false <->
  (length (activeFilterCategories flt) =? 0)%nat
  && (length (activeFilterRoles flt) =? 0)%nat
  && (length (activeFilterAlignments flt) =? 0)%nat
  && (length (activeFilterCustomCategories flt) =? 0)%nat = true.
Proof.
  unfold isFilterActive.
  destruct (activeFilterCategories flt), (activeFilterRoles flt),
    (activeFilterAlignments flt), (activeFilterCustomCategories flt);
    cbn; split; intros H; try reflexivity; try discriminate H.
Qed.

(** The warning function against the membership test of the grid. *)
Lemma warning_matches_grid :
  forall (flt : Filters) (ref : Reference) (st : State) (c : Character),
    c ∈ characterData st ->
    id c <> "" ->
    NoDup (map baseId (referenceCharacters ref)) ->
    willCharacterBeFilteredOut flt ref st (id c)
      (activeFilterCategories flt) (activeFilterRoles flt)
      (activeFilterAlignments flt) (activeFilterCustomCategories flt)
    = negb (isShown flt ref st c).
Proof.
  intros flt ref st c Hc Hid Hnodup.
  unfold willCharacterBeFilteredOut, isShown.
  destruct (isFilterActive flt) eqn:Hactive.
  - replace ((length (activeFilterCategories flt) =? 0)%nat
             && (length (activeFilterRoles flt) =? 0)%nat
             && (length (activeFilterAlignments flt) =? 0)%nat
             && (length (activeFilterCustomCategories flt) =? 0)%nat) with false.
    2:{ symmetry. apply not_true_is_false. intros H.
        apply isFilterActive_false in H. congruence. }
    rewrite <- (refCharMap_lookup ref (id c) Hid Hnodup).
    unfold getFilteredCharacterIds.
    destruct (referenceCharacters ref) as [|rc refs] eqn:Hrefs.
    + simpl. unfold refCharMap. rewrite Hrefs. simpl. rewrite lookup_empty.
      symmetry. apply negb_true_iff, bool_decide_eq_false_2. set_solver.
    + replace ((length (rc :: refs) =? 0)%nat) with false by reflexivity.
      assert (id c ∈ fold_left (filterStep flt ref (characterData st)) (characterData st) ∅
              <-> id c ∈ filterStep flt ref (characterData st) ∅ c) as Hmem.
      { rewrite filter_fold_elem. split.
        - intros [H|(c' & Hc' & H)]; [set_solver|].
          pose proof (filterStep_own_id _ _ _ _ _ H) as Hsame.
          by rewrite (filterStep_same_id flt ref (characterData st) c c').
        - intros H. right. by exists c. }
      rewrite (bool_decide_ext _ _ Hmem). unfold filterStep.
      destruct (refCharMap ref !! id c) as [refChar|].
      * repeat (match goal with
                | |- context [if negb ?b then _ else _] => destruct b; simpl
                end);
          symmetry;
          try (apply negb_true_iff, bool_decide_eq_false_2; set_solver);
          apply negb_false_iff, bool_decide_eq_true_2; set_solver.
      * symmetry. apply negb_true_iff, bool_decide_eq_false_2. set_solver.
  - apply isFilterActive_false in Hactive. by rewrite Hactive.
Qed.

(** X5: The check that [applyFilter] makes before it deselects a character
    predicts the grid: for a character of the dataset, the warning function
    answers true exactly when the grid drawn with those filter lists does
    not show the character, provided the reference [baseId]s are
    distinct. *)
Theorem filter_warning_predicts_grid :
  forall (flt : Filters) (ref : Reference) (st : State) (c : Character),
    c ∈ characterData st ->
    id c <> "" ->
    NoDup (map baseId (referenceCharacters ref)) ->
    willCharacterBeFilteredOut flt ref st (id c)
      (activeFilterCategories flt) (activeFilterRoles flt)
      (activeFilterAlignments flt) (activeFilterCustomCategories flt)
    = negb (isShown flt ref st c).
Proof. exact warning_matches_grid. Qed.

Lemma filter_warning_predicts_grid_witness :
  willCharacterBeFilteredOut (filtersOf ["Rebel"] [] [] []) sampleReference unsortedState
    "JABBATHEHUTT" ["Rebel"] [] [] [] = true /\
  isShown (filtersOf ["Rebel"] [] [] []) sampleReference unsortedState jabba = false.
Proof.
  assert (isShown (filtersOf ["Rebel"] [] [] []) sampleReference unsortedState jabba = false)
    as Hhidden by (vm_compute; reflexivity).
  split; [|exact Hhidden].
  assert (jabba ∈ characterData unsortedState) as Hin by left.
  assert (id jabba <> "") as Hid by discriminate.
  assert (NoDup (map baseId (referenceCharacters sampleReference))) as Hnodup
    by (vm_compute; repeat constructor; set_solver).
  pose proof (filter_warning_predicts_grid (filtersOf ["Rebel"] [] [] []) sampleReference
                unsortedState jabba Hin Hid Hnodup) as Hpredicts.
  rewrite Hhidden in Hpredicts. exact Hpredicts.
Defined.

Lemma singlePass_and_many (selected : list string) (value : option string) :
  (1 < length selected)%nat -> singlePass "AND" selected value = false.
Proof.
  intros Hlen. unfold singlePass.
  replace (0 <? length selected)%nat with true by (symmetry; apply Nat.ltb_lt; lia).
  replace (1 <? length selected)%nat with true by (symmetry; by apply Nat.ltb_lt).
  reflexivity.
Qed.

Lemma fold_left_fixed {A B} (f : A -> B -> A) (l : list B) (a : A) :
  (forall x, f a x = a) -> fold_left f l a = a.
Proof. intros Hfix. induction l as [|x l IH]; simpl; [done|]. by rewrite Hfix. Qed.

(** X6: Two or more roles under the AND operator hide every character: the
    filtered set is empty and the warning function answers true for every
    id; so does a filter when no reference character is loaded. *)
Theorem filter_hides_everyone :
  forall (flt : Filters) (ref : Reference) (st : State),
    (filterOperatorRoles flt = "AND" -> (1 < length (activeFilterRoles flt))%nat ->
     getFilteredCharacterIds flt ref st = ∅ /\
     forall characterId,
       willCharacterBeFilteredOut flt ref st characterId
         (activeFilterCategories flt) (activeFilterRoles flt)
         (activeFilterAlignments flt) (activeFilterCustomCategories flt) = true) /\
    (referenceCharacters ref = [] -> isFilterActive flt = true ->
     getFilteredCharacterIds flt ref st = ∅ /\
     forall characterId,
       willCharacterBeFilteredOut flt ref st characterId
         (activeFilterCategories flt) (activeFilterRoles flt)
         (activeFilterAlignments flt) (activeFilterCustomCategories flt) = true).
Proof.
  intros flt ref st. split.
  - intros Hop Hlen. split.
    + unfold getFilteredCharacterIds.
      destruct (length (referenceCharacters ref) =? 0)%nat; [done|].
      apply fold_left_fixed. intros c. unfold filterStep.
      destruct (refCharMap ref !! id c) as [refChar|]; [|done].
      destruct (negb (categoriesPass _ _ refChar)); [done|].
      by rewrite Hop, singlePass_and_many.
    + intros characterId. unfold willCharacterBeFilteredOut.
      replace ((length (activeFilterRoles flt) =? 0)%nat) with false
        by (symmetry; apply Nat.eqb_neq; lia).
      rewrite andb_false_r. simpl.
      destruct (List.find _ (referenceCharacters ref)) as [refChar|]; [|done].
      destruct (negb (categoriesPass _ _ refChar)); [done|].
      by rewrite Hop, singlePass_and_many.
  - intros Hrefs Hactive. split.
    + unfold getFilteredCharacterIds. by rewrite Hrefs.
    + intros characterId. unfold willCharacterBeFilteredOut. rewrite Hrefs. simpl.
      destruct ((length (activeFilterCategories flt) =? 0)%nat
                && (length (activeFilterRoles flt) =? 0)%nat
                && (length (activeFilterAlignments flt) =? 0)%nat
                && (length (activeFilterCustomCategories flt) =? 0)%nat) eqn:Hnone; [|done].
      apply isFilterActive_false in Hnone. congruence.
Qed.

Lemma filter_hides_everyone_witness :
  getFilteredCharacterIds (withRolesAnd (filtersOf [] ["Attacker"; "Support"] [] []))
    sampleReference unsortedState = ∅.
Proof.
  apply (proj1 (filter_hides_everyone
                  (withRolesAnd (filtersOf [] ["Attacker"; "Support"] [] []))
                  sampleReference unsortedState)).
  - reflexivity.
  - simpl. lia.
Defined.

(** ** Who qualifies for an omicron bonus *)

Lemma addModes_elem (modes : list Z) (start : gset Z) (mode : Z) :
  mode ∈ fold_left (fun acc m => acc ∪ {[ m ]}) modes start <-> mode ∈ start \/ mode ∈ modes.
Proof.
  revert start. induction modes as [|m modes IH]; intros start; simpl.
  - split; [by left | intros [H|H]; [done | inversion H]].
  - rewrite IH, elem_of_union, elem_of_singleton, elem_of_cons. tauto.
Qed.

Lemma addModesOfTypes_elem (types : list string) (start : gset Z) (mode : Z) :
  mode ∈ addModesOfTypes types start <->
  mode ∈ start \/
  exists type modes, type ∈ types /\ OMICRON_MODE_MAP !! type = Some modes /\ mode ∈ modes.
Proof.
  unfold addModesOfTypes. revert start.
  induction types as [|type types IH]; intros start; simpl.
  - split; [by left | intros [H|(t & ms & Ht & _)]; [done | inversion Ht]].
  - rewrite IH. destruct (OMICRON_MODE_MAP !! type) as [modes|] eqn:Hmap.
    + rewrite addModes_elem. split.
      * intros [[H|H]|(t & ms & Ht & Hms & Hm)].
        -- by left.
        -- right. exists type, modes. split; [left | done].
        -- right. exists t, ms. split; [by right | done].
      * intros [H|(t & ms & Ht & Hms & Hm)]; [by left; left|].
        apply elem_of_cons in Ht as [-> |Ht].
        -- left; right. congruence.
        -- right. by exists t, ms.
    + split.
      * intros [H|(t & ms & Ht & Hms & Hm)]; [by left|].
        right. exists t, ms. split; [by right | done].
      * intros [H|(t & ms & Ht & Hms & Hm)]; [by left|].
        apply elem_of_cons in Ht as [-> |Ht]; [congruence|].
        right. by exists t, ms.
Qed.

Lemma indexAbility_elem (index : gmap string (gset Z)) (ability : Ability)
    (charId : string) (mode : Z) :
  mode ∈ default ∅ (indexAbility index ability !! charId) <->
  mode ∈ default ∅ (index !! charId) \/
  (character_base_id ability = charId /\ is_omicron ability = Some true /\
   omicron_mode ability = Some mode).
Proof.
  unfold indexAbility.
  destruct (is_omicron ability) as [[|]|] eqn:Hom;
    try (split; [by left | intros [H|(_ & H & _)]; [done | discriminate]]).
  destruct (omicron_mode ability) as [m|] eqn:Hmode;
    [|split; [by left | intros [H|(_ & _ & H)]; [done | discriminate]]].
  set (key := character_base_id ability).
  destruct (index !! key) as [modes|] eqn:Hkey.
  - rewrite Hkey. destruct (decide (key = charId)) as [<- |Hne].
    + rewrite lookup_insert_eq, Hkey. simpl. rewrite elem_of_union, elem_of_singleton.
      split; [intros [H| ->]; [by left | by right] |].
      intros [H|(_ & _ & H)]; [by left | right; congruence].
    + rewrite lookup_insert_ne by done. split; [by left | intros [H|(H & _)]; done].
  - rewrite lookup_insert_eq. destruct (decide (key = charId)) as [<- |Hne].
    + rewrite insert_insert_eq, lookup_insert_eq, Hkey. simpl.
      rewrite elem_of_union, elem_of_singleton.
      split; [intros [H| ->]; [by left | by right] |].
      intros [H|(_ & _ & H)]; [by left | right; congruence].
    + rewrite !lookup_insert_ne by done. split; [by left | intros [H|(H & _)]; done].
Qed.

Lemma buildIndex_elem (abilities : list Ability) (index : gmap string (gset Z))
    (charId : string) (mode : Z) :
  mode ∈ default ∅ (fold_left indexAbility abilities index !! charId) <->
  mode ∈ default ∅ (index !! charId) \/
  exists ability, ability ∈ abilities /\ character_base_id ability = charId /\
                  is_omicron ability = Some true /\ omicron_mode ability = Some mode.
Proof.
  revert index. induction abilities as [|a abilities IH]; intros index; simpl.
  - split; [by left | intros [H|(x & Hx & _)]; [done | inversion Hx]].
  - rewrite IH, indexAbility_elem. split.
    + intros [[H|H]|(x & Hx & H)].
      * by left.
      * right. exists a. split; [left | done].
      * right. exists x. split; [by right | done].
    + intros [H|(x & Hx & H)]; [by left; left|].
      apply elem_of_cons in Hx as [-> |Hx]; [by left; right|].
      right. by exists x.
Qed.

Lemma hasMatchingOmicronAbilities_elem (st : State) (characterId : string) :
  hasMatchingOmicronAbilities st characterId = true <->
  exists mode, mode ∈ default ∅ (omicronAbilityIndex st !! characterId) /\
               mode ∈ selectedOmicronModeSet st.
Proof.
  unfold hasMatchingOmicronAbilities.
  destruct (bool_decide (size (selectedOmicronModeSet st) = 0%nat)) eqn:Hsize.
  - apply bool_decide_eq_true in Hsize. apply size_empty_iff in Hsize.
    split; [discriminate|]. intros (mode & _ & Hmode). set_solver.
  - destruct (omicronAbilityIndex st !! characterId) as [modes|]; simpl.
    + rewrite existsb_exists. split.
      * intros (mode & Hin & Hsel). exists mode.
        split; [by apply elem_of_elements, list_elem_of_In | by apply bool_decide_eq_true in Hsel].
      * intros (mode & Hin & Hsel). exists mode.
        split; [by apply list_elem_of_In, elem_of_elements | by apply bool_decide_eq_true].
    + split; [discriminate | intros (mode & H & _); set_solver].
Qed.

(** X7: Once the mode set and the ability index are rebuilt, a character has
    matching omicron abilities exactly when the reference data lists an
    omicron ability of that character whose mode belongs to one of the
    selected types. *)
Theorem qualifies_iff_selected_omicron_ability :
  forall (types : list string) (ref : Reference) (st : State) (characterId : string),
    hasMatchingOmicronAbilities
      (buildOmicronAbilityIndex ref (updateOmicronModeSet types st)) characterId = true <->
    exists ability mode type modes,
      ability ∈ referenceAbilities ref /\
      character_base_id ability = characterId /\
      is_omicron ability = Some true /\
      omicron_mode ability = Some mode /\
      type ∈ types /\ OMICRON_MODE_MAP !! type = Some modes /\ mode ∈ modes.
Proof.
  intros types ref st characterId.
  rewrite hasMatchingOmicronAbilities_elem.
  cbn [buildOmicronAbilityIndex updateOmicronModeSet withView
       omicronAbilityIndex selectedOmicronModeSet].
  split.
  - intros (mode & Hindex & Hsel).
    apply buildIndex_elem in Hindex as [Hindex|(ability & Ha & Hc & Ho & Hm)];
      [rewrite lookup_empty in Hindex; set_solver|].
    apply addModesOfTypes_elem in Hsel as [Hsel|(type & modes & Ht & Hmap & Hin)];
      [set_solver|].
    by exists ability, mode, type, modes.
  - intros (ability & mode & type & modes & Ha & Hc & Ho & Hm & Ht & Hmap & Hin).
    exists mode. split.
    + apply buildIndex_elem. right. by exists ability.
    + apply addModesOfTypes_elem. right. by exists type, modes.
Qed.

(** ** Selection never drops staged edits silently *)

(** X8: While a character is selected and its draft is dirty, declining the
    dialog leaves everything as it is, whichever card is clicked;
    otherwise a click on another card opens a clean draft of that card and
    a click on the selected card clears selection and draft. *)
Theorem selectCharacter_guards_dirty_draft :
  forall (answer : bool) (index : nat) (st : State) (selected character : Character),
    selectedObject st = Some selected ->
    characterData st !! index = Some character ->
    (draftIsDirty st = true -> answer = false ->
     selectCharacter answer index st = st /\ clearCharacterSelection answer st = st) /\
    ((draftIsDirty st = false \/ answer = true) -> id selected <> id character ->
     selectedCharacter (selectCharacter answer index st) = Some index /\
     currentDraft (selectCharacter answer index st) = Some (draftSnapshot character) /\
     currentDraftBaseline (selectCharacter answer index st) = Some (draftSnapshot character) /\
     draftIsDirty (selectCharacter answer index st) = false) /\
    ((draftIsDirty st = false \/ answer = true) -> id selected = id character ->
     selectedCharacter (selectCharacter answer index st) = None /\
     currentDraft (selectCharacter answer index st) = None /\
     draftIsDirty (selectCharacter answer index st) = false) /\
    characterData (selectCharacter answer index st) = characterData st.
Proof.
  intros answer index st selected character Hsel Hchar.
  unfold selectCharacter, clearCharacterSelection, confirmDiscardDrafts, hasDraftChanges.
  rewrite Hchar, Hsel. repeat split.
  - destruct (String.eqb (id selected) (id character)); by rewrite H, H0.
  - by rewrite H, H0.
  - apply String.eqb_neq in H0. rewrite H0.
    destruct H as [-> | ->]; [done|]. by destruct (draftIsDirty st).
  - apply String.eqb_neq in H0. rewrite H0.
    destruct H as [-> | ->]; [done|]. by destruct (draftIsDirty st).
  - apply String.eqb_neq in H0. rewrite H0.
    destruct H as [-> | ->]; [done|]. by destruct (draftIsDirty st).
  - apply String.eqb_neq in H0. rewrite H0.
    destruct H as [-> | ->]; [done|]. by destruct (draftIsDirty st).
  - apply String.eqb_eq in H0. rewrite H0.
    destruct H as [-> | ->]; [done|]. by destruct (draftIsDirty st).
  - apply String.eqb_eq in H0. rewrite H0.
    destruct H as [-> | ->]; [done|]. by destruct (draftIsDirty st).
  - apply String.eqb_eq in H0. rewrite H0.
    destruct H as [-> | ->]; [done|]. by destruct (draftIsDirty st).
  - destruct (String.eqb (id selected) (id character));
      destruct (draftIsDirty st), answer; reflexivity.
Qed.

Lemma selectCharacter_guards_dirty_draft_witness :
  selectCharacter false 0 (editDraft (setDraftBaseTier 5) editingSidious) =
  editDraft (setDraftBaseTier 5) editingSidious.
Proof.
  apply (proj1 (selectCharacter_guards_dirty_draft false 0
                  (editDraft (setDraftBaseTier 5) editingSidious)
                  (newCharacter "EMPERORPALPATINE" 3) (newCharacter "EMPERORPALPATINE" 3)
                  eq_refl eq_refl)); reflexivity.
Defined.

(** ** Moving a card between tier columns *)

Lemma hasMatchingOmicronAbilities_view (st st' : State) (characterId : string) :
  sameView st st' ->
  hasMatchingOmicronAbilities st characterId = hasMatchingOmicronAbilities st' characterId.
Proof.
  intros (_ & _ & Hmodes & Hindex). unfold hasMatchingOmicronAbilities.
  by rewrite Hmodes, Hindex.
Qed.

Lemma omicronScanSet_ids (c c' x x' : Character) (acc : Z * option string) (set : SynergySet) :
  id c = id c' -> id x = id x' ->
  omicronScanSet c x acc set = omicronScanSet c' x' acc set.
Proof.
  intros Hc Hx. unfold omicronScanSet, doesSynergyOmicronApplyToCharacter.
  by rewrite Hc, Hx.
Qed.

Lemma omicronScanChar_view (st st' : State) (c c' x x' : Character) (acc : Z * option string) :
  sameView st st' -> id c = id c' -> sameBonusFields x x' ->
  omicronScanChar st c acc x = omicronScanChar st' c' acc x'.
Proof.
  intros Hview Hc (Hid & _ & Hsets). unfold omicronScanChar.
  rewrite <- Hsets, <- Hid, (hasMatchingOmicronAbilities_view st st') by done.
  destruct (synergySets x) as [sets|]; [|done].
  destruct (Z.of_nat (length sets) =? 0); [done|].
  destruct (hasMatchingOmicronAbilities st' (id x)); simpl; [|done].
  clear Hsets. revert acc. induction sets as [|set sets IH]; intros acc; simpl; [done|].
  rewrite (omicronScanSet_ids c c' x x') by done. apply IH.
Qed.

Lemma bestSynergyOmicron_view (st st' : State) (c c' : Character) :
  sameView st st' -> id c = id c' ->
  Forall2 sameBonusFields (characterData st) (characterData st') ->
  bestSynergyOmicron st c = bestSynergyOmicron st' c'.
Proof.
  intros Hview Hc Hdata. unfold bestSynergyOmicron.
  generalize (0, @None string) as acc.
  induction Hdata as [|x x' data data' Hx Hdata IH]; intros acc; simpl; [done|].
  rewrite (omicronScanChar_view st st' c c' x x') by done. apply IH.
Qed.

Lemma personalOmicron_view (st st' : State) (c c' : Character) :
  sameView st st' -> sameBonusFields c c' ->
  personalOmicron st c = personalOmicron st' c'.
Proof.
  intros Hview (Hid & Hboost & _). unfold personalOmicron.
  by rewrite <- Hid, <- Hboost, (hasMatchingOmicronAbilities_view st st').
Qed.

Lemma calculateSynergyTiers_enhancement (c c' : Character) :
  synergySets c = synergySets c' -> bestSynergyOf c = bestSynergyOf c'.
Proof. intros H. unfold bestSynergyOf. by rewrite H. Qed.

(** The bonuses of a character do not depend on any base tier: two
    datasets that differ in base tiers only give every character the same
    applied omicron bonus and the same synergy component. *)
Lemma bonuses_ignore_base_tiers (st st' : State) (c c' : Character) :
  sameView st st' -> sameBonusFields c c' ->
  Forall2 sameBonusFields (characterData st) (characterData st') ->
  appliedOmicronBonus (calculateFinalTier st c) =
    appliedOmicronBonus (calculateFinalTier st' c') /\
  finalTier (calculateFinalTier st' c') =
    clampTier (baseTier c'
               - appliedOmicronBonus (calculateFinalTier st c)
               - (if includeSynergy st then bestSynergyOf c else 0)).
Proof.
  intros Hview Hc Hdata.
  destruct (calculateFinalTier_views st c) as (Ha & _ & _).
  destruct (calculateFinalTier_views st' c') as (Ha' & Hf' & _).
  assert (appliedOmicronBonus (calculateFinalTier st c) =
          appliedOmicronBonus (calculateFinalTier st' c')) as Happlied.
  { rewrite Ha, Ha'.
    rewrite (personalOmicron_view st st' c c') by done.
    rewrite (bestSynergyOmicron_view st st' c c') by (done || apply Hc).
    destruct Hview as (_ & -> & _). reflexivity. }
  split; [exact Happlied|].
  rewrite Hf', <- Happlied.
  destruct Hview as (-> & _). destruct Hc as (_ & _ & Hsets).
  by rewrite (calculateSynergyTiers_enhancement c c').
Qed.

Lemma calculateFinalTier_view (st st' : State) (c : Character) :
  sameView st st' ->
  Forall2 sameBonusFields (characterData st) (characterData st') ->
  calculateFinalTier st c = calculateFinalTier st' c.
Proof.
  intros Hview Hdata. unfold calculateFinalTier.
  rewrite (personalOmicron_view st st' c c) by (done || by repeat split).
  rewrite (bestSynergyOmicron_view st st' c c) by done.
  destruct Hview as (-> & -> & _). reflexivity.
Qed.

Lemma sameBonusFields_insert (data : list Character) (index : nat) (c : Character) (tier : Z) :
  data !! index = Some c ->
  Forall2 sameBonusFields data (<[ index := withBaseTier tier c ]> data).
Proof.
  intros Hc. apply Forall2_same_length_lookup_2; [by rewrite length_insert|].
  intros j x y Hx Hy. destruct (decide (j = index)) as [->|Hne].
  - rewrite list_lookup_insert_eq in Hy by (by apply lookup_lt_Some in Hc).
    inversion Hy; subst. rewrite Hc in Hx. inversion Hx; subst. by repeat split.
  - rewrite list_lookup_insert_ne in Hy by done.
    rewrite Hx in Hy. inversion Hy; subst. by repeat split.
Qed.

Lemma selectCharacter_keeps_data (answer : bool) (index : nat) (st : State) :
  characterData (selectCharacter answer index st) = characterData st /\
  sameView st (selectCharacter answer index st).
Proof.
  unfold selectCharacter, clearCharacterSelection, confirmDiscardDrafts, hasDraftChanges.
  destruct (characterData st !! index) as [character|]; [|by repeat split].
  destruct (selectedObject st) as [selected|]; [|by repeat split].
  destruct (String.eqb (id selected) (id character)), (draftIsDirty st), answer;
    by repeat split.
Qed.

(** What a drop does to the dataset: nothing, or one base tier
    rewritten. *)
Lemma handleDrop_data (answer : bool) (dragged : string) (tier : Z) (st : State) :
  sameView st (handleDrop answer dragged tier st) /\
  characterData (handleDrop answer dragged tier st) =
    match list_find (fun c => id c = dragged) (characterData st) with
    | None => characterData st
    | Some (index, c) =>
        if finalTier (calculateFinalTier st c) =? tier then characterData st
        else <[ index := withBaseTier
                  (clampTier (baseTier c + (tier - finalTier (calculateFinalTier st c)))) c ]>
               (characterData st)
    end.
Proof.
  unfold handleDrop.
  destruct (list_find (fun c => id c = dragged) (characterData st)) as [[index c]|];
    [|by repeat split].
  destruct (finalTier (calculateFinalTier st c) =? tier); [by repeat split|].
  set (st1 := updateStatus _ _).
  destruct (selectedObject st1) as [selected|]; [|by repeat split].
  destruct (String.eqb (id selected) _); [|by repeat split].
  destruct (selectCharacter_keeps_data answer index st1) as [Hdata (H1 & H2 & H3 & H4)].
  rewrite Hdata. split; [|reflexivity].
  repeat split; [rewrite <- H1 | rewrite <- H2 | rewrite <- H3 | rewrite <- H4]; reflexivity.
Qed.

(** X9: A drop moves one card only: every character with another id keeps its
    record and its final tier, and so its column. *)
Theorem handleDrop_moves_one_card :
  forall (answer : bool) (dragged : string) (tier : Z) (st : State)
         (index : nat) (c : Character),
    characterData st !! index = Some c ->
    id c <> dragged ->
    characterData (handleDrop answer dragged tier st) !! index = Some c /\
    calculateFinalTier (handleDrop answer dragged tier st) c = calculateFinalTier st c.
Proof.
  intros answer dragged tier st index c Hc Hid.
  destruct (handleDrop_data answer dragged tier st) as [Hview Hdata].
  destruct (list_find (fun c0 => id c0 = dragged) (characterData st)) as [[i moved]|] eqn:Hfind.
  - apply list_find_Some in Hfind as (Hmoved & Hmid & _).
    destruct (finalTier (calculateFinalTier st moved) =? tier).
    + split; [by rewrite Hdata|]. symmetry. apply calculateFinalTier_view; [done|].
      rewrite Hdata. apply Forall2_same_length_lookup_2; [done|].
      intros j x y Hx Hy. rewrite Hx in Hy. inversion Hy. by repeat split.
    + split.
      * rewrite Hdata. rewrite list_lookup_insert_ne; [done|].
        intros ->. rewrite Hmoved in Hc. inversion Hc; subst. done.
      * symmetry. apply calculateFinalTier_view; [done|].
        rewrite Hdata. by apply sameBonusFields_insert.
  - split; [by rewrite Hdata|]. symmetry. apply calculateFinalTier_view; [done|].
    rewrite Hdata. apply Forall2_same_length_lookup_2; [done|].
    intros j x y Hx Hy. rewrite Hx in Hy. inversion Hy. by repeat split.
Qed.

(** X10: A drop keeps the ids of the dataset and every base tier in [1..19]:
    the one base tier it writes is clamped. *)
Theorem handleDrop_keeps_tiers_in_range :
  forall (answer : bool) (dragged : string) (tier : Z) (st : State),
    Forall tierInRange (characterData st) ->
    Forall tierInRange (characterData (handleDrop answer dragged tier st)) /\
    map id (characterData (handleDrop answer dragged tier st)) = map id (characterData st).
Proof.
  intros answer dragged tier st Hrange.
  destruct (handleDrop_data answer dragged tier st) as [_ Hdata]. rewrite Hdata.
  destruct (list_find (fun c0 => id c0 = dragged) (characterData st)) as [[i moved]|] eqn:Hfind;
    [|done].
  destruct (finalTier (calculateFinalTier st moved) =? tier); [done|].
  apply list_find_Some in Hfind as (Hmoved & _ & _). split.
  - apply Forall_insert; [exact Hrange|]. unfold tierInRange. simpl. apply clampTier_range.
  - apply list_eq. intros j. change (map id ?l) with (id <$> l).
    rewrite !list_lookup_fmap. destruct (decide (j = i)) as [->|Hne].
    + rewrite list_lookup_insert_eq by (by apply lookup_lt_Some in Hmoved).
      by rewrite Hmoved.
    + by rewrite list_lookup_insert_ne.
Qed.

(** X11: A drop lands the card in the column it is dropped on whenever neither
    clamp cuts in: the card's final tier was not clamped before, and its
    base tier moved by the column difference stays in [1..19]. *)
Theorem handleDrop_lands_in_column :
  forall (answer : bool) (dragged : string) (tier : Z) (st : State)
         (index : nat) (c : Character),
    list_find (fun c0 => id c0 = dragged) (characterData st) = Some (index, c) ->
    1 <= tier <= 19 ->
    finalTier (calculateFinalTier st c) =
      baseTier c - appliedOmicronBonus (calculateFinalTier st c)
      - (if includeSynergy st then bestSynergyOf c else 0) ->
    1 <= baseTier c + (tier - finalTier (calculateFinalTier st c)) <= 19 ->
    exists moved,
      characterData (handleDrop answer dragged tier st) !! index = Some moved /\
      id moved = id c /\
      finalTier (calculateFinalTier (handleDrop answer dragged tier st) moved) = tier.
Proof.
  intros answer dragged tier st index c Hfind Htier Hunclamped Hbase.
  destruct (handleDrop_data answer dragged tier st) as [Hview Hdata].
  rewrite Hfind in Hdata. apply list_find_Some in Hfind as (Hc & _ & _).
  destruct (finalTier (calculateFinalTier st c) =? tier) eqn:Hsame.
  - apply Z.eqb_eq in Hsame. exists c. rewrite Hdata. split; [done|]. split; [done|].
    rewrite <- (calculateFinalTier_view st _ c Hview); [done|].
    rewrite Hdata. apply Forall2_same_length_lookup_2; [done|].
    intros j x y Hx Hy. rewrite Hx in Hy. inversion Hy. by repeat split.
  - set (moved := withBaseTier
                    (clampTier (baseTier c + (tier - finalTier (calculateFinalTier st c)))) c)
      in *.
    exists moved. split; [|split; [reflexivity|]].
    + rewrite Hdata. apply list_lookup_insert_eq. by apply lookup_lt_Some in Hc.
    + destruct (bonuses_ignore_base_tiers st (handleDrop answer dragged tier st) c moved)
        as [_ Hfinal]; [done | by repeat split | |].
      * rewrite Hdata. by apply sameBonusFields_insert.
      * rewrite Hfinal. unfold moved. cbn [baseTier withBaseTier].
        unfold clampTier in *. lia.
Qed.

Lemma handleDrop_moves_one_card_witness :
  characterData (handleDrop false "BOBAFETT" 4 grantState) !! 1%nat = Some jabba /\
  calculateFinalTier (handleDrop false "BOBAFETT" 4 grantState) jabba =
    calculateFinalTier grantState jabba.
Proof.
  apply (handleDrop_moves_one_card false "BOBAFETT" 4 grantState 1 jabba).
  - reflexivity.
  - discriminate.
Defined.

Lemma handleDrop_keeps_tiers_in_range_witness :
  Forall tierInRange (characterData (handleDrop false "BOBAFETT" 4 grantState)).
Proof.
  apply (handleDrop_keeps_tiers_in_range false "BOBAFETT" 4 grantState).
  repeat constructor; unfold tierInRange; simpl; lia.
Defined.

Lemma handleDrop_lands_in_column_witness :
  exists moved,
    characterData (handleDrop false "BOBAFETT" 4 grantState) !! 0%nat = Some moved /\
    id moved = "BOBAFETT" /\
    finalTier (calculateFinalTier (handleDrop false "BOBAFETT" 4 grantState) moved) = 4.
Proof.
  apply (handleDrop_lands_in_column false "BOBAFETT" 4 grantState 0 bobaFett).
  - vm_compute. reflexivity.
  - lia.
  - vm_compute. reflexivity.
  - vm_compute. split; discriminate.
Defined.

(** X12: When the dragged card is the selected character's and its tier
    changes, the drop ends in the selection toggle: selection and draft are
    cleared, unless the draft is dirty and the user declines the dialog, in
    which case both are kept. *)
Theorem handleDrop_toggles_selection :
  forall (answer : bool) (dragged : string) (tier : Z) (st : State)
         (selected : Character) (index : nat) (c : Character),
    selectedObject st = Some selected ->
    id selected = dragged ->
    list_find (fun c0 => id c0 = dragged) (characterData st) = Some (index, c) ->
    finalTier (calculateFinalTier st c) <> tier ->
    ((draftIsDirty st = false \/ answer = true) ->
     selectedCharacter (handleDrop answer dragged tier st) = None /\
     currentDraft (handleDrop answer dragged tier st) = None /\
     draftIsDirty (handleDrop answer dragged tier st) = false) /\
    (draftIsDirty st = true -> answer = false ->
     selectedCharacter (handleDrop answer dragged tier st) = selectedCharacter st /\
     currentDraft (handleDrop answer dragged tier st) = currentDraft st /\
     draftIsDirty (handleDrop answer dragged tier st) = true).
Proof.
  intros answer dragged tier st selected index c Hsel Hid Hfind Htier.
  unfold handleDrop. rewrite Hfind.
  apply list_find_Some in Hfind as (Hc & Hcid & _).
  replace (finalTier (calculateFinalTier st c) =? tier) with false
    by (symmetry; by apply Z.eqb_neq).
  set (moved := withBaseTier _ c).
  set (st1 := updateStatus _ _).
  assert (characterData st1 !! index = Some moved) as Hmoved.
  { unfold st1. simpl. apply list_lookup_insert_eq. by apply lookup_lt_Some in Hc. }
  assert (exists selected', selectedObject st1 = Some selected' /\ id selected' = dragged)
    as (selected' & Hsel' & Hid').
  { unfold selectedObject in *. unfold st1. simpl.
    destruct (selectedCharacter st) as [i|]; [|discriminate].
    destruct (decide (i = index)) as [->|Hne].
    - exists moved. split; [|exact Hcid].
      apply list_lookup_insert_eq. by apply lookup_lt_Some in Hc.
    - exists selected. split; [|exact Hid]. by rewrite list_lookup_insert_ne. }
  rewrite Hsel'.
  replace (String.eqb (id selected') (id moved)) with true
    by (symmetry; apply String.eqb_eq; by rewrite Hid').
  unfold selectCharacter. rewrite Hmoved, Hsel'.
  replace (String.eqb (id selected') (id moved)) with true
    by (symmetry; apply String.eqb_eq; by rewrite Hid').
  unfold clearCharacterSelection, confirmDiscardDrafts, hasDraftChanges.
  change (draftIsDirty st1) with (draftIsDirty st).
  split.
  - intros [Hclean|Hyes].
    + rewrite Hclean. by repeat split.
    + rewrite Hyes. destruct (draftIsDirty st); by repeat split.
  - intros Hdirty Hno. rewrite Hdirty, Hno. by repeat split.
Qed.

Lemma handleDrop_toggles_selection_witness :
  selectedCharacter (handleDrop false "EMPERORPALPATINE" 9 editingSidious) = None /\
  currentDraft (handleDrop false "EMPERORPALPATINE" 9 editingSidious) = None.
Proof.
  destruct (handleDrop_toggles_selection false "EMPERORPALPATINE" 9 editingSidious
              (newCharacter "EMPERORPALPATINE" 3) 0 (newCharacter "EMPERORPALPATINE" 3))
    as [Hcleared _].
  - reflexivity.
  - reflexivity.
  - vm_compute. reflexivity.
  - vm_compute. discriminate.
  - destruct Hcleared as (Hs & Hd & _); [by left|]. by split.
Defined.

(** ** Adding a character *)

Lemma id_exists_iff (data : list Character) (characterId : string) :
  existsb (fun char => String.eqb (id char) characterId) data = true <->
  characterId ∈ map id data.
Proof.
  rewrite existsb_exists. split.
  - intros (c & Hc & Heq). apply String.eqb_eq in Heq. subst characterId.
    apply list_elem_of_fmap. exists c. split; [done | by apply list_elem_of_In].
  - intros Hin. apply list_elem_of_fmap in Hin as (c & -> & Hc).
    exists c. split; [by apply list_elem_of_In | apply String.eqb_refl].
Qed.

Lemma submitNewCharacter_data (missing : option string) (custom : string) (st : State) :
  characterData (submitNewCharacter missing custom st) =
    if String.eqb (submittedId missing custom) "" then characterData st
    else if negb (validPattern (submittedId missing custom)) then characterData st
    else if existsb (fun char => String.eqb (id char) (submittedId missing custom))
              (characterData st)
    then characterData st
    else characterData st ++ [newCharacter (submittedId missing custom) 17].
Proof.
  unfold submitNewCharacter. fold (submittedId missing custom).
  destruct (String.eqb (submittedId missing custom) ""); [done|].
  destruct (negb (validPattern (submittedId missing custom))); [done|].
  destruct (existsb _ (characterData st)); [done|].
  by rewrite (proj1 (selectCharacter_keeps_data _ _ _)).
Qed.

(** X13: Adding characters keeps the ids of the dataset distinct and
    well-formed, and never touches a record that is already there. *)
Theorem submitNewCharacter_keeps_ids_distinct :
  forall (missing : option string) (custom : string) (st : State),
    NoDup (map id (characterData st)) ->
    idsWellFormed (characterData st) ->
    NoDup (map id (characterData (submitNewCharacter missing custom st))) /\
    idsWellFormed (characterData (submitNewCharacter missing custom st)) /\
    (forall j c, characterData st !! j = Some c ->
                 characterData (submitNewCharacter missing custom st) !! j = Some c).
Proof.
  intros missing custom st Hnodup Hvalid. rewrite submitNewCharacter_data.
  destruct (String.eqb (submittedId missing custom) ""); [done|].
  destruct (validPattern (submittedId missing custom)) eqn:Hpattern; simpl; [|done].
  destruct (existsb _ (characterData st)) eqn:Hexists; [done|].
  split; [|split].
  - rewrite map_app. simpl. apply NoDup_app. split; [exact Hnodup|]. split.
    + intros x Hx Hnew. apply list_elem_of_singleton in Hnew. subst x.
      apply id_exists_iff in Hx. congruence.
    + apply NoDup_singleton.
  - apply Forall_app. split; [exact Hvalid|]. by constructor.
  - intros j c Hc. by apply lookup_app_l_Some.
Qed.

Lemma submitNewCharacter_keeps_ids_distinct_witness :
  NoDup (map id (characterData (submitNewCharacter (Some "HANSOLO") "" grantState))) /\
  characterData (submitNewCharacter (Some "HANSOLO") "" grantState) =
    [bobaFett; jabba; newCharacter "HANSOLO" 17].
Proof.
  split; [|vm_compute; reflexivity].
  apply (submitNewCharacter_keeps_ids_distinct (Some "HANSOLO") "" grantState).
  - vm_compute. repeat constructor; set_solver.
  - repeat constructor.
Defined.

(** X14: A well-formed id that is new is appended with base tier 17 and becomes
    the selected character with a clean draft, without any dialog; an
    empty, malformed or existing id raises one alert and changes nothing
    else. *)
Theorem submitNewCharacter_outcome :
  forall (missing : option string) (custom : string) (st : State),
    selectionValid st ->
    (submittedId missing custom <> "" ->
     validPattern (submittedId missing custom) = true ->
     submittedId missing custom ∉ map id (characterData st) ->
     characterData (submitNewCharacter missing custom st) =
       characterData st ++ [newCharacter (submittedId missing custom) 17] /\
     selectedObject (submitNewCharacter missing custom st) =
       Some (newCharacter (submittedId missing custom) 17) /\
     currentDraft (submitNewCharacter missing custom st) =
       Some (draftSnapshot (newCharacter (submittedId missing custom) 17)) /\
     draftIsDirty (submitNewCharacter missing custom st) = false /\
     hasUnsavedChanges (submitNewCharacter missing custom st) = true /\
     alerts (submitNewCharacter missing custom st) = alerts st) /\
    ((submittedId missing custom = "" \/
      validPattern (submittedId missing custom) = false \/
      submittedId missing custom ∈ map id (characterData st)) ->
     exists message, submitNewCharacter missing custom st = alert message st).
Proof.
  intros missing custom st Hvalid. split.
  - intros Hne Hpattern Hfresh. unfold submitNewCharacter.
    fold (submittedId missing custom). set (cid := submittedId missing custom) in *.
    replace (String.eqb cid "") with false by (symmetry; by apply String.eqb_neq).
    rewrite Hpattern. simpl.
    replace (existsb (fun char => String.eqb (id char) cid) (characterData st)) with false.
    2:{ symmetry. apply not_true_is_false. intros H. by apply id_exists_iff in H. }
    set (st2 := resetDraft _).
    assert (characterData st2 = characterData st ++ [newCharacter cid 17]) as Hdata
      by reflexivity.
    assert (characterData st2 !! length (characterData st) = Some (newCharacter cid 17))
      as Hnew.
    { rewrite Hdata. rewrite lookup_app_r by lia. by rewrite Nat.sub_diag. }
    unfold selectCharacter. rewrite Hnew.
    assert (match selectedObject st2 with
            | Some selected => String.eqb (id selected) (id (newCharacter cid 17)) = false
            | None => True
            end) as Hother.
    { unfold selectedObject. change (selectedCharacter st2) with (selectedCharacter st).
      destruct (selectedCharacter st) as [i|] eqn:Hi; [|done].
      destruct (Hvalid i Hi) as [sel Hsel]. rewrite Hdata, (lookup_app_l_Some _ _ _ _ Hsel).
      apply String.eqb_neq. intros Heq. apply Hfresh. simpl in Heq. rewrite <- Heq.
      apply list_elem_of_fmap. exists sel. split; [done|].
      apply list_elem_of_lookup. by exists i. }
    destruct (selectedObject st2) as [selected|].
    + rewrite Hother. unfold selectedObject. simpl.
      rewrite lookup_app_r by lia. rewrite Nat.sub_diag. by repeat split.
    + unfold selectedObject. simpl.
      rewrite lookup_app_r by lia. rewrite Nat.sub_diag. by repeat split.
  - intros Hbad. unfold submitNewCharacter. fold (submittedId missing custom).
    destruct (String.eqb (submittedId missing custom) "") eqn:Hempty; [by eexists|].
    destruct (validPattern (submittedId missing custom)) eqn:Hpattern; simpl; [|by eexists].
    destruct (existsb _ (characterData st)) eqn:Hexists; [by eexists|].
    exfalso. destruct Hbad as [H|[H|H]].
    + apply String.eqb_neq in Hempty. done.
    + discriminate.
    + apply id_exists_iff in H. congruence.
Qed.

Lemma submitNewCharacter_outcome_witness :
  selectedObject (submitNewCharacter None "  HANSOLO " editingSidious) =
    Some (newCharacter "HANSOLO" 17) /\
  exists message, submitNewCharacter None "han solo" editingSidious =
                  alert message editingSidious.
Proof.
  assert (selectionValid editingSidious) as Hvalid.
  { intros i Hi. vm_compute in Hi. injection Hi as <-. by eexists. }
  split.
  - destruct (proj1 (submitNewCharacter_outcome None "  HANSOLO " editingSidious Hvalid))
      as (_ & Hsel & _).
    + discriminate.
    + reflexivity.
    + vm_compute. intros H. apply list_elem_of_singleton in H. discriminate H.
    + exact Hsel.
  - apply (proj2 (submitNewCharacter_outcome None "han solo" editingSidious Hvalid)).
    right; left. reflexivity.
Defined.

(** ** Missing characters *)

Lemma elem_of_List_filter {A} (P : A -> bool) (l : list A) (x : A) :
  x ∈ List.filter P l <-> x ∈ l /\ P x = true.
Proof. rewrite !list_elem_of_In. apply filter_In. Qed.

Lemma arraySort_elem {A} (compareFn : A -> A -> Z) (arr : list A) (x : A) :
  x ∈ arraySort compareFn arr <-> x ∈ arr.
Proof. by rewrite arraySort_permutation. Qed.

Lemma sortInsert_sorted {A} (compareFn : A -> A -> Z) (x : A) (sorted : list A) :
  (forall a b, 0 < compareFn a b -> compareFn b a <= 0) ->
  (forall a b c, compareFn a b <= 0 -> compareFn b c <= 0 -> compareFn a c <= 0) ->
  StronglySorted (fun a b => compareFn a b <= 0) sorted ->
  StronglySorted (fun a b => compareFn a b <= 0) (sortInsert compareFn x sorted).
Proof.
  intros Hanti Htrans. induction sorted as [|y rest IH]; intros Hsorted; simpl.
  - repeat constructor.
  - apply StronglySorted_inv in Hsorted as [Hrest Hy].
    destruct (0 <? compareFn x y) eqn:Hafter.
    + apply Z.ltb_lt in Hafter. constructor; [by apply IH|].
      rewrite sortInsert_permutation. constructor; [by apply Hanti | exact Hy].
    + apply Z.ltb_ge in Hafter. constructor; [by constructor|].
      constructor; [exact Hafter|].
      eapply Forall_impl; [exact Hy|]. intros z Hz. simpl in Hz. by apply (Htrans _ y).
Qed.

(** Membership and order of the missing list. *)
Lemma getMissingCharacterIds_members :
  forall (ref : Reference) (st : State),
    (forall name,
       name ∈ getMissingCharacterIds ref st <->
       exists refChar, refChar ∈ referenceCharacters ref /\
                       referenceIdOf refChar = Some name /\
                       name <> "" /\ name ∉ map id (characterData st)) /\
    StronglySorted (fun a b => codeUnitCompare a b <= 0) (getMissingCharacterIds ref st).
Proof.
  intros ref st. unfold getMissingCharacterIds. split.
  - intros name.
    destruct (referenceCharacters ref) as [|rc refs] eqn:Hrefs.
    + simpl. split; [intros H; inversion H | intros (x & Hx & _); inversion Hx].
    + replace (length (rc :: refs) =? 0)%nat with false by reflexivity.
      rewrite arraySort_elem, elem_of_List_filter.
      change (map ?f ?l) with (f <$> l) at 1. rewrite list_elem_of_fmap.
      split.
      * intros [(refChar & -> & Hin) Hne].
        apply elem_of_List_filter in Hin as [Hin Hkeep].
        apply andb_true_iff in Hkeep as [Htruthy Hfresh].
        exists refChar. split; [exact Hin|].
        unfold truthyString in Htruthy.
        destruct (referenceIdOf refChar) as [v|] eqn:Hv; [|discriminate]. simpl in *.
        split; [reflexivity|]. split.
        -- apply negb_true_iff in Htruthy. by apply String.eqb_neq.
        -- apply negb_true_iff, bool_decide_eq_false in Hfresh.
           intros Hin'. apply Hfresh. by apply elem_of_list_to_set.
      * intros (refChar & Hin & Hid & Hne & Hfresh). split.
        -- exists refChar. split; [by rewrite Hid|].
           apply elem_of_List_filter. split; [exact Hin|].
           rewrite Hid. simpl. apply andb_true_iff. split.
           ++ apply negb_true_iff. by apply String.eqb_neq.
           ++ apply negb_true_iff, bool_decide_eq_false. intros Hin'.
              apply Hfresh. by apply elem_of_list_to_set in Hin'.
        -- apply negb_true_iff. by apply String.eqb_neq.
  - destruct (length (referenceCharacters ref) =? 0)%nat; [constructor|].
    generalize (List.filter (fun name => negb (String.eqb name ""))
      (map (fun refChar => default "" (referenceIdOf refChar))
         (List.filter
            (fun refChar =>
               truthyString (referenceIdOf refChar) &&
               negb (bool_decide (default "" (referenceIdOf refChar) ∈
                       (list_to_set (map id (characterData st)) : gset string))))
            (referenceCharacters ref)))) as names.
    induction names as [|name names IH]; simpl; [constructor|].
    apply sortInsert_sorted; [apply codeUnitCompare_antisym | apply codeUnitCompare_trans | exact IH].
Qed.

(** X15: The missing list holds exactly the reference ids ([id], else
    [baseId]) that are not empty and that no character of the dataset
    carries, in ascending order of character codes. *)
Theorem getMissingCharacterIds_exact :
  forall (ref : Reference) (st : State),
    (forall name,
       name ∈ getMissingCharacterIds ref st <->
       exists refChar, refChar ∈ referenceCharacters ref /\
                       referenceIdOf refChar = Some name /\
                       name <> "" /\ name ∉ map id (characterData st)) /\
    StronglySorted (fun a b => codeUnitCompare a b <= 0) (getMissingCharacterIds ref st).
Proof. exact getMissingCharacterIds_members. Qed.

(** X16: Once a missing character is added it is no longer missing, and the
    rest of the missing list is as before. *)
Theorem submitNewCharacter_fills_missing :
  forall (ref : Reference) (missing : option string) (custom : string) (st : State)
         (name : string),
    submittedId missing custom <> "" ->
    validPattern (submittedId missing custom) = true ->
    submittedId missing custom ∉ map id (characterData st) ->
    (name ∈ getMissingCharacterIds ref (submitNewCharacter missing custom st) <->
     name ∈ getMissingCharacterIds ref st /\ name <> submittedId missing custom).
Proof.
  intros ref missing custom st name Hne Hpattern Hfresh.
  rewrite !(proj1 (getMissingCharacterIds_members ref _)), submitNewCharacter_data.
  replace (String.eqb (submittedId missing custom) "") with false
    by (symmetry; by apply String.eqb_neq).
  rewrite Hpattern. simpl.
  replace (existsb (fun char => String.eqb (id char) (submittedId missing custom))
             (characterData st)) with false.
  2:{ symmetry. apply not_true_is_false. intros H. by apply id_exists_iff in H. }
  rewrite map_app. simpl. split.
  - intros (refChar & Hin & Hid & Hname & Hnew). split.
    + exists refChar. repeat split; try done. intros H. apply Hnew. apply elem_of_app. by left.
    + intros ->. apply Hnew. apply elem_of_app. right. by left.
  - intros [(refChar & Hin & Hid & Hname & Hold) Hother].
    exists refChar. repeat split; try done. intros H.
    apply elem_of_app in H as [H|H]; [done|].
    apply list_elem_of_singleton in H. done.
Qed.

Lemma submitNewCharacter_fills_missing_witness :
  "HANSOLO" ∈ getMissingCharacterIds sampleReference grantState /\
  "HANSOLO" ∉ getMissingCharacterIds sampleReference
                (submitNewCharacter (Some "HANSOLO") "" grantState).
Proof.
  split; [vm_compute; left|].
  intros Hin.
  apply (submitNewCharacter_fills_missing sampleReference (Some "HANSOLO") "" grantState
           "HANSOLO") in Hin.
  - by destruct Hin as [_ Hne].
  - discriminate.
  - reflexivity.
  - vm_compute. intros Hmem.
    apply elem_of_cons in Hmem as [H1|Hrest]; [discriminate H1|].
    apply elem_of_cons in Hrest as [H2|Hnil]; [discriminate H2|].
    inversion Hnil.
Defined.

(** ** The synergy editor keeps every set within capacity *)

Lemma draftSynergySet_Some (st : State) (i : nat) (draft : Draft)
    (sets : list SynergySet) (set : SynergySet) :
  draftSynergySet st i = Some (draft, sets, set) ->
  currentDraft st = Some draft /\ draft_synergySets draft = Some sets /\ sets !! i = Some set.
Proof.
  unfold draftSynergySet.
  destruct (selectedCharacter st); [|discriminate].
  destruct (currentDraft st) as [d|]; [|discriminate].
  destruct (draft_synergySets d) as [l|] eqn:Hl; [|discriminate].
  destruct (l !! i) as [s|] eqn:Hs; [|discriminate].
  intros H. inversion H; subst. by repeat split.
Qed.

Lemma currentDraft_staged (status : string) (draft : Draft) (st : State) :
  currentDraft (staged status draft st) = Some draft.
Proof. reflexivity. Qed.

Lemma sumZ_app (l1 l2 : list Z) : sumZ (l1 ++ l2) = sumZ l1 + sumZ l2.
Proof. induction l1 as [|x l1 IH]; unfold sumZ in *; simpl; lia. Qed.

Lemma sumZ_map_insert {A} (f : A -> Z) (l : list A) (j : nat) (x y : A) :
  l !! j = Some x ->
  sumZ (map f (<[ j := y ]> l)) = sumZ (map f l) - f x + f y.
Proof.
  revert j. induction l as [|a l IH]; intros j Hj; [discriminate|].
  destruct j as [|j]; simpl in *.
  - inversion Hj; subst. unfold sumZ. simpl. lia.
  - change (f a + sumZ (map f (<[ j := y ]> l)) = f a + sumZ (map f l) - f x + f y).
    rewrite (IH j Hj). lia.
Qed.

Lemma sumZ_map_delete {A} (f : A -> Z) (l : list A) (j : nat) (x : A) :
  l !! j = Some x ->
  sumZ (map f (delete j l)) = sumZ (map f l) - f x.
Proof.
  revert j. induction l as [|a l IH]; intros j Hj; [discriminate|].
  destruct j as [|j]; simpl in *.
  - inversion Hj; subst. unfold sumZ. simpl. lia.
  - change (f a + sumZ (map f (delete j l)) = f a + sumZ (map f l) - f x).
    rewrite (IH j Hj). lia.
Qed.

Lemma orEmpty_nonEmpty {A} (l : list A) : orEmpty (nonEmpty l) = l.
Proof. by destruct l. Qed.

(** Slot usage in terms of the two arrays, whatever their presence. *)
Lemma slotUsage_of (cs : option (list string)) (defs : option (list CategoryDefinition))
    (set : SynergySet) :
  characters set = cs -> categoryDefinitions set = defs ->
  getSynergySlotUsage set =
  Z.of_nat (length (orEmpty cs)) +
  sumZ (map (fun catDef => nullish (numberMatchesRequired catDef) 0) (orEmpty defs)).
Proof. intros <- <-. apply getSynergySlotUsage_sum. Qed.

Lemma staged_within (status : string) (i : nat) (set' : SynergySet)
    (sets : list SynergySet) (draft : Draft) (st : State) :
  Forall setWithinCapacity sets ->
  setWithinCapacity set' ->
  draftWithinCapacity (staged status (withSetAt i set' sets draft) st).
Proof.
  intros Hsets Hset d Hd. rewrite currentDraft_staged in Hd. inversion Hd; subst.
  simpl. by apply Forall_insert.
Qed.

Lemma alert_within (message : string) (st : State) :
  draftWithinCapacity st -> draftWithinCapacity (alert message st).
Proof. intros H d Hd. by apply H. Qed.

Lemma draft_sets_within (st : State) (i : nat) (draft : Draft)
    (sets : list SynergySet) (set : SynergySet) :
  draftWithinCapacity st ->
  draftSynergySet st i = Some (draft, sets, set) ->
  Forall setWithinCapacity sets /\ setWithinCapacity set /\ sets !! i = Some set.
Proof.
  intros Hinv Hguard. apply draftSynergySet_Some in Hguard as (Hd & Hs & Hi).
  specialize (Hinv draft Hd). rewrite Hs in Hinv. simpl in Hinv.
  split; [done|]. split; [|done].
  by apply (Forall_lookup_1 _ _ _ _ Hinv Hi).
Qed.

Lemma same_arrays_within (set set' : SynergySet) :
  characters set' = characters set ->
  categoryDefinitions set' = categoryDefinitions set ->
  setWithinCapacity set -> setWithinCapacity set'.
Proof.
  intros Hc Hd [Husage Hdefs]. unfold setWithinCapacity.
  rewrite (slotUsage_of _ _ set' Hc Hd), <- getSynergySlotUsage_sum, Hd. by split.
Qed.

Lemma same_length_within (set : SynergySet) (cs cs' : list string) :
  characters set = Some cs -> length cs' = length cs ->
  setWithinCapacity set -> setWithinCapacity (withCharacters (Some cs') set).
Proof.
  intros Hc Hlen [Husage Hdefs]. unfold setWithinCapacity. split; [|exact Hdefs].
  rewrite (slotUsage_of (Some cs') (categoryDefinitions set)) by done.
  rewrite (slotUsage_of (Some cs) (categoryDefinitions set)) in Husage by done.
  simpl in *. lia.
Qed.

Lemma handleEdit_within (st : State) (edit : SynergyEdit) :
  draftWithinCapacity st -> draftWithinCapacity (handleEdit st edit).
Proof.
  intros Hinv. destruct edit; simpl.
  - (* addSynergySet *)
    unfold addSynergySet.
    destruct (selectedCharacter st); [|done].
    destruct (currentDraft st) as [draft|] eqn:Hd; [|done].
    intros d Hd'. rewrite currentDraft_staged in Hd'. inversion Hd'; subst. simpl.
    apply Forall_app. split; [by apply Hinv|].
    repeat constructor. unfold getSynergySlotUsage. simpl. lia.
  - (* removeSynergySet *)
    unfold removeSynergySet.
    destruct (selectedCharacter st); [|done].
    destruct (currentDraft st) as [draft|] eqn:Hd; [|done].
    destruct (draft_synergySets draft) as [sets|] eqn:Hs; [|done].
    destruct confirmed; [|done].
    intros d Hd'. rewrite currentDraft_staged in Hd'. inversion Hd'; subst. simpl.
    rewrite orEmpty_nonEmpty. apply Forall_delete.
    specialize (Hinv draft Hd). by rewrite Hs in Hinv.
  - (* addSynergyCharacter *)
    unfold addSynergyCharacter.
    destruct (draftSynergySet st synergyIndex) as [[[draft sets] set]|] eqn:Hguard; [|done].
    destruct (draft_sets_within st _ _ _ _ Hinv Hguard) as (Hsets & [Husage Hdefs] & Hi).
    destruct (4 <=? getSynergySlotUsage set) eqn:Hfull; [by apply alert_within|].
    apply Z.leb_gt in Hfull. apply staged_within; [done|].
    split; [|exact Hdefs].
    rewrite (slotUsage_of (Some (orEmpty (characters set) ++ [""])) (categoryDefinitions set))
      by done.
    rewrite getSynergySlotUsage_sum in Hfull. simpl. rewrite length_app. simpl. lia.
  - (* removeSynergyCharacter *)
    unfold removeSynergyCharacter.
    destruct (draftSynergySet st synergyIndex) as [[[draft sets] set]|] eqn:Hguard; [|done].
    destruct (draft_sets_within st _ _ _ _ Hinv Hguard) as (Hsets & [Husage Hdefs] & Hi).
    destruct (characters set) as [cs|] eqn:Hcs; [|done].
    destruct (length cs <=? charIndex)%nat eqn:Hlen; [done|].
    apply staged_within; [done|]. split; [|exact Hdefs].
    rewrite (slotUsage_of (nonEmpty (splice1 charIndex cs)) (categoryDefinitions set))
      by done.
    rewrite (slotUsage_of (Some cs) (categoryDefinitions set)) in Husage by done.
    rewrite orEmpty_nonEmpty. unfold splice1. simpl in *.
    apply Nat.leb_gt, lookup_lt_is_Some in Hlen.
    rewrite (length_delete cs charIndex Hlen). lia.
  - (* updateSynergyCharacter *)
    unfold updateSynergyCharacter.
    destruct (draftSynergySet st synergyIndex) as [[[draft sets] set]|] eqn:Hguard; [|done].
    destruct (draft_sets_within st _ _ _ _ Hinv Hguard) as (Hsets & Hset & Hi).
    destruct (characters set) as [cs|] eqn:Hcs; [|done].
    destruct (length cs <=? charIndex)%nat; [done|].
    destruct (negb (String.eqb (trim value) "") && negb (validPattern (trim value)));
      [by apply alert_within|].
    destruct (negb (String.eqb (trim value) "") && includes _ (trim value));
      [by apply alert_within|].
    apply staged_within; [done|].
    apply (same_length_within set cs); [done | by rewrite length_insert | done].
  - (* selectCharacterFromDropdown *)
    unfold selectCharacterFromDropdown.
    destruct (draftSynergySet st synergyIndex) as [[[draft sets] set]|] eqn:Hguard; [|done].
    destruct (draft_sets_within st _ _ _ _ Hinv Hguard) as (Hsets & Hset & Hi).
    destruct (characters set) as [cs|] eqn:Hcs; [|done].
    destruct (length cs <=? charIndex)%nat; [done|].
    apply staged_within; [done|].
    apply (same_length_within set cs); [done | by rewrite length_insert | done].
  - (* addCategoryDefinition *)
    unfold addCategoryDefinition.
    destruct (draftSynergySet st synergyIndex) as [[[draft sets] set]|] eqn:Hguard; [|done].
    destruct (draft_sets_within st _ _ _ _ Hinv Hguard) as (Hsets & [Husage Hdefs] & Hi).
    destruct (4 <=? getSynergySlotUsage set) eqn:Hfull; [by apply alert_within|].
    apply Z.leb_gt in Hfull. apply staged_within; [done|]. split.
    + rewrite (slotUsage_of (characters set)
                 (Some (orEmpty (categoryDefinitions set) ++
                        [ {| include := Some []; exclude := None;
                             numberMatchesRequired := Some 1 |} ]))) by done.
      rewrite getSynergySlotUsage_sum in Hfull. simpl. rewrite map_app, sumZ_app.
      unfold sumZ at 2. simpl. lia.
    + simpl. apply Forall_app. split; [exact Hdefs|].
      repeat constructor. exists 1. split; [done | lia].
  - (* removeCategoryDefinition *)
    unfold removeCategoryDefinition.
    destruct (draftSynergySet st synergyIndex) as [[[draft sets] set]|] eqn:Hguard; [|done].
    destruct (draft_sets_within st _ _ _ _ Hinv Hguard) as (Hsets & [Husage Hdefs] & Hi).
    destruct (categoryDefinitions set) as [defs|] eqn:Hd; [|done].
    destruct (length defs <=? catIndex)%nat eqn:Hlen; [done|].
    apply Nat.leb_gt in Hlen. apply lookup_lt_is_Some in Hlen as [catDef Hcat].
    simpl in Hdefs.
    destruct (Forall_lookup_1 _ _ _ _ Hdefs Hcat) as (n & Hn & Hrange).
    apply staged_within; [done|]. split.
    + rewrite (slotUsage_of (characters set) (nonEmpty (splice1 catIndex defs))) by done.
      rewrite (slotUsage_of (characters set) (Some defs)) in Husage by done.
      rewrite orEmpty_nonEmpty. unfold splice1. simpl in *.
      rewrite (sumZ_map_delete _ defs catIndex catDef Hcat), Hn. simpl. lia.
    + simpl. rewrite orEmpty_nonEmpty. by apply Forall_delete.
  - (* updateCategoryDefNumberMatches *)
    unfold updateCategoryDefNumberMatches.
    destruct (draftSynergySet st synergyIndex) as [[[draft sets] set]|] eqn:Hguard; [|done].
    destruct (draft_sets_within st _ _ _ _ Hinv Hguard) as (Hsets & [Husage Hdefs] & Hi).
    destruct (categoryDefinitions set) as [defs|] eqn:Hd; [|done].
    destruct (defs !! catIndex) as [catDef|] eqn:Hcat; [|done].
    destruct numValue as [n|]; [|by apply alert_within].
    destruct (outOfRange n 1 4) eqn:Hout; [by apply alert_within|].
    destruct (4 <? _) eqn:Hover; [by apply alert_within|].
    apply Z.ltb_ge in Hover. simpl in Hdefs.
    destruct (Forall_lookup_1 _ _ _ _ Hdefs Hcat) as (v & Hv & Hrange).
    apply staged_within; [done|]. split.
    + rewrite (slotUsage_of (characters set)
                 (Some (<[ catIndex := withNumberMatchesRequired (Some n) catDef ]> defs)))
        by done.
      rewrite (slotUsage_of (characters set) (Some defs)) in Hover by done.
      simpl in *. rewrite (sumZ_map_insert _ defs catIndex catDef _ Hcat).
      rewrite Hv in *. simpl in *.
      replace (v =? 0) with false in Hover by (symmetry; apply Z.eqb_neq; lia). lia.
    + simpl. apply Forall_insert; [exact Hdefs|].
      exists n. split; [done|].
      assert (~ (n < 1 \/ 4 < n)) as Hn by (intros H; apply outOfRange_true in H; congruence).
      lia.
  - (* updateSynergyEnhancement *)
    unfold updateSynergyEnhancement.
    destruct (draftSynergySet st index) as [[[draft sets] set]|] eqn:Hguard; [|done].
    destruct (draft_sets_within st _ _ _ _ Hinv Hguard) as (Hsets & Hset & Hi).
    destruct (checked && _); [by apply alert_within|].
    apply staged_within; [done|]. by apply (same_arrays_within set).
  - (* updateSynergyomicronBoost *)
    unfold updateSynergyomicronBoost.
    destruct (draftSynergySet st index) as [[[draft sets] set]|] eqn:Hguard; [|done].
    destruct (draft_sets_within st _ _ _ _ Hinv Hguard) as (Hsets & Hset & Hi).
    destruct (checked && _); [by apply alert_within|].
    apply staged_within; [done|]. by apply (same_arrays_within set).
  - (* toggleSynergyEnhancement *)
    unfold toggleSynergyEnhancement.
    destruct (draftSynergySet st index) as [[[draft sets] set]|] eqn:Hguard; [|done].
    destruct (draft_sets_within st _ _ _ _ Hinv Hguard) as (Hsets & Hset & Hi).
    apply staged_within; [done|]. by apply (same_arrays_within set).
  - (* toggleSynergyomicronBoost *)
    unfold toggleSynergyomicronBoost.
    destruct (draftSynergySet st index) as [[[draft sets] set]|] eqn:Hguard; [|done].
    destruct (draft_sets_within st _ _ _ _ Hinv Hguard) as (Hsets & Hset & Hi).
    apply staged_within; [done|]. by apply (same_arrays_within set).
  - (* addExclusionCharacter *)
    unfold addExclusionCharacter.
    destruct (draftSynergySet st synergyIndex) as [[[draft sets] set]|] eqn:Hguard; [|done].
    destruct (draft_sets_within st _ _ _ _ Hinv Hguard) as (Hsets & Hset & Hi).
    apply staged_within; [done|]. by apply (same_arrays_within set).
  - (* removeExclusionCharacter *)
    unfold removeExclusionCharacter.
    destruct (draftSynergySet st synergyIndex) as [[[draft sets] set]|] eqn:Hguard; [|done].
    destruct (draft_sets_within st _ _ _ _ Hinv Hguard) as (Hsets & Hset & Hi).
    destruct (skipIfPresentCharacters set) as [cs|]; [|done].
    destruct (length cs <=? exclIndex)%nat; [done|].
    apply staged_within; [done|]. by apply (same_arrays_within set).
Qed.

(** X17: No sequence of synergy edits pushes a set of the draft beyond four
    slots: if every set of the draft uses at most four slots and asks for
    one to four matches per category definition, the same holds after any
    run of the editor's handlers. *)
Theorem synergy_edits_keep_capacity :
  forall (edits : list SynergyEdit) (st : State),
    draftWithinCapacity st ->
    draftWithinCapacity (fold_left handleEdit edits st).
Proof.
  induction edits as [|edit edits IH]; intros st Hinv; simpl; [exact Hinv|].
  by apply IH, handleEdit_within.
Qed.

Lemma synergy_edits_keep_capacity_witness :
  draftWithinCapacity editingSidious /\
  draftWithinCapacity
    (fold_left handleEdit
       [ AddSynergySet; AddSynergyCharacter 0; AddSynergyCharacter 0;
         AddCategoryDefinition 0; UpdateCategoryDefNumberMatches 0 0 (Some 2);
         AddSynergyCharacter 0; UpdateCategoryDefNumberMatches 0 0 (Some 3) ]
       editingSidious).
Proof.
  assert (draftWithinCapacity editingSidious) as Hstart.
  { intros draft Hdraft. vm_compute in Hdraft. inversion Hdraft; subst. constructor. }
  split; [exact Hstart|]. apply synergy_edits_keep_capacity. exact Hstart.
Defined.

(** ** Edits keep the bonuses of every set in range *)

Lemma edit_set_keeps (P : SynergySet -> Prop) (st : State) (i : nat) (draft : Draft)
    (sets : list SynergySet) (set set' : SynergySet) (status : string) :
  (forall d, currentDraft st = Some d -> Forall P (orEmpty (draft_synergySets d))) ->
  draftSynergySet st i = Some (draft, sets, set) ->
  (P set -> P set') ->
  forall d, currentDraft (staged status (withSetAt i set' sets draft) st) = Some d ->
    Forall P (orEmpty (draft_synergySets d)).
Proof.
  intros Hinv Hguard Hset d Hd. rewrite currentDraft_staged in Hd. inversion Hd; subst.
  apply draftSynergySet_Some in Hguard as (Hdraft & Hsets & Hi).
  specialize (Hinv draft Hdraft). rewrite Hsets in Hinv. simpl in *.
  apply Forall_insert; [done|]. apply Hset. by apply (Forall_lookup_1 _ _ _ _ Hinv Hi).
Qed.

Lemma add_set_keeps (P : SynergySet -> Prop) (st : State) :
  (forall d, currentDraft st = Some d -> Forall P (orEmpty (draft_synergySets d))) ->
  P {| synergyEnhancement := Some 0; synergyEnhancementOmicron := None;
       characters := Some []; skipIfPresentCharacters := None;
       categoryDefinitions := None |} ->
  forall d, currentDraft (addSynergySet st) = Some d ->
    Forall P (orEmpty (draft_synergySets d)).
Proof.
  intros Hinv Htemplate. unfold addSynergySet.
  destruct (selectedCharacter st); [|done].
  destruct (currentDraft st) as [draft|] eqn:Hd; [|by rewrite Hd].
  intros d Hd'. rewrite currentDraft_staged in Hd'. inversion Hd'; subst. simpl.
  apply Forall_app. split; [by apply Hinv|]. by repeat constructor.
Qed.

Lemma remove_set_keeps (P : SynergySet -> Prop) (confirmed : bool) (index : nat)
    (st : State) :
  (forall d, currentDraft st = Some d -> Forall P (orEmpty (draft_synergySets d))) ->
  forall d, currentDraft (removeSynergySet confirmed index st) = Some d ->
    Forall P (orEmpty (draft_synergySets d)).
Proof.
  intros Hinv. unfold removeSynergySet.
  destruct (selectedCharacter st); [|done].
  destruct (currentDraft st) as [draft|] eqn:Hd; [|by rewrite Hd].
  destruct (draft_synergySets draft) as [sets|] eqn:Hs; [|by rewrite Hd].
  destruct confirmed; [|by rewrite Hd].
  intros d Hd'. rewrite currentDraft_staged in Hd'. inversion Hd'; subst. simpl.
  rewrite orEmpty_nonEmpty. apply Forall_delete.
  specialize (Hinv draft eq_refl). by rewrite Hs in Hinv.
Qed.

Lemma in_range_not_outside (n : Z) :
  outOfRange n 0 10 = false -> ~ presentOutside (Some n).
Proof.
  intros Hn (v & Hv & Hout). inversion Hv; subst.
  apply outOfRange_true in Hout. congruence.
Qed.

Lemma absent_not_outside : ~ presentOutside None.
Proof. by intros (v & Hv & _). Qed.

Lemma range_not_outside (v : Z) : 0 <= v <= 10 -> ~ presentOutside (Some v).
Proof. intros Hv (w & Hw & Hout). inversion Hw; subst. lia. Qed.

Lemma handleEdit_bonuses (st : State) (edit : SynergyEdit) :
  toggleInRange edit ->
  draftBonusesInRange st -> draftBonusesInRange (handleEdit st edit).
Proof.
  unfold draftBonusesInRange. intros Htoggle Hinv. destruct edit; simpl.
  - apply add_set_keeps; [exact Hinv|].
    split; simpl; [by apply in_range_not_outside | apply absent_not_outside].
  - by apply remove_set_keeps.
  - unfold addSynergyCharacter. repeat case_match; try done.
    eapply edit_set_keeps; [exact Hinv | eassumption | done].
  - unfold removeSynergyCharacter. repeat case_match; try done.
    eapply edit_set_keeps; [exact Hinv | eassumption | done].
  - unfold updateSynergyCharacter. repeat case_match; try done.
    eapply edit_set_keeps; [exact Hinv | eassumption | done].
  - unfold selectCharacterFromDropdown. repeat case_match; try done.
    eapply edit_set_keeps; [exact Hinv | eassumption | done].
  - unfold addCategoryDefinition. repeat case_match; try done.
    eapply edit_set_keeps; [exact Hinv | eassumption | done].
  - unfold removeCategoryDefinition. repeat case_match; try done.
    eapply edit_set_keeps; [exact Hinv | eassumption | done].
  - unfold updateCategoryDefNumberMatches. repeat case_match; try done.
    eapply edit_set_keeps; [exact Hinv | eassumption | done].
  - unfold updateSynergyEnhancement.
    destruct (draftSynergySet st index) as [[[draft sets] set]|] eqn:Hguard; [|done].
    destruct checked; cbn [andb].
    + destruct numValue as [n|]; [|done].
      destruct (outOfRange n 0 10) eqn:Hn; [done|].
      eapply edit_set_keeps; [exact Hinv | exact Hguard |].
      intros [_ Homi]. split; [by apply in_range_not_outside | done].
    + eapply edit_set_keeps; [exact Hinv | exact Hguard |].
      intros [_ Homi]. split; [apply absent_not_outside | done].
  - unfold updateSynergyomicronBoost.
    destruct (draftSynergySet st index) as [[[draft sets] set]|] eqn:Hguard; [|done].
    destruct checked; cbn [andb].
    + destruct numValue as [n|]; [|done].
      destruct (outOfRange n 0 10) eqn:Hn; [done|].
      eapply edit_set_keeps; [exact Hinv | exact Hguard |].
      intros [Henh _]. split; [done | by apply in_range_not_outside].
    + eapply edit_set_keeps; [exact Hinv | exact Hguard |].
      intros [Henh _]. split; [done | apply absent_not_outside].
  - unfold toggleSynergyEnhancement.
    destruct (draftSynergySet st index) as [[[draft sets] set]|] eqn:Hguard; [|done].
    eapply edit_set_keeps; [exact Hinv | exact Hguard |].
    intros [_ Homi]. split; [|done]. simpl.
    destruct checked; [|apply absent_not_outside].
    destruct currentValue as [v|]; apply range_not_outside; simpl in *; lia.
  - unfold toggleSynergyomicronBoost.
    destruct (draftSynergySet st index) as [[[draft sets] set]|] eqn:Hguard; [|done].
    eapply edit_set_keeps; [exact Hinv | exact Hguard |].
    intros [Henh _]. split; [done|]. simpl.
    destruct checked; [|apply absent_not_outside].
    destruct currentValue as [v|]; apply range_not_outside; simpl in *; lia.
  - unfold addExclusionCharacter. repeat case_match; try done;
      (eapply edit_set_keeps; [exact Hinv | eassumption | done]).
  - unfold removeExclusionCharacter. repeat case_match; try done;
      (eapply edit_set_keeps; [exact Hinv | eassumption | done]).
Qed.

Lemma edits_keep_bonuses (edits : list SynergyEdit) (st : State) :
  Forall toggleInRange edits ->
  draftBonusesInRange st -> draftBonusesInRange (fold_left handleEdit edits st).
Proof.
  intros Htoggles. revert st.
  induction Htoggles as [|edit edits Hedit _ IH]; intros st Hinv; simpl; [exact Hinv|].
  by apply IH, handleEdit_bonuses.
Qed.

Lemma edits_keep_capacity (edits : list SynergyEdit) (st : State) :
  draftWithinCapacity st -> draftWithinCapacity (fold_left handleEdit edits st).
Proof.
  revert st. induction edits as [|edit edits IH]; intros st Hinv; simpl; [exact Hinv|].
  by apply IH, handleEdit_within.
Qed.

Lemma slotUsage_nonneg (set : SynergySet) :
  setWithinCapacity set -> 0 <= getSynergySlotUsage set.
Proof.
  intros [_ Hdefs]. rewrite getSynergySlotUsage_sum.
  assert (0 <= sumZ (map (fun catDef => nullish (numberMatchesRequired catDef) 0)
                         (orEmpty (categoryDefinitions set)))) as Hsum; [|lia].
  induction Hdefs as [|catDef defs (n & Hn & Hrange) _ IH]; [done|].
  change (0 <= nullish (numberMatchesRequired catDef) 0 +
               sumZ (map (fun catDef => nullish (numberMatchesRequired catDef) 0) defs)).
  rewrite Hn. simpl. lia.
Qed.

(** X18: A draft that went through the synergy editor can be refused by
    Update Character only for its base tier, its own omicron boost, or a
    synergy set that references nobody: when the draft starts with every
    set within capacity and every bonus in range, then after any run of
    editor events a validation alert means the base tier is outside
    1..19, the omicron boost outside 0..10, or some set uses no slot.
    The two toggles store the value of their input field as they find
    it, so the run is one whose toggles find a value of 0..10. *)
Theorem edited_draft_refused_only_when_empty :
  forall (edits : list SynergyEdit) (st : State) (draft : Draft) (message : string),
    Forall toggleInRange edits ->
    draftWithinCapacity st ->
    draftBonusesInRange st ->
    currentDraft (fold_left handleEdit edits st) = Some draft ->
    validateDraft draft = Some message ->
    draft_baseTier draft < 1 \/ 19 < draft_baseTier draft \/
    presentOutside (draft_omicronBoost draft) \/
    exists set, set ∈ orEmpty (draft_synergySets draft) /\ getSynergySlotUsage set = 0.
Proof.
  intros edits st draft message Htoggles Hcap Hbon Hdraft Hmsg.
  apply (edits_keep_capacity edits) in Hcap.
  apply (edits_keep_bonuses edits st Htoggles) in Hbon.
  specialize (Hcap draft Hdraft). specialize (Hbon draft Hdraft).
  assert (is_Some (validateDraft draft)) as Hfail by (by eexists).
  apply validateDraft_alerts in Hfail as [H | [H | [H | (set & Hin & Hset)]]];
    [by left | by right; left | by right; right; left |].
  right; right; right. exists set. split; [exact Hin|].
  rewrite Forall_forall in Hcap, Hbon.
  pose proof (Hcap set Hin) as Hc. destruct (Hbon set Hin) as [He Ho].
  pose proof (slotUsage_nonneg set Hc) as Hnn. destruct Hc as [Hle _].
  destruct Hset as [H | [H | [H | H]]]; [done | done | lia | lia].
Qed.

Lemma edited_draft_refused_only_when_empty_witness :
  exists draft message,
    currentDraft (fold_left handleEdit [AddSynergySet] editingSidious) = Some draft /\
    validateDraft draft = Some message /\
    (draft_baseTier draft < 1 \/ 19 < draft_baseTier draft \/
     presentOutside (draft_omicronBoost draft) \/
     exists set, set ∈ orEmpty (draft_synergySets draft) /\ getSynergySlotUsage set = 0).
Proof.
  eexists. eexists. split; [vm_compute; reflexivity|]. split; [vm_compute; reflexivity|].
  eapply (edited_draft_refused_only_when_empty [AddSynergySet] editingSidious).
  - repeat constructor.
  - intros draft Hdraft. vm_compute in Hdraft. inversion Hdraft; subst. constructor.
  - intros draft Hdraft. vm_compute in Hdraft. inversion Hdraft; subst. constructor.
  - vm_compute. reflexivity.
  - vm_compute. reflexivity.
Defined.

(** ** Filled slots of a character list stay distinct *)

Lemma lookup_in_delete {A} (l : list A) (j k : nat) (x : A) :
  l !! j = Some x -> j <> k -> x ∈ delete k l.
Proof.
  intros Hj Hne. destruct (decide (j < k)%nat) as [Hlt|Hge].
  - apply (list_elem_of_lookup_2 _ j). by rewrite list_lookup_delete_lt.
  - apply (list_elem_of_lookup_2 _ (j - 1)). rewrite list_lookup_delete_ge by lia.
    by replace (S (j - 1)) with j by lia.
Qed.

Lemma entriesDistinct_blank (cs : list string) :
  entriesDistinct cs -> entriesDistinct (cs ++ [""]).
Proof.
  intros Hcs i j name Hi Hj Hname.
  apply lookup_app_Some in Hi as [Hi | [_ Hi]]; apply lookup_app_Some in Hj as [Hj | [_ Hj]].
  - by apply (Hcs i j name).
  - apply list_lookup_singleton_Some in Hj as [_ Hj]. congruence.
  - apply list_lookup_singleton_Some in Hi as [_ Hi]. congruence.
  - apply list_lookup_singleton_Some in Hi as [_ Hi]. congruence.
Qed.

Lemma entriesDistinct_delete (cs : list string) (k : nat) :
  entriesDistinct cs -> entriesDistinct (delete k cs).
Proof.
  intros Hcs i j name Hi Hj Hname.
  rewrite list_lookup_delete in Hi, Hj.
  repeat case_decide; pose proof (Hcs _ _ _ Hi Hj Hname); lia.
Qed.

Lemma entriesDistinct_insert (cs : list string) (k : nat) (name : string) :
  entriesDistinct cs -> name = "" \/ name ∉ delete k cs ->
  entriesDistinct (<[ k := name ]> cs).
Proof.
  intros Hcs Hfresh i j s Hi Hj Hs.
  apply list_lookup_insert_Some in Hi as [(-> & -> & _) | (Hik & Hi)];
    apply list_lookup_insert_Some in Hj as [(Hjk & Hjn & _) | (Hjk & Hj)].
  - done.
  - destruct Hfresh as [-> | Hfresh]; [done|].
    exfalso. apply Hfresh. by apply (lookup_in_delete cs j).
  - subst. destruct Hfresh as [-> | Hfresh]; [done|].
    exfalso. apply Hfresh. by apply (lookup_in_delete cs i).
  - by apply (Hcs i j s).
Qed.

Lemma available_fresh (st : State) (i k : nat) (draft : Draft)
    (sets : list SynergySet) (set : SynergySet) (cs : list string) (name : string) :
  draftSynergySet st i = Some (draft, sets, set) ->
  characters set = Some cs ->
  name ∈ getAvailableCharacterIds i k st ->
  cs !! k = Some name \/ name = "" \/ name ∉ cs.
Proof.
  intros Hguard Hcs. apply draftSynergySet_Some in Hguard as (Hdraft & Hsets & Hi).
  unfold getAvailableCharacterIds. rewrite Hdraft, Hsets, Hi, Hcs. simpl.
  destruct (selectedObject st) as [selected|]; [|by intros H; inversion H].
  rewrite arraySort_elem, elem_of_List_filter. intros [_ Hkeep].
  destruct (String.eqb name (id selected)); [discriminate|].
  apply orb_true_iff in Hkeep as [Hsame | Hnew].
  - apply String.eqb_eq in Hsame. destruct (cs !! k) as [editing|]; simpl in Hsame.
    + left. by subst.
    + right. by left.
  - right. right. apply includes_false. by destruct (includes cs name).
Qed.

(** X19: The synergy editor never lets a teammate appear twice in a set:
    when the filled slots of every character list of the draft are
    distinct, they still are after any editor event, provided a dropdown
    selection picks one of the ids the dropdown offers.  Typed ids are
    checked by the handler itself; blank slots may repeat. *)
Theorem synergy_edit_keeps_teammates_distinct :
  forall (st : State) (edit : SynergyEdit),
    offered st edit ->
    draftEntriesDistinct st ->
    draftEntriesDistinct (handleEdit st edit).
Proof.
  intros st edit. unfold draftEntriesDistinct. intros Hoffered Hinv.
  destruct edit; simpl.
  - apply (add_set_keeps (fun set => entriesDistinct (orEmpty (characters set))));
      [exact Hinv|].
    intros i j name Hi. discriminate Hi.
  - by apply (remove_set_keeps (fun set => entriesDistinct (orEmpty (characters set)))).
  - unfold addSynergyCharacter. repeat case_match; try done.
    eapply (edit_set_keeps (fun set => entriesDistinct (orEmpty (characters set))));
      [exact Hinv | eassumption |].
    simpl. apply entriesDistinct_blank.
  - unfold removeSynergyCharacter.
    destruct (draftSynergySet st synergyIndex) as [[[draft sets] set]|] eqn:Hguard; [|done].
    destruct (characters set) as [cs|] eqn:Hcs; [|done].
    destruct (length cs <=? charIndex)%nat; [done|].
    eapply (edit_set_keeps (fun set => entriesDistinct (orEmpty (characters set))));
      [exact Hinv | exact Hguard |].
    simpl. rewrite Hcs, orEmpty_nonEmpty. apply entriesDistinct_delete.
  - unfold updateSynergyCharacter.
    destruct (draftSynergySet st synergyIndex) as [[[draft sets] set]|] eqn:Hguard; [|done].
    destruct (characters set) as [cs|] eqn:Hcs; [|done].
    destruct (length cs <=? charIndex)%nat; [done|].
    destruct (negb (String.eqb (trim value) "") && negb (validPattern (trim value)));
      [done|].
    destruct (negb (String.eqb (trim value) "") &&
              includes (splice1 charIndex cs) (trim value)) eqn:Hdup; [done|].
    eapply (edit_set_keeps (fun set => entriesDistinct (orEmpty (characters set))));
      [exact Hinv | exact Hguard |].
    simpl. rewrite Hcs. simpl. intros Hdistinct. apply entriesDistinct_insert; [done|].
    apply andb_false_iff in Hdup as [Hblank | Hfresh].
    + left. apply String.eqb_eq. by destruct (String.eqb (trim value) "").
    + right. by apply includes_false.
  - unfold selectCharacterFromDropdown.
    destruct (draftSynergySet st synergyIndex) as [[[draft sets] set]|] eqn:Hguard; [|done].
    destruct (characters set) as [cs|] eqn:Hcs; [|done].
    destruct (length cs <=? charIndex)%nat; [done|].
    eapply (edit_set_keeps (fun set => entriesDistinct (orEmpty (characters set))));
      [exact Hinv | exact Hguard |].
    simpl. rewrite Hcs. simpl. intros Hdistinct.
    destruct (available_fresh st _ _ _ _ _ cs _ Hguard Hcs Hoffered)
      as [Hsame | [Hblank | Hfresh]].
    + by rewrite list_insert_id.
    + apply entriesDistinct_insert; [done | by left].
    + apply entriesDistinct_insert; [done|]. right.
      intros Hin. by apply Hfresh, (list_elem_of_delete_inv _ charIndex).
  - unfold addCategoryDefinition. repeat case_match; try done;
    (eapply (edit_set_keeps (fun set => entriesDistinct (orEmpty (characters set))));
      [exact Hinv | eassumption | done]).
  - unfold removeCategoryDefinition. repeat case_match; try done;
    (eapply (edit_set_keeps (fun set => entriesDistinct (orEmpty (characters set))));
      [exact Hinv | eassumption | done]).
  - unfold updateCategoryDefNumberMatches. repeat case_match; try done;
    (eapply (edit_set_keeps (fun set => entriesDistinct (orEmpty (characters set))));
      [exact Hinv | eassumption | done]).
  - unfold updateSynergyEnhancement. repeat case_match; try done;
    (eapply (edit_set_keeps (fun set => entriesDistinct (orEmpty (characters set))));
      [exact Hinv | eassumption | done]).
  - unfold updateSynergyomicronBoost. repeat case_match; try done;
    (eapply (edit_set_keeps (fun set => entriesDistinct (orEmpty (characters set))));
      [exact Hinv | eassumption | done]).
  - unfold toggleSynergyEnhancement. repeat case_match; try done;
    (eapply (edit_set_keeps (fun set => entriesDistinct (orEmpty (characters set))));
      [exact Hinv | eassumption | done]).
  - unfold toggleSynergyomicronBoost. repeat case_match; try done;
    (eapply (edit_set_keeps (fun set => entriesDistinct (orEmpty (characters set))));
      [exact Hinv | eassumption | done]).
  - unfold addExclusionCharacter. repeat case_match; try done;
    (eapply (edit_set_keeps (fun set => entriesDistinct (orEmpty (characters set))));
      [exact Hinv | eassumption | done]).
  - unfold removeExclusionCharacter. repeat case_match; try done;
    (eapply (edit_set_keeps (fun set => entriesDistinct (orEmpty (characters set))));
      [exact Hinv | eassumption | done]).
Qed.

Lemma synergy_edit_keeps_teammates_distinct_witness :
  offered (selectAt 1 grantState) (SelectCharacterFromDropdown 0 0 "BOBAFETT") /\
  draftEntriesDistinct (selectAt 1 grantState) /\
  draftEntriesDistinct
    (handleEdit (selectAt 1 grantState) (SelectCharacterFromDropdown 0 0 "BOBAFETT")).
Proof.
  assert (offered (selectAt 1 grantState) (SelectCharacterFromDropdown 0 0 "BOBAFETT"))
    as Hoffered.
  { unfold offered. apply list_elem_of_In. vm_compute. by left. }
  assert (draftEntriesDistinct (selectAt 1 grantState)) as Hstart.
  { intros draft Hdraft. vm_compute in Hdraft. inversion Hdraft; subst.
    repeat constructor. intros [|i] [|j] name Hi Hj Hname; done. }
  split; [exact Hoffered|]. split; [exact Hstart|].
  by apply synergy_edit_keeps_teammates_distinct.
Defined.

(** ** Adding a slot and removing it again *)

Lemma draftSynergySet_staged (st : State) (i : nat) (draft : Draft)
    (sets : list SynergySet) (set set' : SynergySet) (status : string) :
  draftSynergySet st i = Some (draft, sets, set) ->
  draftSynergySet (staged status (withSetAt i set' sets draft) st) i =
  Some (withSetAt i set' sets draft, <[ i := set' ]> sets, set').
Proof.
  intros Hguard. pose proof Hguard as Hsome.
  apply draftSynergySet_Some in Hsome as (_ & _ & Hi).
  unfold draftSynergySet in *.
  change (selectedCharacter (staged status (withSetAt i set' sets draft) st))
    with (selectedCharacter st).
  rewrite currentDraft_staged.
  destruct (selectedCharacter st); [|discriminate]. simpl.
  by rewrite list_lookup_insert_eq by (by apply lookup_lt_is_Some; eexists).
Qed.

Lemma splice1_last {A} (l : list A) (x : A) : splice1 (length l) (l ++ [x]) = l.
Proof. unfold splice1. induction l as [|a l IH]; simpl; [done | by rewrite IH]. Qed.

Lemma nonEmpty_orEmpty {A} (field : option (list A)) :
  field <> Some [] -> nonEmpty (orEmpty field) = field.
Proof. by destruct field as [[|a l]|]. Qed.

Lemma withSetAt_same (i : nat) (draft : Draft) (sets : list SynergySet) (set : SynergySet) :
  draft_synergySets draft = Some sets -> sets !! i = Some set ->
  withDraftSynergySets (Some (<[ i := set ]> sets)) draft = draft.
Proof.
  intros Hsets Hi. rewrite (list_insert_id _ _ _ Hi). destruct draft. simpl in *.
  by subst.
Qed.

(** X20: Adding a slot and removing it again is a round trip on the draft: in
    a set with room left, a blank teammate slot that is added and then
    removed, and likewise a category definition that is added and then
    removed, leave the draft exactly as it was - unless the list was
    present but empty, which the removal deletes from the set. *)
Theorem added_slot_removed_restores_draft :
  forall (st : State) (i : nat) (draft : Draft) (sets : list SynergySet) (set : SynergySet),
    draftSynergySet st i = Some (draft, sets, set) ->
    getSynergySlotUsage set < 4 ->
    (characters set <> Some [] ->
     currentDraft
       (removeSynergyCharacter i (length (orEmpty (characters set)))
          (addSynergyCharacter i st)) = Some draft) /\
    (categoryDefinitions set <> Some [] ->
     currentDraft
       (removeCategoryDefinition i (length (orEmpty (categoryDefinitions set)))
          (addCategoryDefinition i st)) = Some draft).
Proof.
  intros st i draft sets set Hguard Hroom.
  pose proof Hguard as Hsome. apply draftSynergySet_Some in Hsome as (_ & Hsets & Hi).
  apply Z.leb_gt in Hroom. split; intros Hpresent.
  - unfold addSynergyCharacter. rewrite Hguard. cbn zeta. rewrite Hroom.
    unfold removeSynergyCharacter. rewrite (draftSynergySet_staged _ _ _ _ _ _ _ Hguard).
    cbn [characters withCharacters].
    replace (length (orEmpty (characters set) ++ [""]) <=? length (orEmpty (characters set)))%nat
      with false by (symmetry; apply Nat.leb_gt; rewrite length_app; simpl; lia).
    rewrite currentDraft_staged, splice1_last, (nonEmpty_orEmpty _ Hpresent).
    f_equal. unfold withSetAt. rewrite list_insert_insert_eq.
    replace (withCharacters (characters set) _) with set by (by destruct set).
    exact (withSetAt_same i draft sets set Hsets Hi).
  - unfold addCategoryDefinition. rewrite Hguard. cbn zeta. rewrite Hroom.
    unfold removeCategoryDefinition. rewrite (draftSynergySet_staged _ _ _ _ _ _ _ Hguard).
    cbn [categoryDefinitions withCategoryDefinitions].
    match goal with
    | |- context [(length (?l ++ [?x]) <=? length ?l)%nat] =>
        replace (length (l ++ [x]) <=? length l)%nat
          with false by (symmetry; apply Nat.leb_gt; rewrite length_app; simpl; lia)
    end.
    rewrite currentDraft_staged, splice1_last, (nonEmpty_orEmpty _ Hpresent).
    f_equal. unfold withSetAt. rewrite list_insert_insert_eq.
    replace (withCategoryDefinitions (categoryDefinitions set) _) with set
      by (by destruct set).
    exact (withSetAt_same i draft sets set Hsets Hi).
Qed.

Lemma added_slot_removed_restores_draft_witness :
  exists draft sets set,
    draftSynergySet sidiousWithSet 0 = Some (draft, sets, set) /\
    getSynergySlotUsage set < 4 /\
    currentDraft
      (removeSynergyCharacter 0 (length (orEmpty (characters set)))
         (addSynergyCharacter 0 sidiousWithSet)) = Some draft /\
    currentDraft
      (removeCategoryDefinition 0 (length (orEmpty (categoryDefinitions set)))
         (addCategoryDefinition 0 sidiousWithSet)) = Some draft.
Proof.
  eexists. eexists. eexists.
  assert (draftSynergySet sidiousWithSet 0 = Some (_, _, _)) as Hguard
    by (vm_compute; reflexivity).
  split; [exact Hguard|]. split; [vm_compute; reflexivity|].
  destruct (added_slot_removed_restores_draft sidiousWithSet 0 _ _ _ Hguard)
    as [Hcharacters Hdefinitions]; [vm_compute; reflexivity|].
  split; [apply Hcharacters | apply Hdefinitions]; discriminate.
Defined.

(** ** What a commit stores *)

Lemma filter_all {A} (P : A -> bool) (l : list A) :
  Forall (fun x => P x = true) l -> List.filter P l = l.
Proof.
  induction 1 as [|x l Hx _ IH]; simpl; [done|]. by rewrite Hx, IH.
Qed.

Lemma filter_Forall {A} (P : A -> bool) (l : list A) :
  Forall (fun x => P x = true) (List.filter P l).
Proof.
  apply Forall_forall. intros x Hx. by apply elem_of_List_filter in Hx as [_ Hx].
Qed.

Lemma commitList_clean (l : option (list string)) : cleanList (commitList l).
Proof.
  destruct l as [l|]; simpl; [|by split; [|constructor]].
  pose proof (filter_Forall notBlank l) as Hall.
  destruct (List.filter notBlank l) as [|s rest]; simpl; by split.
Qed.

Lemma commitList_fixed (l : option (list string)) : cleanList l -> commitList l = l.
Proof.
  intros [Hne Hall]. destruct l as [l|]; simpl in *; [|done].
  rewrite (filter_all _ _ Hall). by destruct l.
Qed.



Lemma applyDraft_clean (draft : Draft) (character : Character) :
  cleanCharacter (applyDraft draft character).
Proof.
  unfold cleanCharacter. simpl. repeat split; try apply commitList_clean.
  destruct (draft_synergySets draft) as [sets|]; simpl; [|constructor].
  apply Forall_forall. intros set Hset. apply list_elem_of_fmap in Hset as (s & -> & _).
  split; apply commitList_clean.
Qed.

Lemma not_outside_in_range (v : Z) : ~ presentOutside (Some v) -> 0 <= v <= 10.
Proof.
  intros H. destruct (decide (0 <= v <= 10)) as [|Hout]; [done|].
  exfalso. apply H. exists v. split; [done | lia].
Qed.




(** ** Committing twice *)

Lemma cloneRequirements_id (ir : option IgnoreRequirements) : cloneRequirements ir = ir.
Proof. by destruct ir as [[]|]. Qed.

Lemma commitSynergySet_fixed (set : SynergySet) :
  cleanSet set -> commitSynergySet set = set.
Proof.
  intros [Hcs Hskip]. unfold commitSynergySet.
  rewrite (commitList_fixed _ Hcs), (commitList_fixed _ Hskip).
  destruct set as [enh omi cs skip defs]. simpl. f_equal.
  destruct defs as [defs|]; [|done]. f_equal.
  rewrite <- (list_fmap_id defs) at 2. apply list_fmap_ext.
  intros i catDef _. apply cloneCategoryDefinition_id.
Qed.

Lemma applyDraft_snapshot (character : Character) :
  cleanCharacter character -> applyDraft (draftSnapshot character) character = character.
Proof.
  intros (Hzetas & Homicrons & Hcategories & Hsets).
  unfold applyDraft, draftSnapshot. simpl.
  rewrite !cloneArray_id, deepCloneSynergySets_id, !cloneRequirements_id.
  rewrite (commitList_fixed _ Hzetas), (commitList_fixed _ Homicrons),
    (commitList_fixed _ Hcategories).
  destruct character as [name tier boost ir isr zetas allZetas omicrons allOmicrons cats sets].
  simpl in *. f_equal. destruct sets as [sets|]; [|done]. f_equal. simpl in Hsets.
  rewrite <- (list_fmap_id sets) at 2. apply list_fmap_ext.
  intros i set Hi. apply commitSynergySet_fixed.
  by apply (Forall_lookup_1 _ _ _ _ Hsets Hi).
Qed.

Lemma alter_fixed {A} (f : A -> A) (l : list A) (i : nat) :
  (forall x, l !! i = Some x -> f x = x) -> alter f i l = l.
Proof.
  revert i. induction l as [|a l IH]; intros i Hfix; [done|].
  destruct i as [|i]; simpl.
  - by rewrite (Hfix a).
  - f_equal. apply IH. intros x Hx. by apply Hfix.
Qed.

(** X22: Pressing Update Character twice stores nothing new: whatever the
    first commit did (nothing, an alert, or a stored record), a second
    one right after it leaves the dataset as the first one left it. *)
Theorem updateCharacter_twice_same_data :
  forall (st : State),
    characterData (updateCharacter (updateCharacter st)) =
    characterData (updateCharacter st).
Proof.
  intros st. unfold updateCharacter at 2 3.
  destruct (selectedCharacter st) as [selected|] eqn:Hsel;
    [|unfold updateCharacter; by rewrite Hsel].
  destruct (currentDraft st) as [draft|] eqn:Hdraft;
    [|unfold updateCharacter; by rewrite Hsel, Hdraft].
  destruct (validateDraft draft) as [message|] eqn:Hcheck.
  { unfold updateCharacter. simpl. by rewrite Hsel, Hdraft, Hcheck. }
  cbn zeta.
  destruct (alter (applyDraft draft) selected (characterData st) !! selected)
    as [stored|] eqn:Hstored.
  - unfold updateCharacter. simpl. rewrite Hsel.
    destruct (validateDraft (draftSnapshot stored)); [done|]. simpl.
    assert (alter (applyDraft (draftSnapshot stored)) selected
              (alter (applyDraft draft) selected (characterData st)) =
            alter (applyDraft draft) selected (characterData st)) as ->.
    { apply alter_fixed. intros x Hx.
      rewrite Hstored in Hx. inversion Hx; subst x.
      apply applyDraft_snapshot.
      rewrite list_lookup_alter_eq in Hstored.
      destruct (characterData st !! selected) as [character|]; [|discriminate].
      inversion Hstored. apply applyDraft_clean. }
    by rewrite Hstored.
  - unfold updateCharacter. simpl. rewrite Hsel, Hdraft, Hcheck. simpl.
    assert (alter (applyDraft draft) selected
              (alter (applyDraft draft) selected (characterData st)) =
            alter (applyDraft draft) selected (characterData st)) as ->.
    { apply alter_fixed. intros x Hx. congruence. }
    by rewrite Hstored.
Qed.

(** ** A valid draft is committed entry for entry *)

Lemma someBlank_false_filter (entries : list string) :
  someBlank (Some entries) = false -> List.filter notBlank entries = entries.
Proof.
  simpl. induction entries as [|s entries IH]; simpl; [done|].
  intros H. apply orb_false_iff in H as [Hs Hrest]. unfold notBlank at 1.
  rewrite Hs. simpl. by rewrite IH.
Qed.

Lemma commitList_valid (l : option (list string)) :
  someBlank l = false -> commitList l = deleteIfEmpty l.
Proof.
  destruct l as [entries|]; [|done]. intros H. simpl.
  by rewrite someBlank_false_filter.
Qed.

(** X23: When the Update Character button is enabled the commit drops
    nothing: for a valid draft that passes the range checks, every list
    of the stored record is the list of the draft, deleted when empty, and
    every stored synergy set carries the bonuses and category definitions
    of the draft's set. *)
Theorem valid_draft_commits_verbatim :
  forall (isReservedCategoryName : string -> bool) (st : State) (selected : nat)
         (draft : Draft) (character : Character),
    selectedCharacter st = Some selected ->
    currentDraft st = Some draft ->
    characterData st !! selected = Some character ->
    isDraftValid isReservedCategoryName (currentDraft st) = true ->
    validateDraft draft = None ->
    exists stored,
      characterData (updateCharacter st) !! selected = Some stored /\
      requiredZetas stored = deleteIfEmpty (draft_requiredZetas draft) /\
      requiredOmicrons stored = deleteIfEmpty (draft_requiredOmicrons draft) /\
      categories stored = deleteIfEmpty (draft_categories draft) /\
      Forall2
        (fun kept set =>
           characters kept = deleteIfEmpty (characters set) /\
           skipIfPresentCharacters kept = deleteIfEmpty (skipIfPresentCharacters set) /\
           categoryDefinitions kept = categoryDefinitions set /\
           synergyEnhancement kept = synergyEnhancement set /\
           synergyEnhancementOmicron kept = synergyEnhancementOmicron set)
        (orEmpty (synergySets stored)) (orEmpty (draft_synergySets draft)).
Proof.
  intros reserved st selected draft character Hsel Hdraft Hchar Hvalid Hok.
  destruct (updateCharacter_committed st selected draft Hsel Hdraft Hok) as (Hdata & _ & _).
  exists (applyDraft draft character). rewrite Hdata, list_lookup_alter_eq, Hchar.
  split; [done|]. rewrite Hdraft in Hvalid. unfold isDraftValid in Hvalid.
  destruct (someBlank (draft_requiredZetas draft)) eqn:Hzetas; [discriminate|].
  destruct (someBlank (draft_requiredOmicrons draft)) eqn:Homicrons; [discriminate|].
  assert (someBlank (draft_categories draft) = false) as Hcats.
  { destruct (draft_categories draft) as [cats|]; [|done]. simpl.
    destruct (existsb (fun cat => String.eqb (trim cat) "") cats); [discriminate|done]. }
  destruct (match draft_categories draft with Some _ => _ | None => _ end);
    [discriminate|].
  simpl. rewrite !commitList_valid by done. repeat split.
  destruct (draft_synergySets draft) as [sets|]; simpl in *; [|constructor].
  apply Forall2_fmap_l, Forall_Forall2_diag, Forall_forall. intros set Hset.
  rewrite forallb_forall in Hvalid.
  apply list_elem_of_In, Hvalid, andb_true_iff in Hset as [Hcs Hskip].
  apply negb_true_iff in Hcs, Hskip. simpl.
  rewrite !commitList_valid by done. repeat split.
  destruct (categoryDefinitions set) as [defs|]; [|done]. f_equal.
  rewrite <- (list_fmap_id defs) at 2. apply list_fmap_ext.
  intros i catDef _. apply cloneCategoryDefinition_id.
Qed.

Lemma valid_draft_commits_verbatim_witness :
  exists draft,
    currentDraft sidiousWithSet = Some draft /\
    exists stored,
      characterData (updateCharacter sidiousWithSet) !! 0%nat = Some stored /\
      requiredZetas stored = deleteIfEmpty (draft_requiredZetas draft) /\
      requiredOmicrons stored = deleteIfEmpty (draft_requiredOmicrons draft) /\
      categories stored = deleteIfEmpty (draft_categories draft) /\
      Forall2
        (fun kept set =>
           characters kept = deleteIfEmpty (characters set) /\
           skipIfPresentCharacters kept = deleteIfEmpty (skipIfPresentCharacters set) /\
           categoryDefinitions kept = categoryDefinitions set /\
           synergyEnhancement kept = synergyEnhancement set /\
           synergyEnhancementOmicron kept = synergyEnhancementOmicron set)
        (orEmpty (synergySets stored)) (orEmpty (draft_synergySets draft)).
Proof.
  eexists. split; [vm_compute; reflexivity|].
  eapply (valid_draft_commits_verbatim (fun _ => false) sidiousWithSet 0%nat _
            (newCharacter "EMPERORPALPATINE" 3)); vm_compute; reflexivity.
Defined.

(** ** Applying a filter *)




(** ** The toggles leave the range check to the commit *)

(** X25: Switching a bonus on through its check box stores whatever number
    the input field holds, without an alert, where the input handler
    refuses the same number on the spot; a value outside 0..10 stored
    this way is caught only by Update Character, which then alerts and
    leaves the dataset alone. *)
Theorem toggle_defers_range_check :
  forall (st : State) (index : nat) (draft : Draft) (sets : list SynergySet)
         (set : SynergySet) (v : Z),
    draftSynergySet st index = Some (draft, sets, set) ->
    v < 0 \/ 10 < v ->
    updateSynergyEnhancement index true (Some v) st =
      alert "Synergy Enhancement must be between 0 and 10" st /\
    alerts (toggleSynergyEnhancement index true (Some v) st) = alerts st /\
    draftSynergySet (toggleSynergyEnhancement index true (Some v) st) index =
      Some (withSetAt index (withSynergyEnhancement (Some v) set) sets draft,
            <[ index := withSynergyEnhancement (Some v) set ]> sets,
            withSynergyEnhancement (Some v) set) /\
    exists message,
      updateCharacter (toggleSynergyEnhancement index true (Some v) st) =
      alert message (toggleSynergyEnhancement index true (Some v) st).
Proof.
  intros st index draft sets set v Hguard Hout.
  pose proof Hguard as Hsome. apply draftSynergySet_Some in Hsome as (_ & _ & Hi).
  assert (outOfRange v 0 10 = true) as Hcheck by (by apply outOfRange_true).
  split; [|split; [|split]].
  - unfold updateSynergyEnhancement. by rewrite Hguard, Hcheck.
  - unfold toggleSynergyEnhancement. by rewrite Hguard.
  - unfold toggleSynergyEnhancement. rewrite Hguard.
    by apply (draftSynergySet_staged st index draft sets set).
  - unfold toggleSynergyEnhancement. rewrite Hguard. cbn [default].
    assert (is_Some (validateDraft
                       (withSetAt index (withSynergyEnhancement (Some v) set) sets draft)))
      as [message Hmessage].
    { apply validateDraft_alerts. right; right; right.
      exists (withSynergyEnhancement (Some v) set). split.
      - apply (list_elem_of_lookup_2 _ index). simpl.
        apply list_lookup_insert_eq. by apply lookup_lt_is_Some; eexists.
      - left. by exists v. }
    exists message.
    unfold draftSynergySet in Hguard.
    destruct (selectedCharacter st) as [selected|] eqn:Hsel; [|discriminate].
    by apply (updateCharacter_rejected _ selected
                (withSetAt index (withSynergyEnhancement (Some v) set) sets draft)).
Qed.

Lemma toggle_defers_range_check_witness :
  exists message,
    updateCharacter (toggleSynergyEnhancement 0 true (Some 50) sidiousWithSet) =
    alert message (toggleSynergyEnhancement 0 true (Some 50) sidiousWithSet).
Proof.
  assert (draftSynergySet sidiousWithSet 0 = Some (_, _, _)) as Hguard
    by (vm_compute; reflexivity).
  destruct (toggle_defers_range_check sidiousWithSet 0 _ _ _ 50 Hguard) as (_ & _ & _ & H);
    [right; lia | exact H].
Defined.
